(** * The resource manager of the VRAM server

    A shallow embedding of [vram-system/server/resource_manager.py]
    (class [ResourceManager]) and the properties of its store / get / list /
    check-version / delete / stats operations.

    Conventions of the embedding:
    - a Python [bytes] value is a [list byte], a [str] a [string] (its UTF-8
      bytes, on which byte-wise comparison is code-point comparison), an
      [int] a [Z];
    - a Python [dict] is an insertion-ordered association list with unique
      keys ([PyDict]): [list_resources] iterates over it and feeds a stable
      sort, so the order of the entries is observable;
    - the manager object, the files it owns and the log it writes form the
      [World]; every method is a function in the monad [M], which threads
      the world and a possibly raised exception, as the [try] / [except]
      blocks of the source do;
    - what the operating system and the clock decide (whether a write or a
      removal fails, what [datetime.now()] returns) is an explicit [Env]
      argument of each call;
    - [hashlib.sha256] is SHA-256 itself, checked on its test vectors;
      [gzip] is an interface with the round-trip law of the specification,
      and a gzip codec of stored blocks is shown to satisfy it;
    - the attributes [usage_stats] and [resource_cache] of the manager are
      never read or written after [__init__] and are left out, and a
      metadata file is taken to hold, when it parses, a value of the shape
      that [_save_metadata] writes;
    - the handlers of [vram-system/server/app.py] that call the manager
      with an identifier from the URL or a JSON body are functions in the
      same monad that return the value given to [jsonify] and the status
      code; [base64] is the codec of the standard library. *)

From Stdlib Require Import ZArith NArith QArith List String Ascii Bool Lia.
From Stdlib Require Import Permutation Sorted DecimalString.
From stdpp Require Import gmap strings.

Set Default Proof Using "Type".

(* ================================================================= *)
(** * Part I: the model *)
(* ================================================================= *)

(** ** Python values *)

Definition bytes : Type := list Byte.byte.

(** The bytes literal [b"..."] of an ASCII string. *)
Definition ascii_bytes (s : string) : bytes :=
  map byte_of_ascii (list_ascii_of_string s).

(** [len(x)] *)
Definition len {A : Type} (x : list A) : Z := Z.of_nat (length x).

(** [str(n)] for a non-negative integer. *)
Definition str_of_Z (n : Z) : string :=
  NilZero.string_of_uint (N.to_uint (Z.to_N n)).

(** The value of [a / b if ... else 0]: an [int] or a [float].  A float is
    represented by the rational it stands for; Python rounds that exact
    quotient to the nearest double. *)
Inductive pynumber : Type :=
| PyInt (z : Z)
| PyFloat (q : Q).

(** Exceptions that the modelled code can meet; [str_of_exn] is [str(e)]. *)
Inductive exn : Type :=
| OSError (msg : string)
| BadGzipFile (msg : string)
| KeyError (key : string).

Definition str_of_exn (e : exn) : string :=
  match e with
  | OSError msg => msg
  | BadGzipFile msg => msg
  | KeyError key => "'" +:+ key +:+ "'"
  end.

Inductive outcome (A : Type) : Type :=
| Ok (a : A)
| Raise (e : exn).
Arguments Ok {A} a.
Arguments Raise {A} e.

(** ** Insertion-ordered dictionaries with string keys *)

Module PyDict.

Definition t (V : Type) : Type := list (string * V).

Definition empty {V : Type} : t V := [].

(** [d.get(k)] *)
Fixpoint get {V : Type} (d : t V) (k : string) : option V :=
  match d with
  | [] => None
  | (k', v) :: d' => if String.eqb k' k then Some v else get d' k
  end.

(** [k in d] *)
Definition contains {V : Type} (d : t V) (k : string) : bool :=
  match get d k with Some _ => true | None => false end.

(** [d[k] = v]: an existing key keeps its position, a new key goes last. *)
Fixpoint set {V : Type} (d : t V) (k : string) (v : V) : t V :=
  match d with
  | [] => [(k, v)]
  | (k', v') :: d' =>
      if String.eqb k' k then (k, v) :: d' else (k', v') :: set d' k v
  end.

(** [del d[k]] for a key that is present: the entry of [k] goes, the others
    keep their order. *)
Fixpoint del {V : Type} (d : t V) (k : string) : t V :=
  match d with
  | [] => []
  | (k', v') :: d' =>
      if String.eqb k' k then del d' k else (k', v') :: del d' k
  end.

Definition keys {V : Type} (d : t V) : list string := map fst d.
Definition values {V : Type} (d : t V) : list V := map snd d.
Definition items {V : Type} (d : t V) : list (string * V) := d.

(** The shape every Python dict has: no key occurs twice. *)
Definition wf {V : Type} (d : t V) : Prop := NoDup (keys d).

End PyDict.

(** ** Timestamps: [datetime.now().isoformat()] *)

Record datetime : Type := {
  year : N; month : N; day : N;
  hour : N; minute : N; second : N; microsecond : N
}.




Definition digit_char (d : N) : ascii := ascii_of_N (48 + d).

(** [w] decimal digits of [n], most significant first: the ["%0wd"] of a
    number below [10 ^ w]. *)
Fixpoint digits (w : nat) (n : N) : string :=
  match w with
  | O => EmptyString
  | S w' =>
      String (digit_char (n / 10 ^ N.of_nat w'))
             (digits w' (n mod 10 ^ N.of_nat w'))
  end.

(** The fractional part of a timestamp: [".ffffff"] when the microseconds
    are not zero, nothing otherwise. *)
Definition fraction (us : N) : string :=
  if (us =? 0)%N then "" else "." +:+ digits 6 us.

(** [d.isoformat()]: ["YYYY-MM-DDTHH:MM:SS"], followed by the fraction. *)
Definition isoformat (d : datetime) : string :=
  digits 4 (year d) +:+ "-" +:+ digits 2 (month d) +:+ "-" +:+
  digits 2 (day d) +:+ "T" +:+ digits 2 (hour d) +:+ ":" +:+
  digits 2 (minute d) +:+ ":" +:+ digits 2 (second d) +:+
  fraction (microsecond d).

(** ** The content hasher: SHA-256

    [hashlib.sha256(data).hexdigest()], on octets as numbers. *)

Module Sha256.

Definition word (x : N) : N := (x mod 2 ^ 32)%N.

Definition rotr (n x : N) : N :=
  N.lor (N.shiftr x n) (word (N.shiftl x (32 - n))).

Definition xor3 (x y z : N) : N := N.lxor (N.lxor x y) z.

Definition ch (x y z : N) : N :=
  N.lxor (N.land x y) (N.land (N.lxor x 0xffffffff) z).

Definition maj (x y z : N) : N :=
  xor3 (N.land x y) (N.land x z) (N.land y z).

Definition big_sigma0 (x : N) : N := xor3 (rotr 2 x) (rotr 13 x) (rotr 22 x).
Definition big_sigma1 (x : N) : N := xor3 (rotr 6 x) (rotr 11 x) (rotr 25 x).
Definition small_sigma0 (x : N) : N :=
  xor3 (rotr 7 x) (rotr 18 x) (N.shiftr x 3).
Definition small_sigma1 (x : N) : N :=
  xor3 (rotr 17 x) (rotr 19 x) (N.shiftr x 10).

(** The constants of SHA-256 come from the first primes: the first 32 bits
    of the fractional parts of their cube roots (one per round) and of
    their square roots (the initial hash). *)
Definition is_prime (n : nat) : bool :=
  forallb (fun d => negb (Nat.eqb (Nat.modulo n d) 0)) (seq 2 (n - 2)).

Definition primes_below (bound : nat) : list N :=
  map N.of_nat (List.filter is_prime (seq 2 (bound - 2))).

(** The largest [r] below [2 ^ bits] with [r ^ 3 <= n], found bit by bit. *)
Fixpoint cube_root (bits : nat) (n r : N) : N :=
  match bits with
  | O => r
  | S bits' =>
      let r' := (r + 2 ^ N.of_nat bits')%N in
      cube_root bits' n (if (r' * r' * r' <=? n)%N then r' else r)
  end.

Definition round_constants : list N :=
  Eval vm_compute in
    map (fun p => word (cube_root 40 (p * 2 ^ 96) 0)) (primes_below 312).

Definition initial_hash : list N :=
  Eval vm_compute in
    map (fun p => word (N.sqrt (p * 2 ^ 64))) (primes_below 20).

(** [width] octets of [x], most significant first. *)
Definition big_endian (width : nat) (x : N) : list N :=
  map (fun i => (N.shiftr x (8 * N.of_nat i) mod 256)%N) (rev (seq 0 width)).

(** The message followed by the bit 1, zeros, and its length in bits as a
    64-bit big-endian number: a multiple of 64 octets. *)
Definition padded (message : list N) : list N :=
  let n := length message in
  let zeros := Nat.modulo (119 - Nat.modulo n 64) 64 in
  message ++ [0x80%N] ++ repeat 0%N zeros
          ++ big_endian 8 (8 * N.of_nat n).

Definition from_big_endian (octets : list N) : N :=
  fold_left (fun acc o => (acc * 256 + o)%N) octets 0%N.

(** The words of a block of 64 octets. *)
Fixpoint words (count : nat) (octets : list N) : list N :=
  match count with
  | O => []
  | S count' =>
      from_big_endian (firstn 4 octets) :: words count' (skipn 4 octets)
  end.

(** The message schedule, latest word first. *)
Fixpoint schedule (count : nat) (recent : list N) : list N :=
  match count with
  | O => recent
  | S count' =>
      let w := word (small_sigma1 (nth 1 recent 0) + nth 6 recent 0
                     + small_sigma0 (nth 14 recent 0) + nth 15 recent 0)%N in
      schedule count' (w :: recent)
  end.

Definition round (state : list N) (kw : N * N) : list N :=
  match state with
  | [a; b; c; d; e; f; g; h] =>
      let t1 := (h + big_sigma1 e + ch e f g + fst kw + snd kw)%N in
      let t2 := (big_sigma0 a + maj a b c)%N in
      [word (t1 + t2); a; b; c; word (d + t1); e; f; g]
  | _ => state
  end.

Definition compress_block (hash : list N) (block : list N) : list N :=
  let w := rev (schedule 48 (rev (words 16 block))) in
  let final := fold_left round (combine round_constants w) hash in
  map (fun p => word (fst p + snd p)) (combine hash final).

Fixpoint blocks (count : nat) (octets : list N) (hash : list N) : list N :=
  match count with
  | O => hash
  | S count' =>
      blocks count' (skipn 64 octets) (compress_block hash (firstn 64 octets))
  end.

Definition hex_digit (d : N) : ascii :=
  if (d <? 10)%N then ascii_of_N (48 + d) else ascii_of_N (87 + d).

Definition hex_word (x : N) : string :=
  string_of_list_ascii
    (map (fun i => hex_digit (N.shiftr x (4 * N.of_nat i) mod 16)%N)
         (rev (seq 0 8))).

Definition hexdigest (data : list Byte.byte) : string :=
  let octets := padded (map Byte.to_N data) in
  let hash := blocks (length octets / 64) octets initial_hash in
  String.concat "" (map hex_word hash).

End Sha256.

(** ** The compressor *)

(** Modelled from the spec: [gzip.compress] and [gzip.decompress] belong to
    Python's standard library, whose code is not part of the repository.
    The spec's Compressor contract is taken instead: compress and
    decompress form a lossless round trip on every byte sequence, the empty
    one included, and decompress fails on data that is not valid compressed
    output.  The first argument of [gzip_compress] is the modification time
    that the gzip header records (the clock, when the caller passes none,
    as here). *)
Class Compressor : Type := {
  gzip_compress : Z -> bytes -> bytes;
  gzip_decompress : bytes -> outcome bytes;
  gzip_roundtrip :
    forall (mtime : Z) (x : bytes),
      gzip_decompress (gzip_compress mtime x) = Ok x
}.

(** *** A compressor that meets the contract

    A gzip member (RFC 1952) whose deflate stream consists of stored blocks
    only (RFC 1951, BTYPE 00), with its CRC-32 and size trailer; the
    decompressor accepts these members and rejects everything else.  It is
    the compressor on which the examples below are run. *)

Module StoredGzip.

Definition octet (n : N) : Byte.byte :=
  match Byte.of_N (n mod 256) with
  | Some b => b
  | None => Byte.x00
  end.

(** [width] octets of [x], least significant first. *)
Fixpoint little_endian (width : nat) (x : N) : bytes :=
  match width with
  | O => []
  | S width' => octet x :: little_endian width' (x / 256)
  end.

Fixpoint from_little_endian (octets : bytes) : N :=
  match octets with
  | [] => 0
  | b :: rest => (Byte.to_N b + 256 * from_little_endian rest)%N
  end.

(** CRC-32 (polynomial 0xEDB88320, reflected), one bit at a time. *)
Fixpoint crc_bits (count : nat) (crc : N) : N :=
  match count with
  | O => crc
  | S count' =>
      crc_bits count'
        (if N.testbit crc 0 then N.lxor (N.shiftr crc 1) 0xEDB88320
         else N.shiftr crc 1)
  end.

Definition crc32 (data : bytes) : N :=
  (N.lxor
     (fold_left (fun crc b => crc_bits 8 (N.lxor crc (Byte.to_N b)))
                data 0xFFFFFFFF%N)
     0xFFFFFFFF mod 2 ^ 32)%N.

(** The most bytes a stored block holds. *)
Definition max_stored : N := 65535.

(** One stored block: the header bit BFINAL (BTYPE is 00), LEN, its
    complement NLEN, and the bytes themselves. *)
Definition stored_block (final : bool) (chunk : bytes) : bytes :=
  (if final then Byte.x01 else Byte.x00)
  :: little_endian 2 (N.of_nat (length chunk))
  ++ little_endian 2 (65535 - N.of_nat (length chunk))
  ++ chunk.

Fixpoint deflate_stored (fuel : nat) (data : bytes) : bytes :=
  match fuel with
  | O => stored_block true data
  | S fuel' =>
      if (N.of_nat (length data) <=? max_stored)%N
      then stored_block true data
      else stored_block false (firstn (N.to_nat max_stored) data)
           ++ deflate_stored fuel' (skipn (N.to_nat max_stored) data)
  end.

(** The inverse: the data of the blocks, and what follows the last one. *)
Fixpoint inflate_stored (fuel : nat) (input : bytes) : option (bytes * bytes) :=
  match fuel with
  | O => None
  | S fuel' =>
      match input with
      | header :: l0 :: l1 :: n0 :: n1 :: rest =>
          let size := from_little_endian [l0; l1] in
          let complement := from_little_endian [n0; n1] in
          if negb ((Byte.to_N header <? 2)%N
                   && (size + complement =? 65535)%N
                   && (N.to_nat size <=? length rest)%nat)
          then None
          else
            let chunk := firstn (N.to_nat size) rest in
            let rest' := skipn (N.to_nat size) rest in
            if (Byte.to_N header =? 1)%N then Some (chunk, rest')
            else
              match inflate_stored fuel' rest' with
              | Some (data, rest'') => Some (chunk ++ data, rest'')
              | None => None
              end
      | _ => None
      end
  end.

(** ID1 ID2, CM = deflate, no flags, MTIME, XFL, OS = unknown. *)
Definition member_header (mtime : Z) : bytes :=
  [Byte.x1f; Byte.x8b; Byte.x08; Byte.x00]
  ++ little_endian 4 (Z.to_N (mtime mod 2 ^ 32))
  ++ [Byte.x02; Byte.xff].

Definition compress (mtime : Z) (data : bytes) : bytes :=
  member_header mtime
  ++ deflate_stored (length data) data
  ++ little_endian 4 (crc32 data)
  ++ little_endian 4 (N.of_nat (length data) mod 2 ^ 32).

Definition decompress (input : bytes) : outcome bytes :=
  match input with
  | Byte.x1f :: Byte.x8b :: Byte.x08 :: Byte.x00
    :: _ :: _ :: _ :: _ :: _ :: _ :: body =>
      match inflate_stored (length body) body with
      | Some (data, [c0; c1; c2; c3; s0; s1; s2; s3]) =>
          if negb (from_little_endian [c0; c1; c2; c3] =? crc32 data)%N
          then Raise (BadGzipFile "CRC check failed")
          else if negb (from_little_endian [s0; s1; s2; s3]
                        =? N.of_nat (length data) mod 2 ^ 32)%N
          then Raise (BadGzipFile "Incorrect length of data produced")
          else Ok data
      | _ => Raise (BadGzipFile "Error while decompressing data")
      end
  | _ => Raise (BadGzipFile "Not a gzipped file")
  end.

End StoredGzip.

(** ** Metadata *)

(** One entry of [metadata["resources"]].  The fields are the keys of the
    Python dict: [type], [size], [compressed_size], [hash], [compressed],
    [priority], [created], [last_accessed], [access_count]. *)
Record ResourceMeta : Type := {
  r_type : string;
  r_size : Z;
  r_compressed_size : Z;
  r_hash : string;
  r_compressed : bool;
  r_priority : Z;
  r_created : string;
  r_last_accessed : string;
  r_access_count : Z
}.

(** [self.metadata]: [{"resources": {...}, "versions": {...}}]. *)
Record Metadata : Type := {
  resources : PyDict.t ResourceMeta;
  versions : PyDict.t Z
}.

Definition empty_metadata : Metadata :=
  {| resources := PyDict.empty; versions := PyDict.empty |}.

(** ** The world: the manager object, its files and its log *)

(** What [metadata.json] holds: nothing (no file), text that [json.load]
    rejects, or the dump of a metadata value. *)
Inductive MetaFile : Type :=
| Missing
| Unparseable
| Holds (m : Metadata).

Inductive LogRecord : Type :=
| INFO (msg : string)
| ERROR (msg : string).

Record World : Type := {
  resources_dir : string;
  metadata_file : string;
  metadata : Metadata;
  payload_files : gmap string bytes;
  metadata_on_disk : MetaFile;
  logged : list LogRecord
}.

Definition with_metadata (m : Metadata) (w : World) : World :=
  {| resources_dir := resources_dir w; metadata_file := metadata_file w;
     metadata := m; payload_files := payload_files w;
     metadata_on_disk := metadata_on_disk w; logged := logged w |}.

Definition with_payload_files (fs : gmap string bytes) (w : World) : World :=
  {| resources_dir := resources_dir w; metadata_file := metadata_file w;
     metadata := metadata w; payload_files := fs;
     metadata_on_disk := metadata_on_disk w; logged := logged w |}.

Definition with_metadata_on_disk (f : MetaFile) (w : World) : World :=
  {| resources_dir := resources_dir w; metadata_file := metadata_file w;
     metadata := metadata w; payload_files := payload_files w;
     metadata_on_disk := f; logged := logged w |}.

Definition with_logged (l : list LogRecord) (w : World) : World :=
  {| resources_dir := resources_dir w; metadata_file := metadata_file w;
     metadata := metadata w; payload_files := payload_files w;
     metadata_on_disk := metadata_on_disk w; logged := l |}.

(** How a write to a file ends: it succeeds; [open] fails and the file is
    left as it was; or [open] succeeds, which truncates the file, and the
    write fails after [written] bytes. *)
Inductive WriteOutcome : Type :=
| WriteOk
| OpenFails (msg : string)
| WriteFails (written : nat) (msg : string).

(** What the environment decides during one call. *)
Record Env : Type := {
  now_first : datetime;       (* the first [datetime.now()] of the call *)
  now_second : datetime;      (* the second one ([store_resource] only) *)
  gzip_mtime : Z;             (* the clock that [gzip.compress] reads *)
  payload_io : WriteOutcome;  (* the write of the payload file *)
  remove_io : option string;  (* [os.remove]: [Some msg] when it fails *)
  metadata_io : WriteOutcome  (* the write of [metadata.json] *)
}.

(** ** The monad of the methods *)

Definition M (A : Type) : Type := World -> outcome A * World.

Definition ret {A : Type} (a : A) : M A := fun w => (Ok a, w).

Definition bind {A B : Type} (m : M A) (k : A -> M B) : M B :=
  fun w =>
    match m w with
    | (Ok a, w') => k a w'
    | (Raise e, w') => (Raise e, w')
    end.

Definition raise {A : Type} (e : exn) : M A := fun w => (Raise e, w).

(** [try: body except Exception as e: handler(e)] *)
Definition try_except {A : Type} (body : M A) (handler : exn -> M A) : M A :=
  fun w =>
    match body w with
    | (Ok a, w') => (Ok a, w')
    | (Raise e, w') => handler e w'
    end.

Definition gets {A : Type} (f : World -> A) : M A := fun w => (Ok (f w), w).
Definition modify (f : World -> World) : M unit := fun w => (Ok tt, f w).
Definition lift {A : Type} (o : outcome A) : M A := fun w => (o, w).

Declare Scope monad_scope.
Delimit Scope monad_scope with monad.
Notation "x <- m ;; k" := (bind m (fun x => k))
  (at level 100, m at next level, right associativity) : monad_scope.
Notation "m ;; k" := (bind m (fun _ => k))
  (at level 100, right associativity) : monad_scope.

Local Open Scope monad_scope.

(** ** Files and logging *)

(** [os.path.join(a, b)] on a POSIX system. *)
Definition path_join (a b : string) : string :=
  if String.prefix "/" b then b
  else if (String.eqb a ""
           || String.eqb (String.substring (String.length a - 1) 1 a) "/")%bool
       then a +:+ b
       else a +:+ "/" +:+ b.

(** [os.path.join(self.resources_dir, f"{resource_id}.bin")] *)
Definition payload_path (resource_id : string) : M string :=
  gets (fun w => path_join (resources_dir w) (resource_id +:+ ".bin")).

(** [self.logger.info(msg)] and [self.logger.error(msg)] *)
Definition log_info (msg : string) : M unit :=
  modify (fun w => with_logged (logged w ++ [INFO msg]) w).

Definition log_error (msg : string) : M unit :=
  modify (fun w => with_logged (logged w ++ [ERROR msg]) w).

(** [with open(file_path, 'wb') as f: f.write(storage_data)].  Opening
    for writing empties the file; a write that fails afterwards leaves in
    it the bytes that were written until then. *)
Definition write_payload (io : WriteOutcome) (file_path : string)
    (storage_data : bytes) : M unit :=
  match io with
  | WriteOk =>
      modify (fun w =>
        with_payload_files (<[file_path := storage_data]> (payload_files w)) w)
  | OpenFails msg => raise (OSError msg)
  | WriteFails written msg =>
      modify (fun w =>
        with_payload_files
          (<[file_path := firstn written storage_data]> (payload_files w)) w) ;;
      raise (OSError msg)
  end.

(** [os.path.exists(file_path)] *)
Definition path_exists (file_path : string) : M bool :=
  gets (fun w =>
    match payload_files w !! file_path with Some _ => true | None => false end).

(** [with open(file_path, 'rb') as f: storage_data = f.read()] *)
Definition read_payload (file_path : string) : M bytes :=
  fun w =>
    match payload_files w !! file_path with
    | Some storage_data => (Ok storage_data, w)
    | None => (Raise (OSError ("No such file or directory: " +:+ file_path)), w)
    end.

(** [os.remove(file_path)] *)
Definition remove_payload (io : option string) (file_path : string) : M unit :=
  match io with
  | None =>
      modify (fun w => with_payload_files (delete file_path (payload_files w)) w)
  | Some msg => raise (OSError msg)
  end.

(** [with open(self.metadata_file, 'w') as f: json.dump(self.metadata, f,
    indent=2)].  A dump that is cut short leaves text that is no JSON
    document. *)
Definition dump_metadata (io : WriteOutcome) : M unit :=
  match io with
  | WriteOk => modify (fun w => with_metadata_on_disk (Holds (metadata w)) w)
  | OpenFails msg => raise (OSError msg)
  | WriteFails _ msg =>
      modify (with_metadata_on_disk Unparseable) ;; raise (OSError msg)
  end.

(** ** Accessors of [self.metadata] *)

(** [resource_id in self.metadata["resources"]] *)
Definition resource_known (resource_id : string) : M bool :=
  gets (fun w => PyDict.contains (resources (metadata w)) resource_id).

(** [self.metadata["resources"][resource_id]] *)
Definition resource_getitem (resource_id : string) : M ResourceMeta :=
  fun w =>
    match PyDict.get (resources (metadata w)) resource_id with
    | Some resource_meta => (Ok resource_meta, w)
    | None => (Raise (KeyError resource_id), w)
    end.

(** [self.metadata["resources"][resource_id] = resource_meta] *)
Definition resource_setitem (resource_id : string) (resource_meta : ResourceMeta)
  : M unit :=
  modify (fun w =>
    with_metadata
      {| resources := PyDict.set (resources (metadata w)) resource_id resource_meta;
         versions := versions (metadata w) |} w).

(** [del self.metadata["resources"][resource_id]] *)
Definition resource_delitem (resource_id : string) : M unit :=
  modify (fun w =>
    with_metadata
      {| resources := PyDict.del (resources (metadata w)) resource_id;
         versions := versions (metadata w) |} w).

(** [self.metadata["versions"].get(resource_id, default)] *)
Definition version_get (resource_id : string) (default : Z) : M Z :=
  gets (fun w =>
    match PyDict.get (versions (metadata w)) resource_id with
    | Some v => v
    | None => default
    end).

(** [self.metadata["versions"][resource_id]] *)
Definition version_getitem (resource_id : string) : M Z :=
  fun w =>
    match PyDict.get (versions (metadata w)) resource_id with
    | Some v => (Ok v, w)
    | None => (Raise (KeyError resource_id), w)
    end.

(** [self.metadata["versions"][resource_id] = v] *)
Definition version_setitem (resource_id : string) (v : Z) : M unit :=
  modify (fun w =>
    with_metadata
      {| resources := resources (metadata w);
         versions := PyDict.set (versions (metadata w)) resource_id v |} w).

(** [resource_id in self.metadata["versions"]] *)
Definition version_known (resource_id : string) : M bool :=
  gets (fun w => PyDict.contains (versions (metadata w)) resource_id).

(** [del self.metadata["versions"][resource_id]] *)
Definition version_delitem (resource_id : string) : M unit :=
  modify (fun w =>
    with_metadata
      {| resources := resources (metadata w);
         versions := PyDict.del (versions (metadata w)) resource_id |} w).

(** ** Results of the methods *)

(** The dict that [store_resource] returns: [{"status": "success", ...}] or
    [{"status": "error", "message": ...}]. *)
Inductive StoreResult : Type :=
| StoreSuccess (resource_id : string) (size compressed_size version : Z)
               (hash : string)
| StoreError (message : string).

(** One element of the list that [list_resources] returns. *)
Record Summary : Type := {
  s_id : string;
  s_type : string;
  s_size : Z;
  s_compressed_size : Z;
  s_priority : Z;
  s_version : Z;
  s_last_accessed : string;
  s_access_count : Z
}.

(** The dict that [get_storage_stats] returns. *)
Record StorageStats : Type := {
  resource_count : Z;
  total_size : Z;
  total_compressed_size : Z;
  compression_ratio : pynumber;
  disk_usage_mb : Q
}.

(** [sorted(l, key=key, reverse=True)] for string keys: a stable sort into
    descending order.  Elements with equal keys keep their relative order,
    so an element is put in front of the first one whose key is not
    greater than its own. *)
Fixpoint insert_desc {A : Type} (key : A -> string) (x : A) (l : list A)
  : list A :=
  match l with
  | [] => [x]
  | y :: l' =>
      if String.ltb (key x) (key y) then y :: insert_desc key x l'
      else x :: y :: l'
  end.

Definition sorted_desc {A : Type} (key : A -> string) (l : list A) : list A :=
  fold_right (insert_desc key) [] l.

(** [a] may stand before [b] in a descending list: the key of [b] is not
    above that of [a]. *)
Definition key_ge {A : Type} (key : A -> string) (a b : A) : Prop :=
  String.leb (key b) (key a) = true.

(** [a] must stand before [b]: its key is above. *)
Definition key_gt {A : Type} (key : A -> string) (a b : A) : Prop :=
  String.ltb (key b) (key a) = true.

(** ** The methods of [ResourceManager] *)

Section ResourceManager.

Context {compressor : Compressor}.

(** [_load_metadata]: the content of the metadata file when it exists and
    parses, the empty metadata otherwise.  A file that does not parse is
    logged with the message [json_error] of the parser. *)
Definition _load_metadata (json_error : string) : M Metadata :=
  fun w =>
    match metadata_on_disk w with
    | Holds m => (Ok m, w)
    | Unparseable =>
        (log_error ("Error loading metadata: " +:+ json_error) ;;
         ret empty_metadata) w
    | Missing => (Ok empty_metadata, w)
    end.

(** [__init__]: a manager on the directory [dir], whose metadata are loaded
    from the files found there. *)
Definition init (dir : string) (fs : gmap string bytes) (mf : MetaFile)
    (json_error : string) : World :=
  let w0 := {| resources_dir := dir;
               metadata_file := path_join dir "metadata.json";
               metadata := empty_metadata;
               payload_files := fs;
               metadata_on_disk := mf;
               logged := [] |} in
  match _load_metadata json_error w0 with
  | (Ok m, w1) => with_metadata m w1
  | (Raise _, w1) => w1
  end.

(** [_save_metadata]: a failure is logged and goes no further. *)
Definition _save_metadata (io : WriteOutcome) : M unit :=
  try_except
    (dump_metadata io)
    (fun e => log_error ("Error saving metadata: " +:+ str_of_exn e)).

Definition _calculate_hash (data : bytes) : string := Sha256.hexdigest data.

Definition _compress_data (mtime : Z) (data : bytes) : bytes :=
  gzip_compress mtime data.

Definition _decompress_data (compressed_data : bytes) : outcome bytes :=
  gzip_decompress compressed_data.

(** [self._compress_data(data) if compress else data] *)
Definition storage_bytes (env : Env) (compress : bool) (data : bytes) : bytes :=
  if compress then _compress_data (gzip_mtime env) data else data.

(** The record that [store_resource] puts into [metadata["resources"]]. *)
Definition new_record (env : Env) (data : bytes) (resource_type : string)
    (priority : Z) (compress : bool) : ResourceMeta :=
  {| r_type := resource_type;
     r_size := len data;
     r_compressed_size := len (storage_bytes env compress data);
     r_hash := _calculate_hash data;
     r_compressed := compress;
     r_priority := priority;
     r_created := isoformat (now_first env);
     r_last_accessed := isoformat (now_second env);
     r_access_count := 0 |}.

Definition store_resource (env : Env) (resource_id : string) (data : bytes)
    (resource_type : string) (priority : Z) (compress : bool)
  : M StoreResult :=
  try_except
    (let data_hash := _calculate_hash data in
     let storage_data := storage_bytes env compress data in
     file_path <- payload_path resource_id ;;
     write_payload (payload_io env) file_path storage_data ;;
     resource_setitem resource_id
       (new_record env data resource_type priority compress) ;;
     old_version <- version_get resource_id 0 ;;
     version_setitem resource_id (old_version + 1) ;;
     _save_metadata (metadata_io env) ;;
     log_info ("Stored resource " +:+ resource_id +:+ " (" +:+
               str_of_Z (len data) +:+ " bytes)") ;;
     version <- version_getitem resource_id ;;
     ret (StoreSuccess resource_id (len data) (len storage_data) version
                       data_hash))
    (fun e =>
       log_error ("Error storing resource " +:+ resource_id +:+ ": " +:+
                  str_of_exn e) ;;
       ret (StoreError (str_of_exn e))).

(** The two assignments [resource_meta["last_accessed"] = ...] and
    [resource_meta["access_count"] += 1]. *)
Definition touch (now : datetime) (resource_meta : ResourceMeta)
  : ResourceMeta :=
  {| r_type := r_type resource_meta;
     r_size := r_size resource_meta;
     r_compressed_size := r_compressed_size resource_meta;
     r_hash := r_hash resource_meta;
     r_compressed := r_compressed resource_meta;
     r_priority := r_priority resource_meta;
     r_created := r_created resource_meta;
     r_last_accessed := isoformat now;
     r_access_count := r_access_count resource_meta + 1 |}.

(** [resource_meta] is the dict stored in [self.metadata]: assigning to its
    keys changes the stored record in place, and the caller receives that
    same record. *)
Definition get_resource (env : Env) (resource_id : string)
  : M (option (bytes * ResourceMeta)) :=
  try_except
    (known <- resource_known resource_id ;;
     if negb known then ret None
     else
       (file_path <- payload_path resource_id ;;
        present <- path_exists file_path ;;
        if negb present then ret None
        else
          (storage_data <- read_payload file_path ;;
           resource_meta <- resource_getitem resource_id ;;
           data <- (if r_compressed resource_meta
                    then lift (_decompress_data storage_data)
                    else ret storage_data) ;;
           if negb (String.eqb (_calculate_hash data) (r_hash resource_meta))
           then
             (log_error ("Hash mismatch for resource " +:+ resource_id) ;;
              ret None)
           else
             (let resource_meta' := touch (now_first env) resource_meta in
              resource_setitem resource_id resource_meta' ;;
              _save_metadata (metadata_io env) ;;
              log_info ("Retrieved resource " +:+ resource_id) ;;
              ret (Some (data, resource_meta'))))))
    (fun e =>
       log_error ("Error retrieving resource " +:+ resource_id +:+ ": " +:+
                  str_of_exn e) ;;
       ret None).

(** The summary that [list_resources] appends for one entry. *)
Definition summary (vs : PyDict.t Z) (resource_id : string)
    (meta : ResourceMeta) : Summary :=
  {| s_id := resource_id;
     s_type := r_type meta;
     s_size := r_size meta;
     s_compressed_size := r_compressed_size meta;
     s_priority := r_priority meta;
     s_version := match PyDict.get vs resource_id with
                  | Some v => v
                  | None => 1
                  end;
     s_last_accessed := r_last_accessed meta;
     s_access_count := r_access_count meta |}.

(** [resource_type is None or meta["type"] == resource_type] *)
Definition type_matches (resource_type : option string) (meta : ResourceMeta)
  : bool :=
  match resource_type with
  | None => true
  | Some ty => String.eqb (r_type meta) ty
  end.

(** The loop of [list_resources] over [self.metadata["resources"].items()]. *)
Fixpoint collect (vs : PyDict.t Z) (resource_type : option string)
    (entries : list (string * ResourceMeta)) : list Summary :=
  match entries with
  | [] => []
  | (resource_id, meta) :: rest =>
      if type_matches resource_type meta
      then summary vs resource_id meta :: collect vs resource_type rest
      else collect vs resource_type rest
  end.

Definition list_resources (resource_type : option string) : M (list Summary) :=
  gets (fun w =>
    sorted_desc s_last_accessed
      (collect (versions (metadata w)) resource_type
               (PyDict.items (resources (metadata w))))).

Definition check_version (resource_id : string) : M (option Z) :=
  gets (fun w => PyDict.get (versions (metadata w)) resource_id).

Definition delete_resource (env : Env) (resource_id : string) : M bool :=
  try_except
    (known <- resource_known resource_id ;;
     if negb known then ret false
     else
       (file_path <- payload_path resource_id ;;
        present <- path_exists file_path ;;
        (if present then remove_payload (remove_io env) file_path
         else ret tt) ;;
        resource_delitem resource_id ;;
        has_version <- version_known resource_id ;;
        (if has_version then version_delitem resource_id else ret tt) ;;
        _save_metadata (metadata_io env) ;;
        log_info ("Deleted resource " +:+ resource_id) ;;
        ret true))
    (fun e =>
       log_error ("Error deleting resource " +:+ resource_id +:+ ": " +:+
                  str_of_exn e) ;;
       ret false).

(** The loop of [get_storage_stats]: both totals are accumulated over
    [self.metadata["resources"].values()]. *)
Definition accumulate (acc : Z * Z) (meta : ResourceMeta) : Z * Z :=
  (fst acc + r_size meta, snd acc + r_compressed_size meta)%Z.

Definition get_storage_stats : M StorageStats :=
  gets (fun w =>
    let rs := resources (metadata w) in
    let resource_count := len (PyDict.items rs) in
    let totals := fold_left accumulate (PyDict.values rs) (0, 0)%Z in
    let total_size := fst totals in
    let total_compressed := snd totals in
    {| resource_count := resource_count;
       total_size := total_size;
       total_compressed_size := total_compressed;
       compression_ratio :=
         if (0 <? total_size)%Z
         then PyFloat (inject_Z total_compressed / inject_Z total_size)
         else PyInt 0;
       disk_usage_mb := inject_Z total_compressed / inject_Z (1024 * 1024) |}).

(** ** Calls *)

(** One call of a public method, and what it returns. *)
Inductive Call : Type :=
| CallStore (resource_id : string) (data : bytes) (resource_type : string)
            (priority : Z) (compress : bool)
| CallGet (resource_id : string)
| CallList (resource_type : option string)
| CallCheckVersion (resource_id : string)
| CallDelete (resource_id : string)
| CallStats.

(** The world after a call; the value the call returns is dropped. *)
Definition after {A : Type} (m : M A) (w : World) : World := snd (m w).

Definition result {A : Type} (m : M A) (w : World) : outcome A := fst (m w).

Definition step (env : Env) (c : Call) (w : World) : World :=
  match c with
  | CallStore resource_id data resource_type priority compress =>
      after (store_resource env resource_id data resource_type priority compress) w
  | CallGet resource_id => after (get_resource env resource_id) w
  | CallList resource_type => after (list_resources resource_type) w
  | CallCheckVersion resource_id => after (check_version resource_id) w
  | CallDelete resource_id => after (delete_resource env resource_id) w
  | CallStats => after get_storage_stats w
  end.

(** A run of calls, each with its own environment. *)
Fixpoint run (calls : list (Env * Call)) (w : World) : World :=
  match calls with
  | [] => w
  | (env, c) :: rest => run rest (step env c w)
  end.

(** ** Notions in which the properties are stated *)

(** The payload file of a resource. *)
Definition payload_file (w : World) (resource_id : string) : string :=
  path_join (resources_dir w) (resource_id +:+ ".bin").

(** The bytes that [get_resource] recovers from the stored ones. *)
Definition recover (resource_meta : ResourceMeta) (storage_data : bytes)
  : outcome bytes :=
  if r_compressed resource_meta then _decompress_data storage_data
  else Ok storage_data.

(** [versions.get(resource_id, 0) + 1] *)
Definition next_version (vs : PyDict.t Z) (resource_id : string) : Z :=
  (match PyDict.get vs resource_id with Some v => v | None => 0 end + 1)%Z.

(** What a write of the metadata file leaves on disk. *)
Definition dumped (io : WriteOutcome) (m : Metadata) (before : MetaFile)
  : MetaFile :=
  match io with
  | WriteOk => Holds m
  | OpenFails _ => before
  | WriteFails _ _ => Unparseable
  end.



(** The sum of a list of integers. *)
Definition sum_Z (l : list Z) : Z := fold_right Z.add 0%Z l.

(** A byte length is never negative. *)
Definition sizes_nonneg (m : Metadata) : Prop :=
  Forall (fun meta => (0 <= r_size meta)%Z) (PyDict.values (resources m)).

(** The entries that [list_resources] keeps, in the order of the dict. *)
Definition matching (resource_type : option string)
    (entries : list (string * ResourceMeta)) : list (string * ResourceMeta) :=
  List.filter (fun entry => type_matches resource_type (snd entry)) entries.

Definition summaries (vs : PyDict.t Z)
    (entries : list (string * ResourceMeta)) : list Summary :=
  map (fun entry => summary vs (fst entry) (snd entry)) entries.

(** ** Properties of states *)

(** The shape of metadata that the manager itself wrote: both mappings are
    dicts, and the sizes are byte lengths. *)
Definition sound (m : Metadata) : Prop :=
  PyDict.wf (resources m) /\ PyDict.wf (versions m) /\ sizes_nonneg m.

(** Both mappings have an entry for [resource_id], or neither has. *)
Definition in_sync (m : Metadata) : Prop :=
  forall resource_id : string,
    PyDict.contains (resources m) resource_id
    = PyDict.contains (versions m) resource_id.

End ResourceManager.

Arguments _calculate_hash : simpl never.
Arguments _compress_data : simpl never.
Arguments _decompress_data : simpl never.
Arguments storage_bytes : simpl never.
Arguments new_record : simpl never.
Arguments touch : simpl never.
Arguments isoformat : simpl never.
Arguments path_join : simpl never.
Arguments str_of_Z : simpl never.

(** ** Further notions *)

Section Notions.

Context {compressor : Compressor}.

(** The resource [resource_id] can be read back as [data]: it has a
    record, its payload file is there, and the bytes of the file are
    recovered to [data], which has the recorded hash. *)
Definition servable (w : World) (resource_id : string) (data : bytes) : Prop :=
  exists (resource_meta : ResourceMeta) (storage_data : bytes),
    PyDict.get (resources (metadata w)) resource_id = Some resource_meta
    /\ payload_files w !! payload_file w resource_id = Some storage_data
    /\ recover resource_meta storage_data = Ok data
    /\ _calculate_hash data = r_hash resource_meta.

(** The worlds differ in the log at most. *)
Definition same_but_log (w w' : World) : Prop :=
  resources_dir w' = resources_dir w
  /\ metadata_file w' = metadata_file w
  /\ metadata w' = metadata w
  /\ payload_files w' = payload_files w
  /\ metadata_on_disk w' = metadata_on_disk w.

(** [get_resource] run once for each environment of the list. *)
Definition get_repeatedly (envs : list Env) (resource_id : string) (w : World)
  : World :=
  run (map (fun env => (env, CallGet resource_id)) envs) w.




(** The manager that a restart of the server builds on what is on disk. *)
Definition restart (json_error : string) (w : World) : World :=
  init (resources_dir w) (payload_files w) (metadata_on_disk w) json_error.

(** What a restart would load is what the manager has in memory. *)
Definition durable (w : World) : Prop :=
  match metadata_on_disk w with
  | Holds m => m = metadata w
  | _ => metadata w = empty_metadata
  end.

(** The call is a [store_resource] of [resource_id] whose payload write
    succeeds. *)
Definition stores (resource_id : string) (call : Env * Call) : bool :=
  match snd call, payload_io (fst call) with
  | CallStore other _ _ _ _, WriteOk => String.eqb other resource_id
  | _, _ => false
  end.

(** A record as the manager writes it. *)
Definition record_ok (resource_meta : ResourceMeta) : Prop :=
  (0 <= r_size resource_meta)%Z
  /\ (0 <= r_compressed_size resource_meta)%Z
  /\ (0 <= r_access_count resource_meta)%Z
  /\ (r_compressed resource_meta = false ->
      r_compressed_size resource_meta = r_size resource_meta).

Definition tidy (m : Metadata) : Prop :=
  Forall record_ok (PyDict.values (resources m))
  /\ Forall (fun version => (1 <= version)%Z) (PyDict.values (versions m)).

(** The digits of [hexdigest]. *)
Definition lower_hex (c : ascii) : Prop :=
  In c (list_ascii_of_string "0123456789abcdef").

End Notions.

(** ** The HTTP handlers of [app.py] *)

(** A value that [jsonify] serialises. *)
#[local] Unset Elimination Schemes.

Inductive Json : Type :=
| JNull
| JBool (b : bool)
| JInt (n : Z)
| JFloat (x : Q)
| JStr (s : string)
| JList (elements : list Json)
| JDict (members : list (string * Json)).

#[local] Set Elimination Schemes.

(** What a handler returns: [jsonify(value)] has status 200, and
    [jsonify(value), code] has status [code]. *)
Record Response : Type := {
  body : Json;
  status_code : Z
}.

Definition jsonify (value : Json) : Response :=
  {| body := value; status_code := 200 |}.

Definition jsonify_with (value : Json) (code : Z) : Response :=
  {| body := value; status_code := code |}.

(** [{"status": "error", "message": message}] *)
Definition error_body (message : string) : Json :=
  JDict [("status", JStr "error"); ("message", JStr message)].

(** [value[key]] for a dict, as an option. *)
Definition member (key : string) (value : Json) : option Json :=
  match value with
  | JDict members => PyDict.get members key
  | _ => None
  end.

(** The record of a resource, the dict that it is in Python. *)
Definition json_of_record (resource_meta : ResourceMeta) : Json :=
  JDict [("type", JStr (r_type resource_meta));
         ("size", JInt (r_size resource_meta));
         ("compressed_size", JInt (r_compressed_size resource_meta));
         ("hash", JStr (r_hash resource_meta));
         ("compressed", JBool (r_compressed resource_meta));
         ("priority", JInt (r_priority resource_meta));
         ("created", JStr (r_created resource_meta));
         ("last_accessed", JStr (r_last_accessed resource_meta));
         ("access_count", JInt (r_access_count resource_meta))].

(** The dict that [store_resource] of the manager returns. *)
Definition json_of_store_result (r : StoreResult) : Json :=
  match r with
  | StoreSuccess resource_id size compressed_size version hash =>
      JDict [("status", JStr "success");
             ("resource_id", JStr resource_id);
             ("size", JInt size);
             ("compressed_size", JInt compressed_size);
             ("version", JInt version);
             ("hash", JStr hash)]
  | StoreError message => error_body message
  end.

(** *** [base64]

    [base64.b64encode] and [base64.b64decode] of the standard library, the
    latter in its default mode, in which [binascii.a2b_base64] skips the
    characters outside the alphabet and stops at the padding that ends a
    quad. *)

Module Base64.

Definition alphabet : list ascii :=
  list_ascii_of_string
    "ABCDEFGHIJKLMNOPQRSTUVWXYZabcdefghijklmnopqrstuvwxyz0123456789+/".

Definition char_of (sextet : N) : ascii :=
  nth (N.to_nat sextet) alphabet "="%char.

Fixpoint index_of (c : ascii) (l : list ascii) (i : N) : option N :=
  match l with
  | [] => None
  | c' :: l' => if Ascii.eqb c' c then Some i else index_of c l' (i + 1)%N
  end.

Definition sextet_of (c : ascii) : option N := index_of c alphabet 0.

(** Three octets give four characters; one or two octets at the end give
    two or three characters and padding. *)
Fixpoint encode (octets : list N) : list ascii :=
  match octets with
  | a :: b :: c :: rest =>
      char_of (N.shiftr a 2)
      :: char_of (N.lor (N.shiftl (N.land a 3) 4) (N.shiftr b 4))
      :: char_of (N.lor (N.shiftl (N.land b 15) 2) (N.shiftr c 6))
      :: char_of (N.land c 63)
      :: encode rest
  | [a; b] =>
      [char_of (N.shiftr a 2);
       char_of (N.lor (N.shiftl (N.land a 3) 4) (N.shiftr b 4));
       char_of (N.shiftl (N.land b 15) 2);
       "="%char]
  | [a] =>
      [char_of (N.shiftr a 2); char_of (N.shiftl (N.land a 3) 4);
       "="%char; "="%char]
  | [] => []
  end.

(** [base64.b64encode(data).decode('utf-8')] *)
Definition b64encode (data : bytes) : string :=
  string_of_list_ascii (encode (map Byte.to_N data)).

(** The loop of [binascii.a2b_base64]: [quad_pos] is the position in the
    current quad, [leftchar] holds the bits not yet written, [pads] counts
    the padding characters met since the last character of the alphabet,
    and [out] is the output, latest octet first.  [None] stands for
    [binascii.Error]. *)
Fixpoint a2b (input : list ascii) (quad_pos : nat) (leftchar : N) (pads : nat)
    (out : list N) : option (list N) :=
  match input with
  | [] => if Nat.eqb quad_pos 0 then Some (rev out) else None
  | this_ch :: rest =>
      if Ascii.eqb this_ch "="
      then
        if Nat.leb 2 quad_pos
        then
          if Nat.leb 4 (quad_pos + (pads + 1)) then Some (rev out)
          else a2b rest quad_pos leftchar (pads + 1) out
        else a2b rest quad_pos leftchar pads out
      else
        match sextet_of this_ch with
        | None => a2b rest quad_pos leftchar pads out
        | Some v =>
            match quad_pos with
            | 0%nat => a2b rest 1 v 0 out
            | 1%nat =>
                a2b rest 2 (N.land v 15) 0
                    (N.lor (N.shiftl leftchar 2) (N.shiftr v 4) :: out)
            | 2%nat =>
                a2b rest 3 (N.land v 3) 0
                    (N.lor (N.shiftl leftchar 4) (N.shiftr v 2) :: out)
            | _ => a2b rest 0 0 0 (N.lor (N.shiftl leftchar 6) v :: out)
            end
        end
  end.

Definition is_ascii (c : ascii) : bool := (N_of_ascii c <? 128)%N.

Definition octet_byte (n : N) : Byte.byte := byte_of_ascii (ascii_of_N n).

(** [base64.b64decode(s)] for a [str]: [None] when it raises, which it
    does for a string with a character outside ASCII ([ValueError]) and
    for an incomplete quad ([binascii.Error]). *)
Definition b64decode (s : string) : option bytes :=
  let input := list_ascii_of_string s in
  if forallb is_ascii input
  then option_map (map octet_byte) (a2b input 0 0 0 [])
  else None.

End Base64.

(** *** The handlers

    The handlers keep the names they have in [app.py], in a module of
    their own: four of them are named like the method of the manager that
    they call.  [resource_manager], the manager of the application, is the
    world; the records of the application's logger go to the root handler
    like those of the manager's, and so to the same log. *)

(** The body of a POST request as [request.get_json()] returns it, for
    the requests that the model covers: a JSON object whose members
    [resource_id], [data] and [type] are strings, [priority] an integer
    and [compress] a boolean, where they are present.  A field is [None]
    when the object has no such member. *)
Record StoreBody : Type := {
  b_resource_id : option string;
  b_data : option string;
  b_type : option string;
  b_priority : option Z;
  b_compress : option bool
}.

(** [data.get(key, default)] *)
Definition get_default {A : Type} (field : option A) (default : A) : A :=
  match field with
  | Some value => value
  | None => default
  end.

Module App.

Section Handlers.

Context {compressor : Compressor}.

(** [logger.error(msg)] *)
Definition logger_error (msg : string) : M unit := log_error msg.

(** [return jsonify({"status": "error", "message": str(e)}), 500] *)
Definition internal_error (e : exn) : M Response :=
  ret (jsonify_with (error_body (str_of_exn e)) 500).

Definition not_found : Response :=
  jsonify_with (error_body "Resource not found") 404.

(** [GET /api/resources/<resource_id>] *)
Definition get_resource (env : Env) (resource_id : string) : M Response :=
  try_except
    (result <- get_resource env resource_id ;;
     match result with
     | None => ret not_found
     | Some (data, metadata) =>
         if (len data <=? 1024 * 1024)%Z
         then
           ret (jsonify
                  (JDict [("status", JStr "success");
                          ("resource_id", JStr resource_id);
                          ("data", JStr (Base64.b64encode data));
                          ("encoding", JStr "base64");
                          ("metadata", json_of_record metadata)]))
         else
           ret (jsonify
                  (JDict [("status", JStr "success");
                          ("resource_id", JStr resource_id);
                          ("download_url",
                           JStr ("/api/resources/" +:+ resource_id +:+
                                 "/download"));
                          ("metadata", json_of_record metadata)]))
     end)
    (fun e =>
       logger_error ("Error getting resource " +:+ resource_id +:+ ": " +:+
                     str_of_exn e) ;;
       internal_error e).

(** [GET /api/resources/<resource_id>/version] *)
Definition check_resource_version (resource_id : string) : M Response :=
  try_except
    (version <- check_version resource_id ;;
     match version with
     | None => ret not_found
     | Some version =>
         ret (jsonify
                (JDict [("status", JStr "success");
                        ("resource_id", JStr resource_id);
                        ("version", JInt version)]))
     end)
    (fun e =>
       logger_error ("Error checking version for " +:+ resource_id +:+ ": " +:+
                     str_of_exn e) ;;
       internal_error e).

(** [POST /api/resources] *)
Definition store_resource (env : Env) (data : StoreBody) : M Response :=
  try_except
    (match b_resource_id data, b_data data with
     | Some resource_id, Some encoded =>
         let resource_type := get_default (b_type data) "generic" in
         let priority := get_default (b_priority data) 1%Z in
         let compress := get_default (b_compress data) true in
         match Base64.b64decode encoded with
         | None =>
             ret (jsonify_with (error_body "Invalid base64 data") 400)
         | Some resource_data =>
             result <- store_resource env resource_id resource_data
                         resource_type priority compress ;;
             ret (jsonify (json_of_store_result result))
         end
     | _, _ => ret (jsonify_with (error_body "Missing required fields") 400)
     end)
    (fun e =>
       logger_error ("Error storing resource: " +:+ str_of_exn e) ;;
       internal_error e).

(** [DELETE /api/resources/<resource_id>] *)
Definition delete_resource (env : Env) (resource_id : string) : M Response :=
  try_except
    (success <- delete_resource env resource_id ;;
     if negb success then ret not_found
     else
       ret (jsonify
              (JDict [("status", JStr "success");
                      ("message",
                       JStr ("Resource " +:+ resource_id +:+ " deleted"))])))
    (fun e =>
       logger_error ("Error deleting resource " +:+ resource_id +:+ ": " +:+
                     str_of_exn e) ;;
       internal_error e).

(** [GET /api/resources/<resource_id>/info] *)
Definition get_resource_info (resource_id : string) : M Response :=
  try_except
    (known <- resource_known resource_id ;;
     if negb known then ret not_found
     else
       (metadata <- resource_getitem resource_id ;;
        version <- version_get resource_id 1 ;;
        ret (jsonify
               (JDict [("status", JStr "success");
                       ("resource_id", JStr resource_id);
                       ("metadata", json_of_record metadata);
                       ("version", JInt version)]))))
    (fun e =>
       logger_error ("Error getting resource info for " +:+ resource_id +:+
                     ": " +:+ str_of_exn e) ;;
       internal_error e).

End Handlers.

End App.

(* ================================================================= *)
(** * Part II: facts *)
(* ================================================================= *)

(** ** Dictionaries *)

Module PyDictFacts.
Import PyDict.

Section Facts.
Context {V : Type}.
Implicit Types (d : PyDict.t V) (k : string) (v : V).

Lemma get_set_eq d k v : get (set d k v) k = Some v.
Proof.
  induction d as [|[k' v'] d IH]; simpl.
  - now rewrite String.eqb_refl.
  - destruct (String.eqb k' k) eqn:E; simpl.
    + now rewrite String.eqb_refl.
    + now rewrite E.
Qed.

Lemma get_set_ne d k k' v : k <> k' -> get (set d k v) k' = get d k'.
Proof.
  intros Hne. induction d as [|[k0 v0] d IH]; simpl.
  - apply String.eqb_neq in Hne. now rewrite Hne.
  - destruct (String.eqb k0 k) eqn:E; simpl.
    + apply String.eqb_eq in E. subst k0.
      apply String.eqb_neq in Hne. now rewrite Hne.
    + now rewrite IH.
Qed.

Lemma get_del_eq d k : get (del d k) k = None.
Proof.
  induction d as [|[k' v'] d IH]; simpl; [reflexivity|].
  destruct (String.eqb k' k) eqn:E; simpl; [assumption|].
  now rewrite E.
Qed.

Lemma get_del_ne d k k' : k <> k' -> get (del d k) k' = get d k'.
Proof.
  intros Hne. induction d as [|[k0 v0] d IH]; simpl; [reflexivity|].
  destruct (String.eqb k0 k) eqn:E; simpl.
  - apply String.eqb_eq in E. subst k0.
    apply String.eqb_neq in Hne. now rewrite Hne.
  - now rewrite IH.
Qed.

Lemma del_absent d k : get d k = None -> del d k = d.
Proof.
  induction d as [|[k' v'] d IH]; simpl; [reflexivity|].
  destruct (String.eqb k' k); [discriminate|].
  intros Hd. now rewrite IH.
Qed.

Lemma contains_set_eq d k v : contains (set d k v) k = true.
Proof. unfold contains. now rewrite get_set_eq. Qed.

Lemma contains_set_ne d k k' v :
  k <> k' -> contains (set d k v) k' = contains d k'.
Proof. intros Hne. unfold contains. now rewrite get_set_ne. Qed.

Lemma contains_del_eq d k : contains (del d k) k = false.
Proof. unfold contains. now rewrite get_del_eq. Qed.

Lemma contains_del_ne d k k' :
  k <> k' -> contains (del d k) k' = contains d k'.
Proof. intros Hne. unfold contains. now rewrite get_del_ne. Qed.

Lemma contains_false_get d k : contains d k = false <-> get d k = None.
Proof. unfold contains. destruct (get d k); split; congruence. Qed.

Lemma contains_true_get d k : contains d k = true <-> exists v, get d k = Some v.
Proof.
  unfold contains. destruct (get d k) as [v|]; split.
  - eauto.
  - reflexivity.
  - discriminate.
  - intros [v Hv]. discriminate.
Qed.

(** A key is in the dict exactly when it is one of its keys. *)
Lemma get_None_keys d k : get d k = None <-> ~ In k (keys d).
Proof.
  induction d as [|[k' v'] d IH]; simpl.
  - tauto.
  - destruct (String.eqb k' k) eqn:E.
    + apply String.eqb_eq in E. split; [discriminate | tauto].
    + apply String.eqb_neq in E. rewrite IH. tauto.
Qed.

(** Absent key: the entry goes last. *)
Lemma set_absent d k v : get d k = None -> set d k v = d ++ [(k, v)].
Proof.
  induction d as [|[k' v'] d IH]; simpl; [reflexivity|].
  destruct (String.eqb k' k); [discriminate|].
  intros Hd. now rewrite IH.
Qed.

(** Present key: the keys and their order stay. *)
Lemma keys_set_present d k v : get d k <> None -> keys (set d k v) = keys d.
Proof.
  induction d as [|[k' v'] d IH]; simpl; [congruence|].
  destruct (String.eqb k' k) eqn:E; simpl.
  - apply String.eqb_eq in E. now subst.
  - intros Hd. now rewrite IH.
Qed.

Lemma length_set_present d k v :
  get d k <> None -> length (set d k v) = length d.
Proof.
  intros Hd. pose proof (keys_set_present d k v Hd) as Hk.
  apply (f_equal (@length _)) in Hk.
  unfold keys in Hk. now rewrite !length_map in Hk.
Qed.

Lemma keys_del_subset d k k' : In k' (keys (del d k)) -> In k' (keys d).
Proof.
  induction d as [|[k0 v0] d IH]; simpl; [tauto|].
  destruct (String.eqb k0 k); simpl; tauto.
Qed.

Lemma wf_set d k v : wf d -> wf (set d k v).
Proof.
  unfold wf. destruct (get d k) eqn:Hd.
  - rewrite keys_set_present; [tauto | congruence].
  - rewrite set_absent by assumption. unfold keys. rewrite map_app. simpl.
    intros Hnd. apply NoDup_app. split; [assumption|]. split.
    + intros x Hx Hx'. apply list_elem_of_In in Hx, Hx'.
      destruct Hx' as [<-|[]]. apply get_None_keys in Hd. now apply Hd.
    + apply NoDup_singleton.
Qed.

Lemma wf_del d k : wf d -> wf (del d k).
Proof.
  unfold wf. induction d as [|[k0 v0] d IH]; simpl; [tauto|].
  intros Hnd. apply NoDup_cons in Hnd as [Hk0 Hnd].
  destruct (String.eqb k0 k); simpl; [now apply IH|].
  apply NoDup_cons. split; [|now apply IH].
  rewrite list_elem_of_In in Hk0 |- *.
  intros Hin. apply Hk0. now apply keys_del_subset in Hin.
Qed.

Lemma Forall_values_set (P : V -> Prop) d k v :
  P v -> Forall P (values d) -> Forall P (values (set d k v)).
Proof.
  intros Hv. unfold values.
  induction d as [|[k' v'] d IH]; cbn; intros Hd.
  - now repeat constructor.
  - apply Forall_cons in Hd as [Hv' Hd].
    destruct (String.eqb k' k); cbn; apply Forall_cons; auto.
Qed.

Lemma Forall_values_del (P : V -> Prop) d k :
  Forall P (values d) -> Forall P (values (del d k)).
Proof.
  unfold values. induction d as [|[k' v'] d IH]; cbn; intros Hd; [assumption|].
  apply Forall_cons in Hd as [Hv' Hd].
  destruct (String.eqb k' k); cbn; [auto | apply Forall_cons; auto].
Qed.

End Facts.
End PyDictFacts.

(** ** The order of strings *)

Lemma ascii_compare_refl (c : ascii) : Ascii.compare c c = Eq.
Proof. unfold Ascii.compare. apply N.compare_refl. Qed.

Lemma string_compare_refl (s : string) : String.compare s s = Eq.
Proof.
  induction s as [|c s IH]; cbn; [reflexivity|].
  now rewrite ascii_compare_refl.
Qed.

Lemma ascii_compare_lt_trans (a b c : ascii) :
  Ascii.compare a b = Lt -> Ascii.compare b c = Lt -> Ascii.compare a c = Lt.
Proof.
  unfold Ascii.compare. rewrite !N.compare_lt_iff. lia.
Qed.

Lemma string_compare_lt_trans (s t u : string) :
  String.compare s t = Lt -> String.compare t u = Lt -> String.compare s u = Lt.
Proof.
  revert t u. induction s as [|a s IH]; intros [|b t] [|c u]; cbn;
    try congruence.
  destruct (Ascii.compare a b) eqn:Hab; try discriminate;
    destruct (Ascii.compare b c) eqn:Hbc; try discriminate; intros Hst Htu.
  - apply Ascii.compare_eq_iff in Hab, Hbc. subst.
    rewrite ascii_compare_refl. eauto.
  - apply Ascii.compare_eq_iff in Hab. subst. now rewrite Hbc.
  - apply Ascii.compare_eq_iff in Hbc. subst. now rewrite Hab.
  - now rewrite (ascii_compare_lt_trans _ _ _ Hab Hbc).
Qed.



(** [t] is not below [s] exactly when [s <= t]. *)
Lemma string_ltb_leb (s t : string) : String.ltb t s = negb (String.leb s t).
Proof.
  unfold String.ltb, String.leb. rewrite (String.compare_antisym s t).
  now destruct (String.compare t s).
Qed.

Lemma string_leb_trans (s t u : string) :
  String.leb s t = true -> String.leb t u = true -> String.leb s u = true.
Proof.
  unfold String.leb.
  destruct (String.compare s t) eqn:Hst; try discriminate;
    destruct (String.compare t u) eqn:Htu; try discriminate; intros _ _.
  - apply String.compare_eq_iff in Hst, Htu. subst.
    now rewrite string_compare_refl.
  - apply String.compare_eq_iff in Hst. subst. now rewrite Htu.
  - apply String.compare_eq_iff in Htu. subst. now rewrite Hst.
  - now rewrite (string_compare_lt_trans _ _ _ Hst Htu).
Qed.



(** ** Timestamps compare as the times do *)








(** ** Sorting into descending order *)

Section Sorting.

Context {A : Type} (key : A -> string).

Lemma key_gt_ge a b : key_gt key a b -> key_ge key a b.
Proof.
  unfold key_gt, key_ge, String.ltb, String.leb.
  now destruct (String.compare (key b) (key a)).
Qed.

Lemma key_gt_not_ge a b : key_gt key a b -> key_ge key b a -> False.
Proof.
  unfold key_gt, key_ge. rewrite string_ltb_leb.
  intros H1 H2. rewrite H2 in H1. discriminate.
Qed.

Lemma insert_desc_perm x l : Permutation (insert_desc key x l) (x :: l).
Proof.
  induction l as [|y l IH]; cbn; [reflexivity|].
  destruct (String.ltb (key x) (key y)); [|reflexivity].
  rewrite IH. apply perm_swap.
Qed.

Lemma sorted_desc_perm l : Permutation (sorted_desc key l) l.
Proof.
  induction l as [|x l IH]; cbn; [reflexivity|].
  rewrite insert_desc_perm. now apply perm_skip.
Qed.

Lemma insert_desc_sorted x l :
  StronglySorted (key_ge key) l ->
  StronglySorted (key_ge key) (insert_desc key x l).
Proof.
  induction 1 as [|y l Hl IH Hy]; cbn.
  - repeat constructor.
  - destruct (String.ltb (key x) (key y)) eqn:Hxy.
    + constructor; [exact IH|].
      apply List.Forall_forall. intros z Hz.
      apply (Permutation_in _ (insert_desc_perm x l)) in Hz.
      destruct Hz as [<-|Hz]; [now apply key_gt_ge|].
      rewrite List.Forall_forall in Hy. now apply Hy.
    + assert (Hyx : key_ge key x y).
      { unfold key_ge. rewrite string_ltb_leb in Hxy.
        now apply negb_false_iff in Hxy. }
      constructor; [now constructor|]. constructor; [exact Hyx|].
      eapply List.Forall_impl; [|exact Hy]. intros z Hz. unfold key_ge in *.
      eapply string_leb_trans; eassumption.
Qed.

Lemma sorted_desc_sorted l : StronglySorted (key_ge key) (sorted_desc key l).
Proof.
  induction l as [|x l IH]; cbn; [constructor|].
  now apply insert_desc_sorted.
Qed.




End Sorting.

(** ** The hasher on the standard test vectors *)

Example sha256_empty :
  Sha256.hexdigest []
  = "e3b0c44298fc1c149afbf4c8996fb92427ae41e4649b934ca495991b7852b855".
Proof. vm_compute. reflexivity. Qed.

Example sha256_abc :
  Sha256.hexdigest (ascii_bytes "abc")
  = "ba7816bf8f01cfea414140de5dae2223b00361a396177a9cb410ff61f20015ad".
Proof. vm_compute. reflexivity. Qed.

Example sha256_two_blocks :
  Sha256.hexdigest (repeat Byte.x61 119)
  = "31eba51c313a5c08226adf18d4a359cfdfd8d2e816b13f4af952f7ea6584dcfb".
Proof. vm_compute. reflexivity. Qed.

(** ** The stored-block compressor is lossless *)

Module StoredGzipFacts.
Import StoredGzip.

Lemma to_N_octet (n : N) : Byte.to_N (octet n) = (n mod 256)%N.
Proof.
  unfold octet. destruct (Byte.of_N (n mod 256)) as [b|] eqn:Hb.
  - now apply Byte.to_of_N.
  - apply Byte.of_N_None_iff in Hb.
    pose proof (N.mod_lt n 256). lia.
Qed.

Lemma length_little_endian (width : nat) (x : N) :
  length (little_endian width x) = width.
Proof.
  revert x. induction width as [|width IH]; intros x; cbn; [reflexivity|].
  now rewrite IH.
Qed.

Lemma from_little_endian_inv (width : nat) (x : N) :
  from_little_endian (little_endian width x) = (x mod 256 ^ N.of_nat width)%N.
Proof.
  revert x. induction width as [|width IH]; intros x.
  - cbn. now rewrite N.mod_1_r.
  - cbn [little_endian from_little_endian].
    rewrite to_N_octet, IH, Nat2N.inj_succ, N.pow_succ_r'.
    rewrite (N.Div0.mod_mul_r x 256). lia.
Qed.

Lemma from_little_endian_2 (x : N) :
  (x <= 65535)%N -> from_little_endian (little_endian 2 x) = x.
Proof.
  intros Hx. rewrite from_little_endian_inv.
  change (256 ^ N.of_nat 2)%N with 65536%N. apply N.mod_small. lia.
Qed.

(** Decoding one block that was encoded. *)
Lemma inflate_stored_block (fuel : nat) (final : bool) (chunk rest : bytes) :
  (N.of_nat (length chunk) <= 65535)%N ->
  inflate_stored (S fuel) (stored_block final chunk ++ rest)
  = if final then Some (chunk, rest)
    else match inflate_stored fuel rest with
         | Some (data, rest') => Some (chunk ++ data, rest')
         | None => None
         end.
Proof.
  intros Hlen. unfold stored_block.
  remember (N.of_nat (length chunk)) as n eqn:En.
  assert (Hs : from_little_endian (little_endian 2 n) = n)
    by (apply from_little_endian_2; lia).
  assert (Hc : from_little_endian (little_endian 2 (65535 - n)) = (65535 - n)%N)
    by (apply from_little_endian_2; lia).
  cbn [little_endian app] in *.
  cbn [inflate_stored]. rewrite Hs, Hc.
  assert (Hn : N.to_nat n = length chunk) by (subst n; apply Nat2N.id).
  rewrite Hn.
  replace (n + (65535 - n) =? 65535)%N with true
    by (symmetry; apply N.eqb_eq; lia).
  replace (length chunk <=? length (chunk ++ rest))%nat with true
    by (symmetry; apply Nat.leb_le; rewrite length_app; lia).
  rewrite firstn_app, Nat.sub_diag, firstn_all, firstn_O, app_nil_r.
  rewrite skipn_app, Nat.sub_diag, skipn_all. cbn [skipn app].
  destruct final; reflexivity.
Qed.

Lemma inflate_deflate_stored (fuel : nat) :
  forall (data rest : bytes) (fuel' : nat),
    (length data <= fuel)%nat -> (fuel < fuel')%nat ->
    inflate_stored fuel' (deflate_stored fuel data ++ rest) = Some (data, rest).
Proof.
  induction fuel as [|fuel IH]; intros data rest fuel' Hdata Hfuel;
    (destruct fuel' as [|fuel']; [lia|]).
  - cbn [deflate_stored]. rewrite inflate_stored_block; [reflexivity|lia].
  - cbn [deflate_stored].
    destruct (N.leb_spec (N.of_nat (length data)) max_stored) as [Hle|Hgt].
    + rewrite inflate_stored_block; [reflexivity|exact Hle].
    + unfold max_stored in *.
      remember (N.to_nat 65535) as m eqn:Em.
      assert (Hm : N.of_nat m = 65535%N) by (subst m; apply N2Nat.id).
      clear Em.
      assert (Hlong : (m < length data)%nat) by lia.
      rewrite <- app_assoc.
      rewrite inflate_stored_block
        by (rewrite length_firstn; lia).
      rewrite IH; [|rewrite length_skipn; lia|lia].
      now rewrite firstn_skipn.
Qed.

Lemma length_deflate_stored (fuel : nat) (data : bytes) :
  (length data < length (deflate_stored fuel data))%nat.
Proof.
  revert data. induction fuel as [|fuel IH]; intros data;
    cbn [deflate_stored].
  - unfold stored_block. cbn [length]. rewrite !length_app. lia.
  - destruct (N.of_nat (length data) <=? max_stored)%N.
    + unfold stored_block. cbn [length]. rewrite !length_app. lia.
    + rewrite length_app. unfold stored_block at 1. cbn [length].
      rewrite !length_app. specialize (IH (skipn (N.to_nat max_stored) data)).
      rewrite <- (firstn_skipn (N.to_nat max_stored) data) at 1.
      rewrite length_app. lia.
Qed.

Lemma decompress_compress (mtime : Z) (data : bytes) :
  decompress (compress mtime data) = Ok data.
Proof.
  unfold compress, member_header.
  cbn [little_endian app]. cbn [decompress].
  rewrite inflate_deflate_stored; [|lia|].
  2:{ rewrite length_app.
      pose proof (length_deflate_stored (length data) data). lia. }
  pose proof (from_little_endian_inv 4 (crc32 data)) as Hcrc.
  pose proof (from_little_endian_inv 4 (N.of_nat (length data) mod 2 ^ 32))
    as Hsize.
  change (256 ^ N.of_nat 4)%N with (2 ^ 32)%N in *.
  rewrite N.Div0.mod_mod in Hsize.
  assert (Hc32 : (crc32 data mod 2 ^ 32 = crc32 data)%N).
  { unfold crc32. now rewrite N.Div0.mod_mod. }
  rewrite Hc32 in Hcrc.
  cbn [little_endian app] in *.
  rewrite Hcrc, Hsize, !N.eqb_refl. reflexivity.
Qed.

End StoredGzipFacts.

(** ** How the methods run *)

Ltac run_method :=
  unfold result, after, try_except, bind, ret, raise, gets, modify, lift,
    payload_path, resource_known, resource_getitem, resource_setitem,
    resource_delitem, version_get, version_getitem, version_setitem,
    version_known, version_delitem, path_exists, read_payload, log_info,
    log_error; cbn.

Section Runs.

Context {compressor : Compressor}.
Import PyDict PyDictFacts.

(** *** [_save_metadata] never raises and touches only the metadata file
    and the log. *)

Lemma save_metadata_result io w : result (_save_metadata io) w = Ok tt.
Proof. unfold _save_metadata, dump_metadata. destruct io; reflexivity. Qed.

Lemma save_metadata_run io w :
  _save_metadata io w = (Ok tt, after (_save_metadata io) w).
Proof.
  rewrite <- (save_metadata_result io w). unfold result, after.
  now destruct (_save_metadata io w).
Qed.

Lemma save_metadata_metadata io w :
  metadata (after (_save_metadata io) w) = metadata w.
Proof. unfold _save_metadata, dump_metadata. destruct io; reflexivity. Qed.

Lemma save_metadata_payload_files io w :
  payload_files (after (_save_metadata io) w) = payload_files w.
Proof. unfold _save_metadata, dump_metadata. destruct io; reflexivity. Qed.

Lemma save_metadata_resources_dir io w :
  resources_dir (after (_save_metadata io) w) = resources_dir w.
Proof. unfold _save_metadata, dump_metadata. destruct io; reflexivity. Qed.

Lemma save_metadata_on_disk io w :
  metadata_on_disk (after (_save_metadata io) w)
  = dumped io (metadata w) (metadata_on_disk w).
Proof. unfold _save_metadata, dump_metadata. destruct io; reflexivity. Qed.

(** *** [store_resource] *)

(** The payload write succeeds: the call succeeds, whatever happens to the
    metadata file. *)
Lemma store_resource_written env resource_id data resource_type priority compress w :
  payload_io env = WriteOk ->
  let w' := after (store_resource env resource_id data resource_type priority compress) w in
  result (store_resource env resource_id data resource_type priority compress) w
  = Ok (StoreSuccess resource_id (len data)
          (len (storage_bytes env compress data))
          (next_version (versions (metadata w)) resource_id)
          (_calculate_hash data))
  /\ metadata w'
     = {| resources := set (resources (metadata w)) resource_id
                         (new_record env data resource_type priority compress);
          versions := set (versions (metadata w)) resource_id
                        (next_version (versions (metadata w)) resource_id) |}
  /\ payload_files w'
     = <[payload_file w resource_id := storage_bytes env compress data]>
         (payload_files w)
  /\ resources_dir w' = resources_dir w
  /\ metadata_on_disk w'
     = dumped (metadata_io env) (metadata w') (metadata_on_disk w).
Proof.
  intros Hio. unfold store_resource, write_payload. rewrite Hio.
  run_method. rewrite save_metadata_run. cbn.
  rewrite save_metadata_metadata. cbn. rewrite get_set_eq. cbn.
  rewrite save_metadata_metadata, save_metadata_payload_files,
    save_metadata_resources_dir, save_metadata_on_disk.
  repeat split.
Qed.

(** The payload write fails: the call returns the error result, and the
    exception goes no further. *)
Lemma store_resource_failed env resource_id data resource_type priority compress w :
  payload_io env <> WriteOk ->
  let w' := after (store_resource env resource_id data resource_type priority compress) w in
  (exists message,
     result (store_resource env resource_id data resource_type priority compress) w
     = Ok (StoreError message))
  /\ metadata w' = metadata w
  /\ metadata_on_disk w' = metadata_on_disk w
  /\ resources_dir w' = resources_dir w
  /\ (forall file_path,
        file_path <> payload_file w resource_id ->
        payload_files w' !! file_path = payload_files w !! file_path).
Proof.
  intros Hio. unfold store_resource, write_payload.
  destruct (payload_io env) as [|msg|written msg]; [congruence| |];
    run_method.
  - repeat split. now exists msg.
  - repeat split; [now exists msg|].
    intros file_path Hne. now rewrite lookup_insert_ne.
Qed.

(** A success result comes from a payload write that succeeded. *)
Lemma store_resource_success_inv env resource_id data resource_type priority compress w rid sz csz v h :
  result (store_resource env resource_id data resource_type priority compress) w
  = Ok (StoreSuccess rid sz csz v h) ->
  payload_io env = WriteOk.
Proof.
  intros Hres. destruct (payload_io env) eqn:Hio; [reflexivity| |].
  all: destruct (store_resource_failed env resource_id data resource_type
                   priority compress w) as [[message Hm] _];
    [congruence | rewrite Hm in Hres; discriminate].
Qed.

(** It never raises. *)
Lemma store_resource_returns env resource_id data resource_type priority compress w :
  exists r,
    result (store_resource env resource_id data resource_type priority compress) w
    = Ok r.
Proof.
  destruct (payload_io env) eqn:Hio.
  - eexists. now apply store_resource_written.
  - destruct (store_resource_failed env resource_id data resource_type
                priority compress w) as [[message Hm] _]; [congruence|eauto].
  - destruct (store_resource_failed env resource_id data resource_type
                priority compress w) as [[message Hm] _]; [congruence|eauto].
Qed.

(** *** [get_resource] *)

Lemma get_resource_unknown env resource_id w :
  contains (resources (metadata w)) resource_id = false ->
  get_resource env resource_id w = (Ok None, w).
Proof. intros Hk. unfold get_resource. run_method. now rewrite Hk. Qed.

Lemma get_resource_no_file env resource_id w :
  payload_files w !! payload_file w resource_id = None ->
  get_resource env resource_id w = (Ok None, w).
Proof.
  intros Hf. unfold get_resource. run_method.
  destruct (contains (resources (metadata w)) resource_id); cbn; [|reflexivity].
  unfold payload_file in Hf. now rewrite Hf.
Qed.

(** The stored bytes cannot be decompressed: the exception is caught and
    logged. *)
Lemma get_resource_corrupt env resource_id w resource_meta storage_data e :
  get (resources (metadata w)) resource_id = Some resource_meta ->
  payload_files w !! payload_file w resource_id = Some storage_data ->
  recover resource_meta storage_data = Raise e ->
  get_resource env resource_id w
  = (Ok None,
     with_logged
       (logged w ++ [ERROR ("Error retrieving resource " +:+ resource_id +:+
                            ": " +:+ str_of_exn e)]) w).
Proof.
  intros Hr Hf Hrec. unfold get_resource. run_method.
  unfold contains. unfold payload_file in Hf.
  repeat (first [rewrite Hr | rewrite Hf]; cbn).
  unfold recover in Hrec.
  destruct (r_compressed resource_meta); [|discriminate].
  now rewrite Hrec.
Qed.

(** The recovered bytes do not have the recorded hash: the mismatch is
    logged and nothing is returned; no access is counted. *)
Lemma get_resource_hash_mismatch env resource_id w resource_meta storage_data data :
  get (resources (metadata w)) resource_id = Some resource_meta ->
  payload_files w !! payload_file w resource_id = Some storage_data ->
  recover resource_meta storage_data = Ok data ->
  _calculate_hash data <> r_hash resource_meta ->
  get_resource env resource_id w
  = (Ok None,
     with_logged
       (logged w ++ [ERROR ("Hash mismatch for resource " +:+ resource_id)]) w).
Proof.
  intros Hr Hf Hrec Hh. unfold get_resource. run_method.
  unfold contains. unfold payload_file in Hf.
  repeat (first [rewrite Hr | rewrite Hf]; cbn).
  apply String.eqb_neq in Hh. unfold recover in Hrec.
  destruct (r_compressed resource_meta).
  - rewrite Hrec. cbn. now rewrite Hh.
  - injection Hrec as ->. cbn. now rewrite Hh.
Qed.

(** The recovered bytes have the recorded hash: they are returned with the
    record, on which the access has been counted. *)
Lemma get_resource_served env resource_id w resource_meta storage_data data :
  get (resources (metadata w)) resource_id = Some resource_meta ->
  payload_files w !! payload_file w resource_id = Some storage_data ->
  recover resource_meta storage_data = Ok data ->
  _calculate_hash data = r_hash resource_meta ->
  let w' := after (get_resource env resource_id) w in
  result (get_resource env resource_id) w
  = Ok (Some (data, touch (now_first env) resource_meta))
  /\ metadata w'
     = {| resources := set (resources (metadata w)) resource_id
                         (touch (now_first env) resource_meta);
          versions := versions (metadata w) |}
  /\ payload_files w' = payload_files w
  /\ resources_dir w' = resources_dir w
  /\ metadata_on_disk w'
     = dumped (metadata_io env) (metadata w') (metadata_on_disk w).
Proof.
  intros Hr Hf Hrec Hh. unfold get_resource. run_method.
  unfold contains. unfold payload_file in Hf.
  repeat (first [rewrite Hr | rewrite Hf]; cbn).
  apply String.eqb_eq in Hh. unfold recover in Hrec.
  destruct (r_compressed resource_meta);
    [rewrite Hrec | injection Hrec as ->]; cbn; rewrite Hh; cbn;
    rewrite save_metadata_run; cbn;
    rewrite save_metadata_metadata, save_metadata_payload_files,
      save_metadata_resources_dir, save_metadata_on_disk;
    repeat split.
Qed.

(** Whatever it returns, it never raises. *)
Lemma get_resource_cases env resource_id w :
  (result (get_resource env resource_id) w = Ok None
   /\ metadata (after (get_resource env resource_id) w) = metadata w)
  \/ exists resource_meta storage_data data,
       get (resources (metadata w)) resource_id = Some resource_meta
       /\ payload_files w !! payload_file w resource_id = Some storage_data
       /\ recover resource_meta storage_data = Ok data
       /\ _calculate_hash data = r_hash resource_meta.
Proof.
  destruct (get (resources (metadata w)) resource_id) as [resource_meta|] eqn:Hr.
  2:{ left. apply contains_false_get in Hr. unfold result, after.
      now rewrite (get_resource_unknown _ _ _ Hr). }
  destruct (payload_files w !! payload_file w resource_id)
    as [storage_data|] eqn:Hf.
  2:{ left. unfold result, after.
      now rewrite (get_resource_no_file _ _ _ Hf). }
  destruct (recover resource_meta storage_data) as [data|e] eqn:Hrec.
  2:{ left. unfold result, after.
      now rewrite (get_resource_corrupt _ _ _ _ _ _ Hr Hf Hrec). }
  destruct (String.string_dec (_calculate_hash data) (r_hash resource_meta))
    as [Hh|Hh].
  2:{ left. unfold result, after.
      now rewrite (get_resource_hash_mismatch _ _ _ _ _ _ Hr Hf Hrec Hh). }
  right. eauto 10.
Qed.

(** A successful [get_resource] went through every check. *)
Lemma get_resource_some_inv env resource_id w data returned :
  result (get_resource env resource_id) w = Ok (Some (data, returned)) ->
  exists resource_meta storage_data,
    get (resources (metadata w)) resource_id = Some resource_meta
    /\ payload_files w !! payload_file w resource_id = Some storage_data
    /\ recover resource_meta storage_data = Ok data
    /\ _calculate_hash data = r_hash resource_meta
    /\ returned = touch (now_first env) resource_meta.
Proof.
  intros Hres.
  destruct (get_resource_cases env resource_id w)
    as [[Hnone _]|(resource_meta & storage_data & data' & Hr & Hf & Hrec & Hh)].
  - rewrite Hnone in Hres. discriminate.
  - destruct (get_resource_served env _ _ _ _ _ Hr Hf Hrec Hh) as [Hserved _].
    rewrite Hserved in Hres. injection Hres as -> <-.
    eauto 10.
Qed.

(** *** [delete_resource] *)

Lemma delete_resource_unknown env resource_id w :
  contains (resources (metadata w)) resource_id = false ->
  delete_resource env resource_id w = (Ok false, w).
Proof. intros Hk. unfold delete_resource. run_method. now rewrite Hk. Qed.

(** The payload file is there and cannot be removed: the exception is
    caught, and the metadata keep the resource. *)
Lemma delete_resource_remove_fails env resource_id w storage_data msg :
  contains (resources (metadata w)) resource_id = true ->
  payload_files w !! payload_file w resource_id = Some storage_data ->
  remove_io env = Some msg ->
  delete_resource env resource_id w
  = (Ok false,
     with_logged
       (logged w ++ [ERROR ("Error deleting resource " +:+ resource_id +:+
                            ": " +:+ msg)]) w).
Proof.
  intros Hk Hf Hio. unfold delete_resource, remove_payload. run_method.
  unfold payload_file in Hf.
  repeat (first [rewrite Hk | rewrite Hf | rewrite Hio]; cbn).
  reflexivity.
Qed.

(** Otherwise the file, the record and the version counter go. *)
Lemma delete_resource_removed env resource_id w :
  contains (resources (metadata w)) resource_id = true ->
  payload_files w !! payload_file w resource_id = None \/ remove_io env = None ->
  let w' := after (delete_resource env resource_id) w in
  result (delete_resource env resource_id) w = Ok true
  /\ metadata w'
     = {| resources := del (resources (metadata w)) resource_id;
          versions := del (versions (metadata w)) resource_id |}
  /\ payload_files w' = delete (payload_file w resource_id) (payload_files w)
  /\ resources_dir w' = resources_dir w
  /\ metadata_on_disk w'
     = dumped (metadata_io env) (metadata w') (metadata_on_disk w).
Proof.
  intros Hk Hio. unfold delete_resource, remove_payload. run_method.
  rewrite Hk. cbn. fold (payload_file w resource_id).
  assert (Hv : (if contains (versions (metadata w)) resource_id
                then del (versions (metadata w)) resource_id
                else versions (metadata w))
               = del (versions (metadata w)) resource_id).
  { destruct (contains (versions (metadata w)) resource_id) eqn:Hc;
      [reflexivity|]. apply contains_false_get in Hc.
    now rewrite del_absent. }
  destruct (payload_files w !! payload_file w resource_id) as [sd|] eqn:Hf.
  - destruct Hio as [?|Hio]; [discriminate|]. rewrite Hio. cbn.
    destruct (contains (versions (metadata w)) resource_id) eqn:Hc; cbn;
      rewrite save_metadata_run; cbn;
      rewrite save_metadata_metadata, save_metadata_payload_files,
        save_metadata_resources_dir, save_metadata_on_disk; cbn;
      rewrite <- ?Hv; repeat split.
  - cbn.
    destruct (contains (versions (metadata w)) resource_id) eqn:Hc; cbn;
      rewrite save_metadata_run; cbn;
      rewrite save_metadata_metadata, save_metadata_payload_files,
        save_metadata_resources_dir, save_metadata_on_disk; cbn;
      rewrite <- ?Hv, ?(delete_id _ _ Hf); repeat split.
Qed.

End Runs.

(** ** The properties of the operations *)

Section Claims.

Context {compressor : Compressor}.
Import PyDict PyDictFacts.

(** Claim C4.  The compressor is lossless: for every byte sequence [x], the
    empty one included, decompressing what [_compress_data] produced gives
    [x] back, whatever time the gzip header records. *)
Theorem compress_decompress_round_trip (mtime : Z) (x : bytes) :
  _decompress_data (_compress_data mtime x) = Ok x.
Proof.
  unfold _decompress_data, _compress_data. apply gzip_roundtrip.
Qed.

(** What [get_resource] recovers from the bytes that [store_resource] wrote
    is the payload, with or without compression. *)
Lemma recover_storage_bytes env data resource_type priority compress :
  recover (new_record env data resource_type priority compress)
          (storage_bytes env compress data)
  = Ok data.
Proof.
  unfold recover, new_record, storage_bytes. cbn.
  destruct compress; [|reflexivity].
  unfold _decompress_data, _compress_data. apply gzip_roundtrip.
Qed.

(** Claim C1.  Store/get round trip: when [store_resource] of payload
    [data] under [resource_id] succeeds, the next [get_resource] of that
    identifier returns exactly [data], together with a record whose stored
    hash is the hash of [data] (which is also the hash in the store
    result); this holds for every payload, the empty one included, with
    compression requested or not. *)
Theorem store_get_round_trip
    (env env' : Env) (w : World) (resource_id : string) (data : bytes)
    (resource_type : string) (priority : Z) (compress : bool)
    (rid : string) (sz csz v : Z) (h : string) :
  result (store_resource env resource_id data resource_type priority compress) w
  = Ok (StoreSuccess rid sz csz v h) ->
  let w' := after (store_resource env resource_id data resource_type priority compress) w in
  exists record : ResourceMeta,
    result (get_resource env' resource_id) w' = Ok (Some (data, record))
    /\ r_hash record = _calculate_hash data
    /\ h = _calculate_hash data.
Proof.
  intros Hres w'.
  pose proof (store_resource_success_inv _ _ _ _ _ _ _ _ _ _ _ _ Hres) as Hio.
  destruct (store_resource_written env resource_id data resource_type priority
              compress w Hio) as (Hres' & Hm & Hf & Hd & _).
  fold w' in Hm, Hf, Hd.
  rewrite Hres in Hres'. injection Hres' as -> -> -> -> ->.
  destruct (get_resource_served env' resource_id w'
              (new_record env data resource_type priority compress)
              (storage_bytes env compress data) data) as (Hget & _).
  - rewrite Hm. cbn. apply get_set_eq.
  - unfold payload_file. rewrite Hf, Hd. apply lookup_insert_eq.
  - apply recover_storage_bytes.
  - reflexivity.
  - eexists. split; [exact Hget|]. split; reflexivity.
Qed.

(** Claim C2.  Versioning: a successful [store_resource] returns version 1
    for an identifier that has no version counter yet (in a state whose two
    mappings are in sync: for one that has no record yet); it returns the
    previous version plus exactly 1 otherwise; [check_version] then returns
    exactly the version of that latest store, and the next successful store
    of the same identifier returns one more. *)
Theorem store_versions
    (env : Env) (w : World) (resource_id : string) (data : bytes)
    (resource_type : string) (priority : Z) (compress : bool)
    (rid : string) (sz csz v : Z) (h : string) :
  result (store_resource env resource_id data resource_type priority compress) w
  = Ok (StoreSuccess rid sz csz v h) ->
  let w' := after (store_resource env resource_id data resource_type priority compress) w in
  (get (versions (metadata w)) resource_id = None -> v = 1%Z)
  /\ (in_sync (metadata w) ->
      contains (resources (metadata w)) resource_id = false -> v = 1%Z)
  /\ (forall v0 : Z,
        get (versions (metadata w)) resource_id = Some v0 -> v = (v0 + 1)%Z)
  /\ check_version resource_id w' = (Ok (Some v), w')
  /\ (forall env2 data2 resource_type2 priority2 compress2 rid2 sz2 csz2 v2 h2,
        result (store_resource env2 resource_id data2 resource_type2 priority2
                  compress2) w'
        = Ok (StoreSuccess rid2 sz2 csz2 v2 h2) ->
        v2 = (v + 1)%Z).
Proof.
  intros Hres w'.
  pose proof (store_resource_success_inv _ _ _ _ _ _ _ _ _ _ _ _ Hres) as Hio.
  destruct (store_resource_written env resource_id data resource_type priority
              compress w Hio) as (Hres' & Hm & _).
  fold w' in Hm.
  rewrite Hres in Hres'. injection Hres' as -> -> -> Hv ->.
  assert (Hnow : get (versions (metadata w')) resource_id = Some v).
  { rewrite Hm, Hv. cbn. apply get_set_eq. }
  unfold next_version in Hv.
  split; [|split; [|split; [|split]]].
  - intros Hnone. rewrite Hnone in Hv. exact Hv.
  - intros Hsync Hfresh. rewrite Hsync in Hfresh.
    apply contains_false_get in Hfresh. rewrite Hfresh in Hv. exact Hv.
  - intros v0 Hsome. rewrite Hsome in Hv. exact Hv.
  - unfold check_version, gets. now rewrite Hnow.
  - intros env2 data2 resource_type2 priority2 compress2 rid2 sz2 csz2 v2 h2
      Hres2.
    pose proof (store_resource_success_inv _ _ _ _ _ _ _ _ _ _ _ _ Hres2)
      as Hio2.
    destruct (store_resource_written env2 resource_id data2 resource_type2
                priority2 compress2 w' Hio2) as (Hres2' & _).
    rewrite Hres2 in Hres2'. injection Hres2' as _ _ _ Hv2 _.
    unfold next_version in Hv2. now rewrite Hnow in Hv2.
Qed.

(** Claim C3.  Integrity detection: when the bytes found on disk for a
    recorded resource (after an external change, say) are recovered to data
    whose hash is not the hash stored in the record, [get_resource] signals
    the integrity error, by logging the hash mismatch as an error and
    returning the failure value [None], and does not return the data; the
    access is not counted and nothing else changes. *)
Theorem get_detects_corruption
    (env : Env) (w : World) (resource_id : string)
    (resource_meta : ResourceMeta) (storage_data data : bytes) :
  get (resources (metadata w)) resource_id = Some resource_meta ->
  payload_files w !! payload_file w resource_id = Some storage_data ->
  recover resource_meta storage_data = Ok data ->
  _calculate_hash data <> r_hash resource_meta ->
  let w' := after (get_resource env resource_id) w in
  result (get_resource env resource_id) w = Ok None
  /\ logged w'
     = logged w ++ [ERROR ("Hash mismatch for resource " +:+ resource_id)]
  /\ metadata w' = metadata w
  /\ payload_files w' = payload_files w
  /\ metadata_on_disk w' = metadata_on_disk w.
Proof.
  intros Hr Hf Hrec Hh w'. subst w'. unfold result, after.
  rewrite (get_resource_hash_mismatch env _ _ _ _ _ Hr Hf Hrec Hh).
  repeat split.
Qed.

(** The scenario of claim C3 from the store on: a payload is stored, the
    bytes of its file are then replaced from outside by [tampered], and
    these are recovered to data with another hash than the payload's. *)
Lemma get_after_tampering
    (env env' : Env) (w : World) (resource_id : string) (data : bytes)
    (resource_type : string) (priority : Z) (compress : bool)
    (tampered recovered : bytes) :
  payload_io env = WriteOk ->
  let w1 := after (store_resource env resource_id data resource_type priority compress) w in
  let w2 := with_payload_files
              (<[payload_file w1 resource_id := tampered]> (payload_files w1))
              w1 in
  recover (new_record env data resource_type priority compress) tampered
  = Ok recovered ->
  _calculate_hash recovered <> _calculate_hash data ->
  get_resource env' resource_id w2
  = (Ok None,
     with_logged
       (logged w2 ++ [ERROR ("Hash mismatch for resource " +:+ resource_id)])
       w2).
Proof.
  intros Hio w1 w2 Hrec Hh.
  destruct (store_resource_written env resource_id data resource_type priority
              compress w Hio) as (_ & Hm & _).
  fold w1 in Hm.
  apply (get_resource_hash_mismatch env' resource_id w2
           (new_record env data resource_type priority compress)
           tampered recovered).
  - subst w2. cbn. rewrite Hm. cbn. apply get_set_eq.
  - subst w2. cbn. unfold payload_file. cbn. apply lookup_insert_eq.
  - exact Hrec.
  - exact Hh.
Qed.




(** *** The two mappings stay in sync *)

Lemma in_sync_set m resource_id resource_meta v :
  in_sync m ->
  in_sync {| resources := set (resources m) resource_id resource_meta;
             versions := set (versions m) resource_id v |}.
Proof.
  intros Hsync k. cbn.
  destruct (String.string_dec resource_id k) as [->|Hne].
  - now rewrite !contains_set_eq.
  - rewrite !contains_set_ne by assumption. apply Hsync.
Qed.

Lemma in_sync_touch m resource_id resource_meta :
  in_sync m ->
  contains (resources m) resource_id = true ->
  in_sync {| resources := set (resources m) resource_id resource_meta;
             versions := versions m |}.
Proof.
  intros Hsync Hk k. cbn.
  destruct (String.string_dec resource_id k) as [->|Hne].
  - rewrite contains_set_eq. rewrite <- Hsync. now rewrite Hk.
  - rewrite contains_set_ne by assumption. apply Hsync.
Qed.

Lemma in_sync_del m resource_id :
  in_sync m ->
  in_sync {| resources := del (resources m) resource_id;
             versions := del (versions m) resource_id |}.
Proof.
  intros Hsync k. cbn.
  destruct (String.string_dec resource_id k) as [->|Hne].
  - now rewrite !contains_del_eq.
  - rewrite !contains_del_ne by assumption. apply Hsync.
Qed.

Lemma in_sync_empty : in_sync empty_metadata.
Proof. intros k. reflexivity. Qed.

Lemma store_resource_in_sync env resource_id data resource_type priority compress w :
  in_sync (metadata w) ->
  in_sync (metadata (after (store_resource env resource_id data resource_type
                              priority compress) w)).
Proof.
  intros Hsync. destruct (payload_io env) eqn:Hio.
  - destruct (store_resource_written env resource_id data resource_type
                priority compress w Hio) as (_ & Hm & _).
    rewrite Hm. now apply in_sync_set.
  - destruct (store_resource_failed env resource_id data resource_type
                priority compress w) as (_ & Hm & _); [congruence|].
    now rewrite Hm.
  - destruct (store_resource_failed env resource_id data resource_type
                priority compress w) as (_ & Hm & _); [congruence|].
    now rewrite Hm.
Qed.

Lemma get_resource_in_sync env resource_id w :
  in_sync (metadata w) ->
  in_sync (metadata (after (get_resource env resource_id) w)).
Proof.
  intros Hsync.
  destruct (get_resource_cases env resource_id w)
    as [[_ Hm]|(resource_meta & storage_data & data & Hr & Hf & Hrec & Hh)].
  - now rewrite Hm.
  - destruct (get_resource_served env _ _ _ _ _ Hr Hf Hrec Hh) as (_ & Hm & _).
    rewrite Hm. apply in_sync_touch; [assumption|].
    apply contains_true_get. eauto.
Qed.

Lemma delete_resource_in_sync env resource_id w :
  in_sync (metadata w) ->
  in_sync (metadata (after (delete_resource env resource_id) w)).
Proof.
  intros Hsync.
  destruct (contains (resources (metadata w)) resource_id) eqn:Hk.
  2:{ unfold after. now rewrite (delete_resource_unknown env _ _ Hk). }
  destruct (payload_files w !! payload_file w resource_id) as [sd|] eqn:Hf.
  - destruct (remove_io env) as [msg|] eqn:Hio.
    + unfold after.
      now rewrite (delete_resource_remove_fails env _ _ _ _ Hk Hf Hio).
    + destruct (delete_resource_removed env resource_id w Hk (or_intror Hio))
        as (_ & Hm & _).
      rewrite Hm. now apply in_sync_del.
  - destruct (delete_resource_removed env resource_id w Hk (or_introl Hf))
      as (_ & Hm & _).
    rewrite Hm. now apply in_sync_del.
Qed.

Lemma step_in_sync env c w :
  in_sync (metadata w) -> in_sync (metadata (step env c w)).
Proof.
  intros Hsync. destruct c; cbn.
  - now apply store_resource_in_sync.
  - now apply get_resource_in_sync.
  - exact Hsync.
  - exact Hsync.
  - now apply delete_resource_in_sync.
  - exact Hsync.
Qed.

Lemma run_in_sync calls w :
  in_sync (metadata w) -> in_sync (metadata (run calls w)).
Proof.
  revert w. induction calls as [|[env c] calls IH]; intros w Hsync; cbn.
  - exact Hsync.
  - now apply IH, step_in_sync.
Qed.

(** Claim C9.  From a state in which every identifier has a resource record
    exactly when it has a version counter, every operation (store, get,
    list, check version, delete, stats), whatever the environment does to
    it, leads to a state with the same property; so does every run of such
    operations. *)
Theorem operations_keep_in_sync (w : World) :
  in_sync (metadata w) ->
  (forall (env : Env) (c : Call), in_sync (metadata (step env c w)))
  /\ (forall calls : list (Env * Call), in_sync (metadata (run calls w))).
Proof.
  intros Hsync. split.
  - intros env c. now apply step_in_sync.
  - intros calls. now apply run_in_sync.
Qed.

(** A manager that starts on a missing or unreadable metadata file starts
    in sync; one that starts on a readable file starts with its content. *)
Lemma init_metadata dir fs mf json_error :
  metadata (init dir fs mf json_error)
  = match mf with Holds m => m | _ => empty_metadata end.
Proof. destruct mf; reflexivity. Qed.

Lemma run_from_scratch_in_sync dir fs json_error calls :
  in_sync (metadata (run calls (init dir fs Missing json_error)))
  /\ in_sync (metadata (run calls (init dir fs Unparseable json_error))).
Proof.
  split; apply run_in_sync; rewrite init_metadata; apply in_sync_empty.
Qed.

(** Claim C10.  A successful [get_resource] changes nothing but the
    [last_accessed] and [access_count] fields of the record of the
    identifier: the record it returns, which is the one now stored, has the
    [type], [size], [compressed_size], [hash], [compressed], [priority] and
    [created] of the record stored before; the records of all other
    identifiers, the order of the entries, and all version counters, the
    one of the identifier included, are as before. *)
Theorem get_touches_only_access_stats
    (env : Env) (w : World) (resource_id : string) (data : bytes)
    (returned : ResourceMeta) :
  result (get_resource env resource_id) w = Ok (Some (data, returned)) ->
  let w' := after (get_resource env resource_id) w in
  exists before : ResourceMeta,
    get (resources (metadata w)) resource_id = Some before
    /\ get (resources (metadata w')) resource_id = Some returned
    /\ r_type returned = r_type before
    /\ r_size returned = r_size before
    /\ r_compressed_size returned = r_compressed_size before
    /\ r_hash returned = r_hash before
    /\ r_compressed returned = r_compressed before
    /\ r_priority returned = r_priority before
    /\ r_created returned = r_created before
    /\ r_last_accessed returned = isoformat (now_first env)
    /\ r_access_count returned = (r_access_count before + 1)%Z
    /\ (forall other : string,
          other <> resource_id ->
          get (resources (metadata w')) other
          = get (resources (metadata w)) other)
    /\ keys (resources (metadata w')) = keys (resources (metadata w))
    /\ versions (metadata w') = versions (metadata w)
    /\ payload_files w' = payload_files w.
Proof.
  intros Hres w'.
  destruct (get_resource_some_inv env resource_id w data returned Hres)
    as (before & storage_data & Hr & Hf & Hrec & Hh & ->).
  destruct (get_resource_served env _ _ _ _ _ Hr Hf Hrec Hh)
    as (_ & Hm & Hfiles & _).
  fold w' in Hm, Hfiles.
  exists before. rewrite Hm. cbn.
  repeat (split; [first [assumption | reflexivity | apply get_set_eq]|]).
  split; [|split; [|split]]; try reflexivity; try assumption.
  - intros other Hne. apply get_set_ne. congruence.
  - apply keys_set_present. congruence.
Qed.

(** *** Other invariants of the metadata *)

Lemma sound_empty : sound empty_metadata.
Proof. repeat split; constructor. Qed.

Lemma step_sound env c w : sound (metadata w) -> sound (metadata (step env c w)).
Proof.
  intros (Hr & Hv & Hs).
  destruct c as [rid data rtype prio cmp|rid|ty|rid|rid|]; cbn;
    try (repeat split; assumption).
  - destruct (payload_io env) eqn:Hio.
    + destruct (store_resource_written env rid data rtype prio cmp w Hio) as (_ & Hm & _).
      rewrite Hm. repeat split; cbn.
      * now apply wf_set.
      * now apply wf_set.
      * apply Forall_values_set; [|exact Hs]. unfold new_record, len. cbn. lia.
    + destruct (store_resource_failed env rid data rtype prio cmp w) as (_ & Hm & _); [congruence|].
      rewrite Hm. repeat split; assumption.
    + destruct (store_resource_failed env rid data rtype prio cmp w) as (_ & Hm & _); [congruence|].
      rewrite Hm. repeat split; assumption.
  - destruct (get_resource_cases env rid w)
      as [[_ Hm]|(resource_meta & storage_data & data & Hg & Hf & Hrec & Hh)].
    + rewrite Hm. repeat split; assumption.
    + destruct (get_resource_served env _ _ _ _ _ Hg Hf Hrec Hh)
        as (_ & Hm & _).
      rewrite Hm. repeat split; cbn; [now apply wf_set | assumption |].
      apply Forall_values_set; [|exact Hs]. unfold touch. cbn.
      unfold sizes_nonneg in Hs. rewrite List.Forall_forall in Hs. apply Hs.
      clear - Hg. induction (resources (metadata w)) as [|[k v] d IH];
        cbn in *; [discriminate|].
      destruct (String.eqb k rid); [injection Hg as ->; now left|].
      right. now apply IH.
  - destruct (contains (resources (metadata w)) rid) eqn:Hk.
    2:{ unfold after. rewrite (delete_resource_unknown env _ _ Hk).
        repeat split; assumption. }
    assert (Hdel : sound {| resources := del (resources (metadata w)) rid;
                            versions := del (versions (metadata w)) rid |}).
    { repeat split; cbn; [now apply wf_del | now apply wf_del |].
      now apply Forall_values_del. }
    destruct (payload_files w !! payload_file w rid) as [sd|] eqn:Hf.
    + destruct (remove_io env) as [msg|] eqn:Hio.
      * unfold after.
        rewrite (delete_resource_remove_fails env _ _ _ _ Hk Hf Hio).
        repeat split; assumption.
      * destruct (delete_resource_removed env rid w Hk (or_intror Hio))
          as (_ & Hm & _).
        now rewrite Hm.
    + destruct (delete_resource_removed env rid w Hk (or_introl Hf))
        as (_ & Hm & _).
      now rewrite Hm.
Qed.

(** Every state that a manager started on an empty directory can reach is
    sound and in sync. *)
Lemma run_sound calls w : sound (metadata w) -> sound (metadata (run calls w)).
Proof.
  revert w. induction calls as [|[env c] calls IH]; intros w Hw; cbn;
    [assumption|]. now apply IH, step_sound.
Qed.

Lemma run_from_scratch_sound dir fs json_error calls :
  sound (metadata (run calls (init dir fs Missing json_error))).
Proof. apply run_sound. rewrite init_metadata. apply sound_empty. Qed.

(** Calls that are no store and no delete of [resource_id] leave its
    version counter alone. *)
Definition leaves_version_of (resource_id : string) (c : Call) : Prop :=
  match c with
  | CallStore other _ _ _ _ => other <> resource_id
  | CallDelete other => other <> resource_id
  | _ => True
  end.

Lemma step_keeps_version env c w resource_id :
  leaves_version_of resource_id c ->
  get (versions (metadata (step env c w))) resource_id
  = get (versions (metadata w)) resource_id.
Proof.
  destruct c as [rid data rtype prio cmp|rid|ty|rid|rid|]; cbn; intros Hc;
    try reflexivity.
  - destruct (payload_io env) eqn:Hio.
    + destruct (store_resource_written env rid data rtype prio cmp w Hio) as (_ & Hm & _).
      rewrite Hm. cbn. now apply get_set_ne.
    + destruct (store_resource_failed env rid data rtype prio cmp w) as (_ & Hm & _); [congruence|].
      now rewrite Hm.
    + destruct (store_resource_failed env rid data rtype prio cmp w) as (_ & Hm & _); [congruence|].
      now rewrite Hm.
  - destruct (get_resource_cases env rid w)
      as [[_ Hm]|(resource_meta & storage_data & data & Hg & Hf & Hrec & Hh)].
    + now rewrite Hm.
    + destruct (get_resource_served env _ _ _ _ _ Hg Hf Hrec Hh)
        as (_ & Hm & _).
      now rewrite Hm.
  - destruct (contains (resources (metadata w)) rid) eqn:Hk.
    2:{ unfold after. now rewrite (delete_resource_unknown env _ _ Hk). }
    destruct (payload_files w !! payload_file w rid) as [sd|] eqn:Hf.
    + destruct (remove_io env) as [msg|] eqn:Hio.
      * unfold after.
        now rewrite (delete_resource_remove_fails env _ _ _ _ Hk Hf Hio).
      * destruct (delete_resource_removed env rid w Hk (or_intror Hio))
          as (_ & Hm & _).
        rewrite Hm. cbn. now apply get_del_ne.
    + destruct (delete_resource_removed env rid w Hk (or_introl Hf))
        as (_ & Hm & _).
      rewrite Hm. cbn. now apply get_del_ne.
Qed.

(** *** Storage statistics *)

Lemma fold_left_accumulate (l : list ResourceMeta) (a b : Z) :
  fold_left accumulate l (a, b)
  = ((a + sum_Z (map r_size l))%Z,
     (b + sum_Z (map r_compressed_size l))%Z).
Proof.
  revert a b. induction l as [|meta l IH]; intros a b.
  - cbn. now rewrite !Z.add_0_r.
  - cbn [fold_left].
    change (accumulate (a, b) meta)
      with ((a + r_size meta)%Z, (b + r_compressed_size meta)%Z).
    rewrite IH. unfold sum_Z. cbn [map fold_right]. f_equal; lia.
Qed.

Lemma sum_sizes_nonneg (l : list ResourceMeta) :
  Forall (fun meta => (0 <= r_size meta)%Z) l ->
  (0 <= sum_Z (map r_size l))%Z.
Proof.
  induction 1 as [|meta l Hmeta Hl IH]; unfold sum_Z in *;
    cbn [map fold_right]; lia.
Qed.

(** The totals that [get_storage_stats] reports, for any metadata. *)
Lemma get_storage_stats_totals (w : World) :
  let rs := resources (metadata w) in
  let S := sum_Z (map r_size (values rs)) in
  let C := sum_Z (map r_compressed_size (values rs)) in
  get_storage_stats w
  = (Ok {| resource_count := len (keys rs);
           total_size := S;
           total_compressed_size := C;
           compression_ratio :=
             if (0 <? S)%Z then PyFloat (inject_Z C / inject_Z S)
             else PyInt 0;
           disk_usage_mb := inject_Z C / inject_Z (1024 * 1024) |},
     w).
Proof.
  cbv zeta. unfold get_storage_stats, gets.
  rewrite fold_left_accumulate. cbn [fst snd]. rewrite !Z.add_0_l.
  unfold len, items, keys. now rewrite length_map.
Qed.

(** Claim C8.  For every state whose live resources have total original
    size [S] and total compressed size [C] (sizes being byte lengths, none
    is negative), [get_storage_stats] reports the number of live resources
    as [resource_count], [S] as [total_size], [C] as
    [total_compressed_size], and as [compression_ratio] the quotient
    [C / S], or 0 when [S] is 0; it is a pure read: the state after the
    call is the state before. *)
Theorem stats_are_consistent (w : World) :
  sizes_nonneg (metadata w) ->
  let rs := resources (metadata w) in
  let S := sum_Z (map r_size (values rs)) in
  let C := sum_Z (map r_compressed_size (values rs)) in
  exists stats : StorageStats,
    get_storage_stats w = (Ok stats, w)
    /\ resource_count stats = len (keys rs)
    /\ total_size stats = S
    /\ total_compressed_size stats = C
    /\ compression_ratio stats
       = (if (S =? 0)%Z then PyInt 0
          else PyFloat (inject_Z C / inject_Z S)).
Proof.
  intros Hnn. cbv zeta. eexists. split; [apply get_storage_stats_totals|].
  cbn. repeat split.
  assert (HS : (0 <= sum_Z (map r_size (values (resources (metadata w)))))%Z).
  { now apply sum_sizes_nonneg. }
  destruct (Z.ltb_spec 0 (sum_Z (map r_size (values (resources (metadata w))))))
    as [Hpos|Hle];
    destruct (Z.eqb_spec (sum_Z (map r_size (values (resources (metadata w))))) 0)
    as [Hz|Hnz]; try reflexivity; lia.
Qed.

(** *** Listing *)

Lemma collect_matching vs resource_type entries :
  collect vs resource_type entries
  = summaries vs (matching resource_type entries).
Proof.
  induction entries as [|[resource_id meta] entries IH]; cbn; [reflexivity|].
  destruct (type_matches resource_type meta); cbn; now rewrite IH.
Qed.

Lemma matching_None entries : matching None entries = entries.
Proof.
  unfold matching.
  induction entries as [|entry entries IH]; [reflexivity|].
  cbn [List.filter]. rewrite IH. reflexivity.
Qed.


End Claims.

(** ** Further properties of the manager *)

Section Further.

Context {compressor : Compressor}.
Import PyDict PyDictFacts.

(** ** Reading *)

(** Whenever [get_resource] returns [None], the world is as before, the
    log apart. *)
Lemma get_resource_none env resource_id w :
  result (get_resource env resource_id) w = Ok None ->
  same_but_log w (after (get_resource env resource_id) w).
Proof.
  intros Hres. unfold same_but_log.
  destruct (get (resources (metadata w)) resource_id) as [resource_meta|] eqn:Hr.
  2:{ apply contains_false_get in Hr. unfold after.
      now rewrite (get_resource_unknown _ _ _ Hr). }
  destruct (payload_files w !! payload_file w resource_id)
    as [storage_data|] eqn:Hf.
  2:{ unfold after. now rewrite (get_resource_no_file _ _ _ Hf). }
  destruct (recover resource_meta storage_data) as [data|e] eqn:Hrec.
  2:{ unfold after.
      now rewrite (get_resource_corrupt _ _ _ _ _ _ Hr Hf Hrec). }
  destruct (String.string_dec (_calculate_hash data) (r_hash resource_meta))
    as [Hh|Hh].
  2:{ unfold after.
      now rewrite (get_resource_hash_mismatch _ _ _ _ _ _ Hr Hf Hrec Hh). }
  destruct (get_resource_served env _ _ _ _ _ Hr Hf Hrec Hh) as (Hs & _).
  rewrite Hs in Hres. discriminate.
Qed.


(** Property X1.  A resource without record, or without payload file, is not
    served: [get_resource] returns [None] and leaves the world exactly as
    it was, log included.  In particular a payload file that the metadata
    do not know is never read. *)
Theorem get_unknown_or_unstored
    (env : Env) (w : World) (resource_id : string) :
  contains (resources (metadata w)) resource_id = false
  \/ payload_files w !! payload_file w resource_id = None ->
  get_resource env resource_id w = (Ok None, w).
Proof.
  intros [Hk|Hf].
  - now apply get_resource_unknown.
  - now apply get_resource_no_file.
Qed.

(** Property X2.  A manager started on a missing or unparseable metadata file serves
    nothing, whatever payload files the directory holds; the unparseable
    file is reported in the log, at startup, and nowhere else. *)
Theorem recovered_manager_serves_nothing
    (dir : string) (fs : gmap string bytes) (json_error : string)
    (env : Env) (resource_id : string) :
  let w0 := init dir fs Missing json_error in
  let w1 := init dir fs Unparseable json_error in
  get_resource env resource_id w0 = (Ok None, w0)
  /\ get_resource env resource_id w1 = (Ok None, w1)
  /\ payload_files w0 = fs /\ payload_files w1 = fs
  /\ logged w0 = []
  /\ logged w1 = [ERROR ("Error loading metadata: " +:+ json_error)]
  /\ check_version resource_id w0 = (Ok None, w0)
  /\ check_version resource_id w1 = (Ok None, w1)
  /\ (forall resource_type : option string,
        list_resources resource_type w0 = (Ok [], w0)
        /\ list_resources resource_type w1 = (Ok [], w1)).
Proof.
  cbv zeta. repeat split; try reflexivity.
Qed.

(** Property X3.  Compressed bytes that [gzip] rejects: the exception is caught,
    logged as an error, and [get_resource] returns [None]; nothing else
    changes, and the access is not counted. *)
Theorem get_undecodable_payload
    (env : Env) (w : World) (resource_id : string)
    (resource_meta : ResourceMeta) (storage_data : bytes) (e : exn) :
  get (resources (metadata w)) resource_id = Some resource_meta ->
  payload_files w !! payload_file w resource_id = Some storage_data ->
  r_compressed resource_meta = true ->
  _decompress_data storage_data = Raise e ->
  get_resource env resource_id w
  = (Ok None,
     with_logged
       (logged w ++ [ERROR ("Error retrieving resource " +:+ resource_id +:+
                            ": " +:+ str_of_exn e)]) w).
Proof.
  intros Hr Hf Hc He.
  apply (get_resource_corrupt env resource_id w resource_meta storage_data e);
    try assumption.
  unfold recover. now rewrite Hc.
Qed.

(** Property X4.  [get_resource] never raises, never touches a payload file or a
    version counter, and never adds, removes or reorders a record; when it
    returns [None], the metadata, in memory and on disk, are as before. *)
Theorem get_resource_effects (env : Env) (w : World) (resource_id : string) :
  let w' := after (get_resource env resource_id) w in
  exists returned : option (bytes * ResourceMeta),
    result (get_resource env resource_id) w = Ok returned
    /\ payload_files w' = payload_files w
    /\ resources_dir w' = resources_dir w
    /\ versions (metadata w') = versions (metadata w)
    /\ keys (resources (metadata w')) = keys (resources (metadata w))
    /\ (returned = None ->
        metadata w' = metadata w
        /\ metadata_on_disk w' = metadata_on_disk w).
Proof.
  cbv zeta.
  destruct (get_resource_cases env resource_id w)
    as [[Hnone _]|(resource_meta & storage_data & data & Hr & Hf & Hrec & Hh)].
  - exists None. destruct (get_resource_none env resource_id w Hnone)
      as (Hd & _ & Hm & Hp & Hdisk).
    rewrite Hm, Hp, Hd, Hdisk. repeat split; assumption.
  - destruct (get_resource_served env _ _ _ _ _ Hr Hf Hrec Hh)
      as (Hs & Hm & Hp & Hd & _).
    eexists. split; [exact Hs|]. rewrite Hm, Hp, Hd. cbn.
    repeat split; try discriminate.
    apply keys_set_present. congruence.
Qed.

(** A successful read leaves the resource readable, as the same data. *)
Lemma get_keeps_servable env resource_id w other data :
  servable w other data ->
  servable (after (get_resource env resource_id) w) other data.
Proof.
  intros (r & sd & Hr & Hf & Hrec & Hh).
  destruct (get_resource_cases env resource_id w)
    as [[Hnone _]|(r0 & sd0 & d0 & Hr0 & Hf0 & Hrec0 & Hh0)].
  - destruct (get_resource_none env resource_id w Hnone)
      as (Hd & _ & Hm & Hp & _).
    exists r, sd. unfold payload_file. rewrite Hm, Hp, Hd. auto.
  - destruct (get_resource_served env _ _ _ _ _ Hr0 Hf0 Hrec0 Hh0)
      as (_ & Hm & Hp & Hd & _).
    unfold servable, payload_file. rewrite Hm, Hp, Hd. cbn.
    destruct (String.string_dec resource_id other) as [->|Hne].
    + rewrite get_set_eq. rewrite Hr in Hr0. injection Hr0 as <-.
      exists (touch (now_first env) r), sd. auto.
    + rewrite get_set_ne by assumption. exists r, sd. auto.
Qed.

Lemma last_cons_default {A : Type} (x d : A) (l : list A) :
  List.last (x :: l) d = List.last l x.
Proof.
  revert x d. induction l as [|y l IH]; intros x d; [reflexivity|].
  change (List.last (x :: y :: l) d) with (List.last (y :: l) d).
  now rewrite (IH y d), (IH y x).
Qed.

(** Property X5.  Access counting: reading a readable resource [n] times in a row
    succeeds each time and raises its [access_count] by exactly [n]; the
    record keeps its other fields, and its [last_accessed] is the time of
    the last read. *)
Theorem repeated_reads_are_counted
    (envs : list Env) (w : World) (resource_id : string) (data : bytes)
    (before : ResourceMeta) :
  servable w resource_id data ->
  get (resources (metadata w)) resource_id = Some before ->
  let w' := get_repeatedly envs resource_id w in
  exists now_ : ResourceMeta,
    get (resources (metadata w')) resource_id = Some now_
    /\ r_access_count now_ = (r_access_count before + len envs)%Z
    /\ r_last_accessed now_
       = List.last (map (fun env => isoformat (now_first env)) envs)
                   (r_last_accessed before)
    /\ r_type now_ = r_type before /\ r_size now_ = r_size before
    /\ r_compressed_size now_ = r_compressed_size before
    /\ r_hash now_ = r_hash before /\ r_compressed now_ = r_compressed before
    /\ r_priority now_ = r_priority before /\ r_created now_ = r_created before
    /\ servable w' resource_id data.
Proof.
  revert w before. induction envs as [|env envs IH]; intros w before Hs Hb.
  - cbn. exists before. unfold len. cbn. rewrite Z.add_0_r.
    repeat split; assumption.
  - cbv zeta. unfold get_repeatedly. cbn [map run step].
    fold (get_repeatedly envs resource_id (after (get_resource env resource_id) w)).
    destruct Hs as (r & sd & Hr & Hf & Hrec & Hh).
    rewrite Hb in Hr. injection Hr as <-.
    destruct (get_resource_served env _ _ _ _ _ Hb Hf Hrec Hh)
      as (_ & Hm & _).
    assert (Hs' : servable (after (get_resource env resource_id) w)
                    resource_id data).
    { apply get_keeps_servable. exists before, sd. auto. }
    assert (Hb' : get (resources (metadata (after (get_resource env resource_id) w)))
                    resource_id = Some (touch (now_first env) before)).
    { rewrite Hm. cbn. apply get_set_eq. }
    destruct (IH _ _ Hs' Hb') as (now_ & Hn & Hc & Hl & H).
    exists now_. split; [exact Hn|]. split.
    { rewrite Hc. unfold touch, len. cbn [r_access_count length]. lia. }
    split; [|exact H].
    rewrite Hl. cbn [map]. now rewrite last_cons_default.
Qed.

(** ** Payload paths *)


Lemma length_append (s t : string) :
  String.length (s +:+ t) = (String.length s + String.length t)%nat.
Proof.
  induction s as [|c s IH]; [reflexivity|].
  change (String c s +:+ t) with (String c (s +:+ t)). cbn. now rewrite IH.
Qed.






(** ** Writing and deleting touch one resource *)

(** What [get_resource] returns depends on the record and the payload file
    of the identifier only. *)
Lemma get_resource_result_ext env resource_id w1 w2 :
  resources_dir w1 = resources_dir w2 ->
  get (resources (metadata w1)) resource_id
  = get (resources (metadata w2)) resource_id ->
  payload_files w1 !! payload_file w1 resource_id
  = payload_files w2 !! payload_file w2 resource_id ->
  result (get_resource env resource_id) w1
  = result (get_resource env resource_id) w2.
Proof.
  intros Hd Hr Hf.
  destruct (get (resources (metadata w1)) resource_id) as [r|] eqn:Hr1.
  2:{ symmetry in Hr. apply contains_false_get in Hr1, Hr. unfold result.
      now rewrite (get_resource_unknown _ _ _ Hr1),
        (get_resource_unknown _ _ _ Hr). }
  symmetry in Hr.
  destruct (payload_files w1 !! payload_file w1 resource_id) as [sd|] eqn:Hf1.
  2:{ symmetry in Hf. unfold result.
      now rewrite (get_resource_no_file _ _ _ Hf1),
        (get_resource_no_file _ _ _ Hf). }
  symmetry in Hf.
  destruct (recover r sd) as [data|e] eqn:Hrec.
  2:{ unfold result.
      now rewrite (get_resource_corrupt _ _ _ _ _ _ Hr1 Hf1 Hrec),
        (get_resource_corrupt _ _ _ _ _ _ Hr Hf Hrec). }
  destruct (String.string_dec (_calculate_hash data) (r_hash r)) as [Hh|Hh].
  2:{ unfold result.
      now rewrite (get_resource_hash_mismatch _ _ _ _ _ _ Hr1 Hf1 Hrec Hh),
        (get_resource_hash_mismatch _ _ _ _ _ _ Hr Hf Hrec Hh). }
  destruct (get_resource_served env _ _ _ _ _ Hr1 Hf1 Hrec Hh) as (H1 & _).
  destruct (get_resource_served env _ _ _ _ _ Hr Hf Hrec Hh) as (H2 & _).
  now rewrite H1, H2.
Qed.



(** Property X8.  A successful [store_resource] replaces the record wholesale:
    whatever record the identifier had, the new one is made from the
    arguments of the call alone, with [access_count] 0; a known identifier
    keeps its place among the entries and a new one goes last; and without
    compression the file holds the payload itself and [compressed_size]
    equals [size]. *)
Theorem store_replaces_record
    (env : Env) (w : World) (resource_id : string) (data : bytes)
    (resource_type : string) (priority : Z) (compress : bool) :
  payload_io env = WriteOk ->
  let w' := after (store_resource env resource_id data resource_type priority compress) w in
  let record := new_record env data resource_type priority compress in
  get (resources (metadata w')) resource_id = Some record
  /\ r_access_count record = 0%Z
  /\ r_size record = len data
  /\ keys (resources (metadata w'))
     = (if contains (resources (metadata w)) resource_id
        then keys (resources (metadata w))
        else keys (resources (metadata w)) ++ [resource_id])
  /\ (compress = false ->
      r_compressed_size record = r_size record
      /\ payload_files w' !! payload_file w resource_id = Some data).
Proof.
  intros Hio. cbv zeta.
  destruct (store_resource_written env resource_id data resource_type priority
              compress w Hio) as (_ & Hm & Hf & _).
  rewrite Hm, Hf. cbn [resources]. split; [apply get_set_eq|].
  split; [reflexivity|]. split; [reflexivity|]. split.
  - unfold contains.
    destruct (get (resources (metadata w)) resource_id) eqn:Hk.
    + apply keys_set_present. congruence.
    + rewrite set_absent by assumption. unfold keys. now rewrite map_app.
  - intros ->. split; [reflexivity|]. apply lookup_insert_eq.
Qed.



(** Property X10.  A [delete_resource] that returned [True] removed the payload
    file as well; afterwards the identifier has no version, is not
    listed, and [get_resource] returns [None] for it without any effect.
    The version counter starts again: the next successful store of the
    identifier returns version 1, whatever version it had reached. *)
Theorem delete_removes_everything
    (env env' : Env) (w : World) (resource_id : string) :
  result (delete_resource env resource_id) w = Ok true ->
  let w' := after (delete_resource env resource_id) w in
  payload_files w' !! payload_file w' resource_id = None
  /\ check_version resource_id w' = (Ok None, w')
  /\ get_resource env' resource_id w' = (Ok None, w')
  /\ (forall (resource_type : option string) (listed : list Summary),
        list_resources resource_type w' = (Ok listed, w') ->
        ~ In resource_id (map s_id listed))
  /\ (forall (data : bytes) (resource_type : string) (priority : Z)
             (compress : bool),
        payload_io env' = WriteOk ->
        result (store_resource env' resource_id data resource_type priority
                  compress) w'
        = Ok (StoreSuccess resource_id (len data)
                (len (storage_bytes env' compress data)) 1
                (_calculate_hash data))).
Proof.
  intros Hres. cbv zeta.
  destruct (contains (resources (metadata w)) resource_id) eqn:Hk.
  2:{ unfold result in Hres.
      rewrite (delete_resource_unknown env _ _ Hk) in Hres. discriminate. }
  assert (Hio : payload_files w !! payload_file w resource_id = None
                \/ remove_io env = None).
  { destruct (payload_files w !! payload_file w resource_id) as [sd|] eqn:Hf;
      [|now left].
    destruct (remove_io env) as [msg|] eqn:Hio; [|now right].
    unfold result in Hres.
    rewrite (delete_resource_remove_fails env _ _ _ _ Hk Hf Hio) in Hres.
    discriminate. }
  destruct (delete_resource_removed env resource_id w Hk Hio)
    as (_ & Hm & Hf & Hd & _).
  assert (Hgone : get (resources (metadata (after (delete_resource env resource_id) w)))
                    resource_id = None).
  { rewrite Hm. cbn. apply get_del_eq. }
  split; [|split; [|split; [|split]]].
  - unfold payload_file. rewrite Hf, Hd. apply lookup_delete_eq.
  - unfold check_version, gets. rewrite Hm. cbn. now rewrite get_del_eq.
  - apply get_resource_unknown. now apply contains_false_get.
  - intros resource_type listed Hlist Hin.
    unfold list_resources, gets in Hlist. injection Hlist as <-.
    apply in_map_iff in Hin as (s0 & Hid & Hin).
    apply (Permutation_in _ (sorted_desc_perm _ _)) in Hin.
    rewrite collect_matching in Hin. unfold summaries in Hin.
    apply in_map_iff in Hin as ([k r] & <- & Hin). cbn in Hid. subst k.
    unfold matching in Hin. apply filter_In in Hin as [Hin _].
    apply get_None_keys in Hgone. apply Hgone.
    unfold keys, items in *. apply in_map_iff. exists (resource_id, r). auto.
  - intros data resource_type priority compress Hio'.
    destruct (store_resource_written env' resource_id data resource_type
                priority compress
                (after (delete_resource env resource_id) w) Hio')
      as (Hres' & _).
    rewrite Hres'. unfold next_version. rewrite Hm. cbn [versions].
    now rewrite get_del_eq.
Qed.

(** Property X11.  When [os.remove] fails on the payload file of a known resource,
    [delete_resource] returns [False] although the identifier exists; the
    error is logged and the record, the version counter and the file all
    stay, so the resource is read back as before; a later call for which
    the removal works returns [True]. *)
Theorem delete_fails_when_removal_fails
    (env env' : Env) (w : World) (resource_id : string) (storage_data : bytes)
    (msg : string) :
  contains (resources (metadata w)) resource_id = true ->
  payload_files w !! payload_file w resource_id = Some storage_data ->
  remove_io env = Some msg ->
  let w' := after (delete_resource env resource_id) w in
  result (delete_resource env resource_id) w = Ok false
  /\ logged w'
     = logged w ++ [ERROR ("Error deleting resource " +:+ resource_id +:+
                           ": " +:+ msg)]
  /\ same_but_log w w'
  /\ result (get_resource env' resource_id) w'
     = result (get_resource env' resource_id) w
  /\ (remove_io env' = None ->
      result (delete_resource env' resource_id) w' = Ok true).
Proof.
  intros Hk Hf Hio. cbv zeta. unfold result, after.
  rewrite (delete_resource_remove_fails env _ _ _ _ Hk Hf Hio).
  cbn [fst snd]. split; [reflexivity|]. split; [reflexivity|].
  split; [repeat split|]. split.
  - apply get_resource_result_ext; reflexivity.
  - intros Hio'.
    destruct (delete_resource_removed env' resource_id
                (with_logged
                   (logged w ++ [ERROR ("Error deleting resource " +:+
                                        resource_id +:+ ": " +:+ msg)]) w))
      as (Hres & _); [exact Hk | now right | exact Hres].
Qed.

(** ** What stays readable *)





(** ** Restarting *)

Lemma restart_metadata json_error w :
  metadata (restart json_error w)
  = match metadata_on_disk w with Holds m => m | _ => empty_metadata end.
Proof. unfold restart. apply init_metadata. Qed.

Lemma durable_restart json_error w :
  durable w <-> metadata (restart json_error w) = metadata w.
Proof.
  rewrite restart_metadata. unfold durable.
  destruct (metadata_on_disk w); split; congruence.
Qed.

Lemma durable_init dir fs mf json_error : durable (init dir fs mf json_error).
Proof. destruct mf; reflexivity. Qed.

Lemma step_durable env c w :
  metadata_io env = WriteOk -> durable w -> durable (step env c w).
Proof.
  intros Hio Hw.
  destruct c as [rid data rtype prio cmp|rid|ty|rid|rid|]; cbn;
    try exact Hw.
  - destruct (payload_io env) eqn:Hpio.
    + destruct (store_resource_written env rid data rtype prio cmp w Hpio)
        as (_ & _ & _ & _ & Hdisk).
      unfold durable. rewrite Hdisk, Hio. reflexivity.
    + destruct (store_resource_failed env rid data rtype prio cmp w)
        as (_ & Hm & Hdisk & _); [congruence|].
      unfold durable. now rewrite Hm, Hdisk.
    + destruct (store_resource_failed env rid data rtype prio cmp w)
        as (_ & Hm & Hdisk & _); [congruence|].
      unfold durable. now rewrite Hm, Hdisk.
  - destruct (get_resource_cases env rid w)
      as [[Hnone _]|(r0 & sd0 & d0 & Hr0 & Hf0 & Hrec0 & Hh0)].
    + destruct (get_resource_none env rid w Hnone) as (_ & _ & Hm & _ & Hdisk).
      unfold durable. now rewrite Hm, Hdisk.
    + destruct (get_resource_served env _ _ _ _ _ Hr0 Hf0 Hrec0 Hh0)
        as (_ & _ & _ & _ & Hdisk).
      unfold durable. rewrite Hdisk, Hio. reflexivity.
  - destruct (contains (resources (metadata w)) rid) eqn:Hk.
    2:{ unfold after. now rewrite (delete_resource_unknown env _ _ Hk). }
    destruct (payload_files w !! payload_file w rid) as [sd|] eqn:Hfile.
    + destruct (remove_io env) as [msg|] eqn:Hrio.
      * unfold after.
        now rewrite (delete_resource_remove_fails env _ _ _ _ Hk Hfile Hrio).
      * destruct (delete_resource_removed env rid w Hk (or_intror Hrio))
          as (_ & _ & _ & _ & Hdisk).
        unfold durable. rewrite Hdisk, Hio. reflexivity.
    + destruct (delete_resource_removed env rid w Hk (or_introl Hfile))
        as (_ & _ & _ & _ & Hdisk).
      unfold durable. rewrite Hdisk, Hio. reflexivity.
Qed.

(** Property X13.  Persistence: as long as the writes of the metadata file succeed,
    the file holds what the manager has in memory after every call, reads
    included; a manager restarted on the same directory then has the same
    metadata and reads every resource back as the running one would. *)
Theorem restart_recovers_metadata
    (dir : string) (fs : gmap string bytes) (mf : MetaFile)
    (json_error json_error' : string) (calls : list (Env * Call)) :
  Forall (fun call => metadata_io (fst call) = WriteOk) calls ->
  let w := run calls (init dir fs mf json_error) in
  metadata (restart json_error' w) = metadata w
  /\ (forall (env : Env) (resource_id : string),
        result (get_resource env resource_id) (restart json_error' w)
        = result (get_resource env resource_id) w).
Proof.
  intros Hcalls. cbv zeta.
  assert (Hd : durable (run calls (init dir fs mf json_error))).
  { generalize (durable_init dir fs mf json_error).
    generalize (init dir fs mf json_error).
    induction Hcalls as [|[env0 c] calls Hio Hcalls IH]; intros w0 Hw0;
      cbn [run]; [assumption|].
    apply IH. now apply step_durable. }
  apply (durable_restart json_error') in Hd. split; [exact Hd|].
  intros env resource_id. apply get_resource_result_ext.
  - unfold restart. now destruct (metadata_on_disk _).
  - now rewrite Hd.
  - unfold restart, payload_file. now destruct (metadata_on_disk _).
Qed.


(** ** Listing *)

Lemma wf_In_get {V : Type} (d : PyDict.t V) (k : string) (v : V) :
  wf d -> (In (k, v) (items d) <-> get d k = Some v).
Proof.
  unfold wf, items. induction d as [|[k' v'] d IH]; cbn; intros Hnd.
  - split; [tauto | discriminate].
  - apply NoDup_cons in Hnd as [Hk' Hnd]. rewrite list_elem_of_In in Hk'.
    destruct (String.eqb k' k) eqn:E.
    + apply String.eqb_eq in E. subst k'. split.
      * intros [H|H]; [congruence|].
        exfalso. apply Hk'. apply in_map_iff. exists (k, v). auto.
      * intros H. left. congruence.
    + apply String.eqb_neq in E. rewrite <- (IH Hnd). split.
      * intros [H|H]; [congruence | assumption].
      * auto.
Qed.

Lemma NoDup_keys_filter {V : Type} (f : string * V -> bool) (d : PyDict.t V) :
  wf d -> List.NoDup (map fst (List.filter f d)).
Proof.
  unfold wf, keys. induction d as [|e d IH]; cbn; intros Hnd;
    [constructor|].
  apply NoDup_cons in Hnd as [He Hnd]. rewrite list_elem_of_In in He.
  destruct (f e); cbn; [|now apply IH].
  constructor; [|now apply IH].
  intros Hin. apply He. apply in_map_iff in Hin as (e' & He' & Hin).
  apply in_map_iff. exists e'. split; [assumption|].
  now apply filter_In in Hin.
Qed.

(** Property X15.  What [list_resources] lists, the metadata being a dict: exactly
    the summaries of the records that match the filter, each identifier
    once; with a type filter, only resources of that type; the [version]
    of a summary is what [check_version] returns when the two mappings are
    in sync; and without filter there are as many summaries as
    [get_storage_stats] counts resources. *)
Theorem list_resources_content (w : World) (resource_type : option string) :
  wf (resources (metadata w)) ->
  let rs := resources (metadata w) in
  let vs := versions (metadata w) in
  exists listed : list Summary,
    list_resources resource_type w = (Ok listed, w)
    /\ (forall s : Summary,
          In s listed <->
          exists resource_meta : ResourceMeta,
            get rs (s_id s) = Some resource_meta
            /\ type_matches resource_type resource_meta = true
            /\ s = summary vs (s_id s) resource_meta)
    /\ List.NoDup (map s_id listed)
    /\ (forall (ty : string) (s : Summary),
          resource_type = Some ty -> In s listed -> s_type s = ty)
    /\ (in_sync (metadata w) ->
        forall s : Summary,
          In s listed ->
          check_version (s_id s) w = (Ok (Some (s_version s)), w))
    /\ (resource_type = None ->
        exists stats : StorageStats,
          get_storage_stats w = (Ok stats, w)
          /\ resource_count stats = len listed).
Proof.
  intros Hwf. cbv zeta. eexists. split; [reflexivity|].
  rewrite collect_matching.
  assert (Hin : forall s : Summary,
    In s (sorted_desc s_last_accessed
            (summaries (versions (metadata w))
               (matching resource_type (items (resources (metadata w)))))) <->
    exists resource_meta : ResourceMeta,
      get (resources (metadata w)) (s_id s) = Some resource_meta
      /\ type_matches resource_type resource_meta = true
      /\ s = summary (versions (metadata w)) (s_id s) resource_meta).
  { intros s. split.
    - intros H. apply (Permutation_in _ (sorted_desc_perm _ _)) in H.
      unfold summaries in H. apply in_map_iff in H as ([k r] & <- & H).
      unfold matching in H. apply filter_In in H as [H Hty]. cbn in *.
      exists r. repeat split; [|assumption]. now apply wf_In_get.
    - intros (r & Hr & Hty & ->).
      apply (Permutation_in _ (Permutation_sym (sorted_desc_perm _ _))).
      unfold summaries. apply in_map_iff. exists (s_id s, r).
      split; [reflexivity|]. unfold matching. apply filter_In.
      split; [now apply wf_In_get | assumption]. }
  split; [exact Hin|]. split.
  { eapply Permutation_NoDup.
    - apply Permutation_map, Permutation_sym, sorted_desc_perm.
    - unfold summaries. rewrite map_map. cbn.
      change (fun x : string * ResourceMeta => x.1) with (@fst string ResourceMeta).
      now apply NoDup_keys_filter. }
  split.
  { intros ty s -> Hs. apply Hin in Hs as (r & _ & Hty & ->). cbn in *.
    now apply String.eqb_eq. }
  split.
  { intros Hsync s Hs. apply Hin in Hs as (r & Hr & _ & ->). cbn.
    unfold check_version, gets. f_equal. f_equal.
    assert (Hk : contains (versions (metadata w)) (s_id s) = true).
    { rewrite <- Hsync. apply contains_true_get. eauto. }
    apply contains_true_get in Hk as (v & Hv). now rewrite Hv. }
  intros ->. eexists. split; [apply get_storage_stats_totals|]. cbn.
  unfold len. f_equal.
  rewrite (Permutation_length (sorted_desc_perm _ _)).
  unfold summaries, keys. rewrite !length_map, matching_None. reflexivity.
Qed.




(** ** Version counters over a run *)

Lemma step_version env c w resource_id :
  c <> CallDelete resource_id ->
  get (versions (metadata (step env c w))) resource_id
  = if stores resource_id (env, c)
    then Some (next_version (versions (metadata w)) resource_id)
    else get (versions (metadata w)) resource_id.
Proof.
  intros Hc. unfold stores. cbn [fst snd].
  destruct c as [rid data rtype prio cmp|rid|ty|rid|rid|];
    try (now apply step_keeps_version).
  - cbn [step]. destruct (payload_io env) eqn:Hio.
    + destruct (store_resource_written env rid data rtype prio cmp w Hio)
        as (_ & Hm & _).
      rewrite Hm. cbn [versions].
      destruct (String.eqb_spec rid resource_id) as [->|Hne].
      * apply get_set_eq.
      * now apply get_set_ne.
    + destruct (store_resource_failed env rid data rtype prio cmp w)
        as (_ & Hm & _); [congruence|]. now rewrite Hm.
    + destruct (store_resource_failed env rid data rtype prio cmp w)
        as (_ & Hm & _); [congruence|]. now rewrite Hm.
  - apply step_keeps_version. cbn. congruence.
Qed.

(** Property X17.  Between two deletions, the version counter of a resource counts
    its stores: after any calls without a [delete_resource] of the
    identifier, the version is the one from before plus the number of
    [store_resource] calls for it whose payload write succeeded; failed
    stores, reads, listings, and stores and deletions of other identifiers
    do not move it. *)
Theorem version_counts_stores
    (calls : list (Env * Call)) (w : World) (resource_id : string) :
  Forall (fun call => snd call <> CallDelete resource_id) calls ->
  let n := len (List.filter (stores resource_id) calls) in
  let before :=
    match get (versions (metadata w)) resource_id with
    | Some v => v
    | None => 0%Z
    end in
  get (versions (metadata (run calls w))) resource_id
  = if (n =? 0)%Z then get (versions (metadata w)) resource_id
    else Some (before + n)%Z.
Proof.
  intros Hcalls. cbv zeta. revert w.
  induction Hcalls as [|[env c] calls Hc Hcalls IH]; intros w; [reflexivity|].
  cbn [run List.filter]. rewrite IH. cbn [snd] in Hc.
  rewrite (step_version env c w resource_id Hc).
  unfold len.
  destruct (stores resource_id (env, c)); [|reflexivity].
  cbn [length]. unfold next_version.
  set (m := length (List.filter (stores resource_id) calls)).
  destruct (Z.eqb_spec (Z.of_nat m) 0) as [Hz|Hnz];
    destruct (Z.eqb_spec (Z.of_nat (S m)) 0) as [Hz'|Hnz']; try lia.
  - f_equal. lia.
  - f_equal. lia.
Qed.

(** ** Statistics after a store and after a deletion *)

Lemma sum_values_set {V : Type} (f : V -> Z) (d : PyDict.t V) (k : string)
    (v : V) :
  sum_Z (map f (values (set d k v)))
  = (sum_Z (map f (values d)) + f v
     - match get d k with Some old => f old | None => 0 end)%Z.
Proof.
  unfold values, sum_Z. induction d as [|[k' v'] d IH]; cbn; [lia|].
  destruct (String.eqb k' k); cbn; [lia|]. rewrite IH. lia.
Qed.

Lemma length_keys_set {V : Type} (d : PyDict.t V) (k : string) (v : V) :
  len (keys (set d k v))
  = (len (keys d) + if contains d k then 0 else 1)%Z.
Proof.
  unfold len, contains.
  destruct (get d k) eqn:Hk.
  - rewrite keys_set_present by congruence. lia.
  - rewrite set_absent by assumption. unfold keys.
    rewrite map_app, length_app. cbn. lia.
Qed.

Lemma del_head_absent {V : Type} (d : PyDict.t V) (k : string) :
  ~ In k (keys d) -> del d k = d.
Proof. intros H. apply del_absent. now apply get_None_keys. Qed.

Lemma sum_values_del {V : Type} (f : V -> Z) (d : PyDict.t V) (k : string)
    (old : V) :
  wf d -> get d k = Some old ->
  sum_Z (map f (values (del d k))) = (sum_Z (map f (values d)) - f old)%Z
  /\ len (keys (del d k)) = (len (keys d) - 1)%Z.
Proof.
  unfold wf, values, keys, sum_Z, len.
  induction d as [|[k' v'] d IH]; cbn; intros Hnd Hk; [discriminate|].
  apply NoDup_cons in Hnd as [Hk' Hnd]. rewrite list_elem_of_In in Hk'.
  destruct (String.eqb k' k) eqn:E.
  - apply String.eqb_eq in E. subst k'. injection Hk as ->.
    rewrite del_head_absent by assumption. lia.
  - cbn. destruct (IH Hnd Hk) as [IH1 IH2]. lia.
Qed.

(** Property X18.  How the statistics follow a successful [store_resource]: a new
    identifier adds one resource and its two sizes to the totals; a known
    identifier leaves the count and replaces the sizes of its old record
    by the new ones.  A failed store leaves the statistics as they were. *)
Theorem stats_follow_store
    (env : Env) (w : World) (resource_id : string) (data : bytes)
    (resource_type : string) (priority : Z) (compress : bool) :
  let w' := after (store_resource env resource_id data resource_type priority compress) w in
  let stored := len (storage_bytes env compress data) in
  exists before now_ : StorageStats,
    get_storage_stats w = (Ok before, w)
    /\ get_storage_stats w' = (Ok now_, w')
    /\ (payload_io env <> WriteOk -> now_ = before)
    /\ (payload_io env = WriteOk ->
        match get (resources (metadata w)) resource_id with
        | None =>
            resource_count now_ = (resource_count before + 1)%Z
            /\ total_size now_ = (total_size before + len data)%Z
            /\ total_compressed_size now_
               = (total_compressed_size before + stored)%Z
        | Some old =>
            resource_count now_ = resource_count before
            /\ total_size now_
               = (total_size before + len data - r_size old)%Z
            /\ total_compressed_size now_
               = (total_compressed_size before + stored
                  - r_compressed_size old)%Z
        end).
Proof.
  cbv zeta. do 2 eexists.
  split; [apply get_storage_stats_totals|].
  split; [apply get_storage_stats_totals|].
  split.
  - intros Hio.
    destruct (store_resource_failed env resource_id data resource_type
                priority compress w Hio) as (_ & Hm & _).
    now rewrite Hm.
  - intros Hio.
    destruct (store_resource_written env resource_id data resource_type
                priority compress w Hio) as (_ & Hm & _).
    rewrite Hm. cbn [resources resource_count total_size total_compressed_size].
    rewrite length_keys_set, !sum_values_set. unfold contains.
    destruct (get (resources (metadata w)) resource_id) as [old|];
      unfold new_record; cbn [r_size r_compressed_size]; repeat split; lia.
Qed.

(** Property X19.  How the statistics follow [delete_resource], the metadata being
    a dict: a call that returns [True] takes one resource and the two
    sizes of its record out of the totals; a call that returns [False]
    leaves the statistics as they were. *)
Theorem stats_follow_delete
    (env : Env) (w : World) (resource_id : string) :
  wf (resources (metadata w)) ->
  let w' := after (delete_resource env resource_id) w in
  exists before now_ : StorageStats,
    get_storage_stats w = (Ok before, w)
    /\ get_storage_stats w' = (Ok now_, w')
    /\ (result (delete_resource env resource_id) w = Ok false ->
        now_ = before)
    /\ (result (delete_resource env resource_id) w = Ok true ->
        exists old : ResourceMeta,
          get (resources (metadata w)) resource_id = Some old
          /\ resource_count now_ = (resource_count before - 1)%Z
          /\ total_size now_ = (total_size before - r_size old)%Z
          /\ total_compressed_size now_
             = (total_compressed_size before - r_compressed_size old)%Z).
Proof.
  intros Hwf. cbv zeta. do 2 eexists.
  split; [apply get_storage_stats_totals|].
  split; [apply get_storage_stats_totals|].
  destruct (contains (resources (metadata w)) resource_id) eqn:Hk.
  2:{ unfold result, after.
      rewrite (delete_resource_unknown env _ _ Hk). cbn [fst snd].
      split; [reflexivity | discriminate]. }
  assert (Hremoved :
    payload_files w !! payload_file w resource_id = None
    \/ remove_io env = None ->
    result (delete_resource env resource_id) w = Ok true
    /\ metadata (after (delete_resource env resource_id) w)
       = {| resources := del (resources (metadata w)) resource_id;
            versions := del (versions (metadata w)) resource_id |}).
  { intros Hio.
    destruct (delete_resource_removed env resource_id w Hk Hio)
      as (Hres & Hm & _). auto. }
  assert (Hfailed :
    forall (sd : bytes) (msg : string),
      payload_files w !! payload_file w resource_id = Some sd ->
      remove_io env = Some msg ->
      result (delete_resource env resource_id) w = Ok false
      /\ metadata (after (delete_resource env resource_id) w) = metadata w).
  { intros sd msg Hf Hio. unfold result, after.
    now rewrite (delete_resource_remove_fails env _ _ _ _ Hk Hf Hio). }
  destruct (payload_files w !! payload_file w resource_id) as [sd|] eqn:Hf;
    [destruct (remove_io env) as [msg|] eqn:Hio|].
  - destruct (Hfailed sd msg eq_refl eq_refl) as [Hres Hm].
    rewrite Hres, Hm. split; [reflexivity | discriminate].
  - destruct Hremoved as [Hres Hm]; [now right|]. rewrite Hres, Hm.
    split; [discriminate|]. intros _.
    apply contains_true_get in Hk as (old & Hold). exists old.
    split; [exact Hold|]. cbn [resources resource_count total_size
                               total_compressed_size].
    destruct (sum_values_del r_size _ _ _ Hwf Hold) as [H1 H2].
    destruct (sum_values_del r_compressed_size _ _ _ Hwf Hold) as [H3 _].
    rewrite H1, H2, H3. auto.
  - destruct Hremoved as [Hres Hm]; [now left|]. rewrite Hres, Hm.
    split; [discriminate|]. intros _.
    apply contains_true_get in Hk as (old & Hold). exists old.
    split; [exact Hold|]. cbn [resources resource_count total_size
                               total_compressed_size].
    destruct (sum_values_del r_size _ _ _ Hwf Hold) as [H1 H2].
    destruct (sum_values_del r_compressed_size _ _ _ Hwf Hold) as [H3 _].
    rewrite H1, H2, H3. auto.
Qed.

(** ** What the manager records *)

Lemma Forall_values_get {V : Type} (P : V -> Prop) (d : PyDict.t V)
    (k : string) (v : V) :
  Forall P (values d) -> get d k = Some v -> P v.
Proof.
  unfold values. induction d as [|[k' v'] d IH]; cbn; intros Hd Hk;
    [discriminate|].
  apply Forall_cons in Hd as [Hv' Hd].
  destruct (String.eqb k' k); [injection Hk as <-; assumption | auto].
Qed.

Lemma step_tidy env c w : tidy (metadata w) -> tidy (metadata (step env c w)).
Proof.
  intros [Hr Hv].
  destruct c as [rid data rtype prio cmp|rid|ty|rid|rid|]; cbn [step];
    try (split; assumption).
  - destruct (payload_io env) eqn:Hio.
    + destruct (store_resource_written env rid data rtype prio cmp w Hio)
        as (_ & Hm & _).
      rewrite Hm. split; cbn [resources versions].
      * apply Forall_values_set; [|exact Hr].
        unfold record_ok, new_record, storage_bytes, len.
        cbn [r_size r_compressed_size r_access_count r_compressed].
        repeat split; try lia. now intros ->.
      * apply Forall_values_set; [|exact Hv]. unfold next_version.
        destruct (get (versions (metadata w)) rid) as [v|] eqn:Hg; [|lia].
        pose proof (Forall_values_get _ _ _ _ Hv Hg) as Hpos. cbn in Hpos. lia.
    + destruct (store_resource_failed env rid data rtype prio cmp w)
        as (_ & Hm & _); [congruence|]. rewrite Hm. now split.
    + destruct (store_resource_failed env rid data rtype prio cmp w)
        as (_ & Hm & _); [congruence|]. rewrite Hm. now split.
  - destruct (get_resource_cases env rid w)
      as [[_ Hm]|(resource_meta & storage_data & data & Hg & Hf & Hrec & Hh)].
    + rewrite Hm. now split.
    + destruct (get_resource_served env _ _ _ _ _ Hg Hf Hrec Hh)
        as (_ & Hm & _).
      rewrite Hm. split; cbn [resources versions]; [|exact Hv].
      apply Forall_values_set; [|exact Hr].
      pose proof (Forall_values_get _ _ _ _ Hr Hg) as (H1 & H2 & H3 & H4).
      unfold record_ok, touch.
      cbn [r_size r_compressed_size r_access_count r_compressed].
      repeat split; try lia. exact H4.
  - destruct (contains (resources (metadata w)) rid) eqn:Hk.
    2:{ unfold after. rewrite (delete_resource_unknown env _ _ Hk).
        now split. }
    assert (Hdel : tidy {| resources := del (resources (metadata w)) rid;
                           versions := del (versions (metadata w)) rid |}).
    { split; cbn [resources versions]; now apply Forall_values_del. }
    destruct (payload_files w !! payload_file w rid) as [sd|] eqn:Hf.
    + destruct (remove_io env) as [msg|] eqn:Hio.
      * unfold after.
        rewrite (delete_resource_remove_fails env _ _ _ _ Hk Hf Hio).
        now split.
      * destruct (delete_resource_removed env rid w Hk (or_intror Hio))
          as (_ & Hm & _).
        now rewrite Hm.
    + destruct (delete_resource_removed env rid w Hk (or_introl Hf))
        as (_ & Hm & _).
      now rewrite Hm.
Qed.

Lemma run_tidy calls w : tidy (metadata w) -> tidy (metadata (run calls w)).
Proof.
  revert w. induction calls as [|[env c] calls IH]; intros w Hw; cbn [run];
    [assumption|]. now apply IH, step_tidy.
Qed.

(** Property X20.  What a manager started without usable metadata file ever
    records, whatever is called and whatever fails: every record has a
    version counter, which is at least 1, so the default of [versions.get]
    in [list_resources] is never used; sizes and the access count are not
    negative; and an uncompressed resource has equal sizes. *)
Theorem recorded_metadata_are_tidy
    (dir : string) (fs : gmap string bytes) (mf : MetaFile)
    (json_error : string) (calls : list (Env * Call)) (resource_id : string)
    (resource_meta : ResourceMeta) :
  mf = Missing \/ mf = Unparseable ->
  let w := run calls (init dir fs mf json_error) in
  get (resources (metadata w)) resource_id = Some resource_meta ->
  (exists version : Z,
     check_version resource_id w = (Ok (Some version), w)
     /\ (1 <= version)%Z
     /\ s_version (summary (versions (metadata w)) resource_id resource_meta)
        = version)
  /\ (0 <= r_size resource_meta)%Z
  /\ (0 <= r_compressed_size resource_meta)%Z
  /\ (0 <= r_access_count resource_meta)%Z
  /\ (r_compressed resource_meta = false ->
      r_compressed_size resource_meta = r_size resource_meta).
Proof.
  intros Hmf. cbv zeta. intros Hget.
  assert (Hempty : metadata (init dir fs mf json_error) = empty_metadata).
  { rewrite init_metadata. now destruct Hmf as [-> | ->]. }
  assert (Hsync : in_sync (metadata (run calls (init dir fs mf json_error)))).
  { apply run_in_sync. rewrite Hempty. apply in_sync_empty. }
  assert (Htidy : tidy (metadata (run calls (init dir fs mf json_error)))).
  { apply run_tidy. rewrite Hempty. split; constructor. }
  destruct Htidy as [Hr Hv]. split.
  - assert (Hk : contains (versions (metadata (run calls
                   (init dir fs mf json_error)))) resource_id = true).
    { rewrite <- Hsync. apply contains_true_get. eauto. }
    apply contains_true_get in Hk as (version & Hversion).
    exists version. unfold check_version, gets, summary. cbn [s_version].
    rewrite Hversion. repeat split.
    apply (Forall_values_get _ _ _ _ Hv Hversion).
  - apply (Forall_values_get _ _ _ _ Hr Hget).
Qed.

(** ** The hash *)

Lemma length_round (state : list N) (kw : N * N) :
  length (Sha256.round state kw) = length state.
Proof.
  unfold Sha256.round.
  do 9 (destruct state as [|? state]; try reflexivity).
Qed.

Lemma length_rounds (kws : list (N * N)) (state : list N) :
  length (fold_left Sha256.round kws state) = length state.
Proof.
  revert state. induction kws as [|kw kws IH]; intros state; cbn [fold_left];
    [reflexivity|]. now rewrite IH, length_round.
Qed.

Lemma length_compress_block (hash block : list N) :
  length (Sha256.compress_block hash block) = length hash.
Proof.
  unfold Sha256.compress_block.
  rewrite length_map, length_combine, length_rounds. lia.
Qed.

Lemma length_blocks (count : nat) (octets hash : list N) :
  length (Sha256.blocks count octets hash) = length hash.
Proof.
  revert octets hash. induction count as [|count IH]; intros octets hash;
    cbn [Sha256.blocks]; [reflexivity|].
  now rewrite IH, length_compress_block.
Qed.

Lemma hex_digit_lower (d : N) : (d < 16)%N -> lower_hex (Sha256.hex_digit d).
Proof.
  intros Hd. unfold lower_hex.
  assert (Hcases : In d (map N.of_nat (seq 0 16))).
  { apply in_map_iff. exists (N.to_nat d). split; [lia|].
    apply in_seq. lia. }
  cbn in Hcases.
  repeat (destruct Hcases as [<-|Hcases]; [cbn; tauto|]).
  contradiction.
Qed.

Lemma hex_word_digits (x : N) :
  String.length (Sha256.hex_word x) = 8%nat
  /\ Forall lower_hex (list_ascii_of_string (Sha256.hex_word x)).
Proof.
  unfold Sha256.hex_word. rewrite list_ascii_of_string_of_list_ascii.
  split; [reflexivity|].
  apply List.Forall_forall. intros c Hc.
  apply in_map_iff in Hc as (i & <- & _).
  apply hex_digit_lower. apply N.mod_lt. discriminate.
Qed.

Lemma list_ascii_of_string_app (s t : string) :
  list_ascii_of_string (s +:+ t)
  = list_ascii_of_string s ++ list_ascii_of_string t.
Proof.
  induction s as [|c s IH]; [reflexivity|].
  change (String c s +:+ t) with (String c (s +:+ t)). cbn. now rewrite IH.
Qed.

Lemma concat_hex_words (hash : list N) :
  String.length (String.concat "" (map Sha256.hex_word hash))
  = (8 * length hash)%nat
  /\ Forall lower_hex
       (list_ascii_of_string (String.concat "" (map Sha256.hex_word hash))).
Proof.
  induction hash as [|x hash [IHl IHd]]; [split; [reflexivity|constructor]|].
  destruct (hex_word_digits x) as [Hl Hd].
  destruct hash as [|y hash].
  - cbn [map String.concat length]. split; [rewrite Hl; lia | exact Hd].
  - change (String.concat "" (map Sha256.hex_word (x :: y :: hash)))
      with (Sha256.hex_word x +:+ "" +:+
            String.concat "" (map Sha256.hex_word (y :: hash))).
    change ("" +:+ ?s) with s.
    split.
    + rewrite length_append, Hl, IHl. cbn [length]. lia.
    + rewrite list_ascii_of_string_app. apply Forall_app. split; assumption.
Qed.

(** Property X21.  The hash that the manager records and returns is always a string
    of 64 lower-case hexadecimal digits, whatever the data. *)
Theorem hash_is_64_hex_digits (data : bytes) :
  String.length (_calculate_hash data) = 64%nat
  /\ Forall lower_hex (list_ascii_of_string (_calculate_hash data)).
Proof.
  unfold _calculate_hash, Sha256.hexdigest. cbv zeta.
  match goal with
  | |- context [map Sha256.hex_word ?h] =>
      destruct (concat_hex_words h) as [Hl Hd];
      assert (Hh : length h = 8%nat) by (now rewrite length_blocks)
  end.
  rewrite Hl, Hh. split; [reflexivity | exact Hd].
Qed.

(** ** Reading and listing *)

(** Property X22.  The resource read last is listed first: after a successful
    [get_resource] at a time later than the [last_accessed] stamps of all
    other resources, [list_resources] starts with the summary of that
    resource, which shows the new stamp and the raised access count. *)
Theorem last_read_is_listed_first
    (env : Env) (w : World) (resource_id : string) (data : bytes)
    (returned : ResourceMeta) :
  wf (resources (metadata w)) ->
  result (get_resource env resource_id) w = Ok (Some (data, returned)) ->
  (forall (other : string) (resource_meta : ResourceMeta),
     other <> resource_id ->
     get (resources (metadata w)) other = Some resource_meta ->
     String.ltb (r_last_accessed resource_meta) (isoformat (now_first env))
     = true) ->
  let w' := after (get_resource env resource_id) w in
  exists rest : list Summary,
    list_resources None w'
    = (Ok (summary (versions (metadata w)) resource_id returned :: rest), w')
    /\ r_last_accessed returned = isoformat (now_first env).
Proof.
  intros Hwf Hres Hlater. cbv zeta.
  destruct (get_resource_some_inv env resource_id w data returned Hres)
    as (before & storage_data & Hg & Hf & Hrec & Hh & ->).
  destruct (get_resource_served env _ _ _ _ _ Hg Hf Hrec Hh) as (_ & Hm & _).
  unfold list_resources, gets. rewrite collect_matching, matching_None.
  rewrite Hm. cbn [resources versions].
  set (rs' := set (resources (metadata w)) resource_id
                (touch (now_first env) before)).
  set (vs := versions (metadata w)).
  set (first := summary vs resource_id (touch (now_first env) before)).
  set (listed := sorted_desc s_last_accessed (summaries vs (items rs'))).
  assert (Hwf' : wf rs') by (now apply wf_set).
  assert (Hin : forall s : Summary, In s listed ->
            s = first \/ key_gt s_last_accessed first s).
  { intros s Hs. apply (Permutation_in _ (sorted_desc_perm _ _)) in Hs.
    unfold summaries in Hs. apply in_map_iff in Hs as ([k r] & <- & Hs).
    apply wf_In_get in Hs; [|exact Hwf']. cbn [fst snd].
    destruct (String.string_dec k resource_id) as [->|Hne].
    - left. unfold rs' in Hs. rewrite get_set_eq in Hs. now injection Hs as <-.
    - right. unfold rs' in Hs. rewrite get_set_ne in Hs by congruence.
      unfold key_gt, first. cbn [summary s_last_accessed touch r_last_accessed].
      now apply (Hlater k). }
  assert (Hfirst : In first listed).
  { apply (Permutation_in _ (Permutation_sym (sorted_desc_perm _ _))).
    unfold summaries. apply in_map_iff. exists (resource_id, touch (now_first env) before).
    split; [reflexivity|]. apply wf_In_get; [exact Hwf'|].
    unfold rs'. apply get_set_eq. }
  pose proof (sorted_desc_sorted s_last_accessed (summaries vs (items rs')))
    as Hsorted. fold listed in Hsorted.
  destruct listed as [|head rest]; [contradiction|].
  exists rest. split; [|reflexivity]. f_equal. f_equal. f_equal.
  destruct (Hin head (or_introl eq_refl)) as [->|Hgt]; [reflexivity|].
  destruct Hfirst as [->|Hrest]; [reflexivity|].
  apply StronglySorted_inv in Hsorted as [_ Hhead].
  rewrite List.Forall_forall in Hhead.
  exfalso. eapply key_gt_not_ge; [exact Hgt | now apply Hhead].
Qed.

End Further.

(** ** Base64 *)

Module Base64Facts.
Import Base64.

Definition below (bound : nat) : list N := map N.of_nat (seq 0 bound).

Lemma In_below (bound : nat) (n : N) :
  (n < N.of_nat bound)%N -> In n (below bound).
Proof.
  intros Hn. apply in_map_iff. exists (N.to_nat n).
  split; [lia | apply in_seq; lia].
Qed.

(** A property of one or two small numbers that a computation confirms. *)
Lemma check_below (bound : nat) (check : N -> bool) :
  forallb check (below bound) = true ->
  forall n : N, (n < N.of_nat bound)%N -> check n = true.
Proof.
  intros Hall n Hn. rewrite forallb_forall in Hall.
  now apply Hall, In_below.
Qed.

Lemma check_below2 (bound : nat) (check : N -> N -> bool) :
  forallb (fun a => forallb (check a) (below bound)) (below bound) = true ->
  forall a b : N,
    (a < N.of_nat bound)%N -> (b < N.of_nat bound)%N -> check a b = true.
Proof.
  intros Hall a b Ha Hb. rewrite forallb_forall in Hall.
  apply (check_below bound (check a)); [|exact Hb].
  now apply Hall, In_below.
Qed.

(** The characters of the alphabet stand for their sextets. *)
Lemma char_of_sextet (s : N) :
  (s < 64)%N ->
  sextet_of (char_of s) = Some s
  /\ Ascii.eqb (char_of s) "=" = false
  /\ is_ascii (char_of s) = true.
Proof.
  intros Hs.
  pose proof (check_below 64
    (fun s => match sextet_of (char_of s) with
              | Some s' => (s' =? s)%N
              | None => false
              end
              && negb (Ascii.eqb (char_of s) "=")
              && is_ascii (char_of s))) as Hcheck.
  specialize (Hcheck ltac:(vm_compute; reflexivity) s Hs).
  cbv beta in Hcheck.
  apply andb_prop in Hcheck as [Hcheck Hascii].
  apply andb_prop in Hcheck as [Hsextet Hpad].
  destruct (sextet_of (char_of s)) as [s'|]; [|discriminate].
  apply N.eqb_eq in Hsextet. subst s'.
  apply negb_true_iff in Hpad. auto.
Qed.

(** How the bits of three octets are spread over four sextets. *)
Lemma sextets_of_pair (a b : N) :
  (a < 256)%N -> (b < 256)%N ->
  let s1 := N.shiftr a 2 in
  let s2 := N.lor (N.shiftl (N.land a 3) 4) (N.shiftr b 4) in
  let s3 := N.lor (N.shiftl (N.land a 15) 2) (N.shiftr b 6) in
  (s1 < 64)%N /\ (s2 < 64)%N /\ (s3 < 64)%N
  /\ (N.land a 63 < 64)%N
  /\ (N.shiftl (N.land a 3) 4 < 64)%N
  /\ (N.shiftl (N.land a 15) 2 < 64)%N
  /\ N.lor (N.shiftl s1 2) (N.shiftr s2 4) = a
  /\ N.land s2 15 = N.shiftr b 4
  /\ N.lor (N.shiftl (N.shiftr a 4) 4) (N.shiftr s3 2) = a
  /\ N.land s3 3 = N.shiftr b 6
  /\ N.lor (N.shiftl (N.shiftr a 6) 6) (N.land a 63) = a
  /\ N.lor (N.shiftl s1 2) (N.shiftr (N.shiftl (N.land a 3) 4) 4) = a
  /\ N.lor (N.shiftl (N.shiftr a 4) 4)
           (N.shiftr (N.shiftl (N.land a 15) 2) 2) = a.
Proof.
  intros Ha Hb. cbv zeta.
  pose proof (check_below2 256
    (fun a b =>
       let s1 := N.shiftr a 2 in
       let s2 := N.lor (N.shiftl (N.land a 3) 4) (N.shiftr b 4) in
       let s3 := N.lor (N.shiftl (N.land a 15) 2) (N.shiftr b 6) in
       (s1 <? 64)%N && (s2 <? 64)%N && (s3 <? 64)%N
       && (N.land a 63 <? 64)%N
       && (N.shiftl (N.land a 3) 4 <? 64)%N
       && (N.shiftl (N.land a 15) 2 <? 64)%N
       && (N.lor (N.shiftl s1 2) (N.shiftr s2 4) =? a)%N
       && (N.land s2 15 =? N.shiftr b 4)%N
       && (N.lor (N.shiftl (N.shiftr a 4) 4) (N.shiftr s3 2) =? a)%N
       && (N.land s3 3 =? N.shiftr b 6)%N
       && (N.lor (N.shiftl (N.shiftr a 6) 6) (N.land a 63) =? a)%N
       && (N.lor (N.shiftl s1 2) (N.shiftr (N.shiftl (N.land a 3) 4) 4) =? a)%N
       && (N.lor (N.shiftl (N.shiftr a 4) 4)
                 (N.shiftr (N.shiftl (N.land a 15) 2) 2) =? a)%N))
    as Hcheck.
  specialize (Hcheck ltac:(vm_compute; reflexivity) a b Ha Hb).
  cbv beta zeta in Hcheck.
  repeat (apply andb_prop in Hcheck as [Hcheck ?]).
  repeat match goal with
         | H : (_ <? _)%N = true |- _ => apply N.ltb_lt in H
         | H : (_ =? _)%N = true |- _ => apply N.eqb_eq in H
         end.
  repeat split; assumption.
Qed.

(** One step of the decoder on a character of the alphabet. *)
Lemma a2b_char (s : N) (rest : list ascii) (quad_pos : nat) (leftchar : N)
    (pads : nat) (out : list N) :
  (s < 64)%N ->
  a2b (char_of s :: rest) quad_pos leftchar pads out
  = match quad_pos with
    | 0%nat => a2b rest 1 s 0 out
    | 1%nat =>
        a2b rest 2 (N.land s 15) 0
            (N.lor (N.shiftl leftchar 2) (N.shiftr s 4) :: out)
    | 2%nat =>
        a2b rest 3 (N.land s 3) 0
            (N.lor (N.shiftl leftchar 4) (N.shiftr s 2) :: out)
    | _ => a2b rest 0 0 0 (N.lor (N.shiftl leftchar 6) s :: out)
    end.
Proof.
  intros Hs. destruct (char_of_sextet s Hs) as (Hsextet & Hpad & _).
  cbn [a2b]. now rewrite Hpad, Hsextet.
Qed.

Lemma a2b_encode (n : nat) (octets out : list N) :
  (length octets <= n)%nat ->
  Forall (fun o => (o < 256)%N) octets ->
  a2b (encode octets) 0 0 0 out = Some (rev out ++ octets).
Proof.
  revert octets out.
  induction n as [|n IH]; intros octets out Hn Hoctets.
  - destruct octets; [|cbn in Hn; lia]. cbn. now rewrite app_nil_r.
  - destruct octets as [|a [|b [|c rest]]].
    + cbn. now rewrite app_nil_r.
    + apply Forall_cons in Hoctets as [Ha _].
      destruct (sextets_of_pair a a Ha Ha)
        as (H1 & _ & _ & _ & H2 & _ & _ & _ & _ & _ & _ & Hout & _).
      cbn [encode]. rewrite !a2b_char by assumption.
      cbn. now rewrite Hout.
    + apply Forall_cons in Hoctets as [Ha Hoctets].
      apply Forall_cons in Hoctets as [Hb _].
      destruct (sextets_of_pair a b Ha Hb)
        as (H1 & H2 & _ & _ & _ & _ & Hout1 & Hleft & _).
      destruct (sextets_of_pair b b Hb Hb)
        as (_ & _ & _ & _ & _ & H3 & _ & _ & _ & _ & _ & _ & Hout2).
      cbn [encode]. rewrite !a2b_char by assumption.
      cbn. rewrite Hout1, Hleft, Hout2.
      now rewrite <- app_assoc.
    + apply Forall_cons in Hoctets as [Ha Hoctets].
      apply Forall_cons in Hoctets as [Hb Hoctets].
      apply Forall_cons in Hoctets as [Hc Hoctets].
      destruct (sextets_of_pair a b Ha Hb)
        as (H1 & H2 & _ & _ & _ & _ & Hout1 & Hleft1 & _).
      destruct (sextets_of_pair b c Hb Hc)
        as (_ & _ & H3 & _ & _ & _ & _ & _ & Hout2 & Hleft2 & _).
      destruct (sextets_of_pair c c Hc Hc)
        as (_ & _ & _ & H4 & _ & _ & _ & _ & _ & _ & Hout3 & _).
      cbn [encode]. rewrite !a2b_char by assumption.
      rewrite Hout1, Hleft1, Hout2, Hleft2, Hout3.
      rewrite IH; [|cbn in Hn; lia | exact Hoctets].
      cbn [rev]. now rewrite <- !app_assoc.
Qed.

Lemma encode_is_ascii (n : nat) (octets : list N) :
  (length octets <= n)%nat ->
  Forall (fun o => (o < 256)%N) octets ->
  forallb is_ascii (encode octets) = true.
Proof.
  revert octets. induction n as [|n IH]; intros octets Hn Hoctets.
  - destruct octets; [reflexivity | cbn in Hn; lia].
  - destruct octets as [|a [|b [|c rest]]]; [reflexivity | | |].
    + apply Forall_cons in Hoctets as [Ha _].
      destruct (sextets_of_pair a a Ha Ha) as (H1 & _ & _ & _ & H2 & _).
      cbn [encode forallb].
      destruct (char_of_sextet _ H1) as (_ & _ & ->).
      destruct (char_of_sextet _ H2) as (_ & _ & ->). reflexivity.
    + apply Forall_cons in Hoctets as [Ha Hoctets].
      apply Forall_cons in Hoctets as [Hb _].
      destruct (sextets_of_pair a b Ha Hb) as (H1 & H2 & _).
      destruct (sextets_of_pair b b Hb Hb) as (_ & _ & _ & _ & _ & H3 & _).
      cbn [encode forallb].
      destruct (char_of_sextet _ H1) as (_ & _ & ->).
      destruct (char_of_sextet _ H2) as (_ & _ & ->).
      destruct (char_of_sextet _ H3) as (_ & _ & ->). reflexivity.
    + apply Forall_cons in Hoctets as [Ha Hoctets].
      apply Forall_cons in Hoctets as [Hb Hoctets].
      apply Forall_cons in Hoctets as [Hc Hoctets].
      destruct (sextets_of_pair a b Ha Hb) as (H1 & H2 & _).
      destruct (sextets_of_pair b c Hb Hc) as (_ & _ & H3 & _).
      destruct (sextets_of_pair c c Hc Hc) as (_ & _ & _ & H4 & _).
      cbn [encode forallb].
      destruct (char_of_sextet _ H1) as (_ & _ & ->).
      destruct (char_of_sextet _ H2) as (_ & _ & ->).
      destruct (char_of_sextet _ H3) as (_ & _ & ->).
      destruct (char_of_sextet _ H4) as (_ & _ & ->).
      cbn [andb]. apply IH; [cbn in Hn; lia | exact Hoctets].
Qed.

Lemma octet_byte_to_N (b : Byte.byte) : octet_byte (Byte.to_N b) = b.
Proof. destruct b; reflexivity. Qed.

(** Decoding what was encoded gives the bytes back. *)
Lemma b64decode_b64encode (data : bytes) :
  b64decode (b64encode data) = Some data.
Proof.
  unfold b64decode, b64encode. cbv zeta.
  rewrite list_ascii_of_string_of_list_ascii.
  assert (Hoctets : Forall (fun o => (o < 256)%N) (map Byte.to_N data)).
  { apply List.Forall_forall. intros o Ho.
    apply in_map_iff in Ho as (b & <- & _).
    pose proof (Byte.to_N_bounded b). lia. }
  rewrite (encode_is_ascii _ _ (le_n _) Hoctets).
  rewrite (a2b_encode _ _ [] (le_n _) Hoctets). cbn [rev app option_map].
  f_equal. rewrite map_map. rewrite <- (map_id data) at 2.
  apply map_ext. intros b. apply octet_byte_to_N.
Qed.

End Base64Facts.

(** ** The handlers *)

Section HandlerFacts.

Context {compressor : Compressor}.
Import PyDict PyDictFacts.

(** A handler whose call of the manager returns goes on with the value. *)
Lemma try_bind_ok {A B : Type} (m : M A) (k : A -> M B) (handler : exn -> M B)
    (w : World) (a : A) :
  result m w = Ok a ->
  try_except (bind m k) handler w = try_except (k a) handler (after m w).
Proof.
  unfold result, after, try_except, bind.
  destruct (m w) as [[a'|e] w']; cbn; [|discriminate].
  now intros [= ->].
Qed.

Lemma try_ret {B : Type} (b : B) (handler : exn -> M B) (w : World) :
  try_except (ret b) handler w = (Ok b, w).
Proof. reflexivity. Qed.

Lemma get_resource_returns env resource_id w :
  exists returned : option (bytes * ResourceMeta),
    result (get_resource env resource_id) w = Ok returned.
Proof.
  destruct (get_resource_cases env resource_id w)
    as [[Hnone _]|(resource_meta & storage_data & data & Hr & Hf & Hrec & Hh)].
  - eauto.
  - destruct (get_resource_served env _ _ _ _ _ Hr Hf Hrec Hh) as (Hs & _).
    eauto.
Qed.

Lemma delete_resource_returns env resource_id w :
  exists success : bool,
    result (delete_resource env resource_id) w = Ok success.
Proof.
  destruct (contains (resources (metadata w)) resource_id) eqn:Hk.
  2:{ unfold result. rewrite (delete_resource_unknown env _ _ Hk). eauto. }
  destruct (payload_files w !! payload_file w resource_id) as [sd|] eqn:Hf;
    [destruct (remove_io env) as [msg|] eqn:Hio|].
  - unfold result.
    rewrite (delete_resource_remove_fails env _ _ _ _ Hk Hf Hio). eauto.
  - destruct (delete_resource_removed env resource_id w Hk (or_intror Hio))
      as (Hres & _). eauto.
  - destruct (delete_resource_removed env resource_id w Hk (or_introl Hf))
      as (Hres & _). eauto.
Qed.

(** Property X23.  What [GET /api/resources/<resource_id>] answers.  The handler
    changes the manager as [get_resource] does and never answers 500.
    When the manager returns data of at most 1 MiB, the answer is 200 and
    carries the data in base64, which decodes to the data, and the record;
    for larger data it carries a download link and no data.  In every
    other case (no record, no payload file, bytes that cannot be
    decompressed, or a hash mismatch) the answer is the same 404,
    "Resource not found". *)
Theorem get_handler_answers (env : Env) (w : World) (resource_id : string) :
  let w' := after (get_resource env resource_id) w in
  exists response : Response,
    App.get_resource env resource_id w = (Ok response, w')
    /\ match result (get_resource env resource_id) w with
       | Ok (Some (data, record)) =>
           status_code response = 200%Z
           /\ member "status" (body response) = Some (JStr "success")
           /\ member "metadata" (body response) = Some (json_of_record record)
           /\ if (len data <=? 1024 * 1024)%Z
              then
                exists encoded : string,
                  member "data" (body response) = Some (JStr encoded)
                  /\ Base64.b64decode encoded = Some data
                  /\ member "encoding" (body response) = Some (JStr "base64")
                  /\ member "download_url" (body response) = None
              else
                member "data" (body response) = None
                /\ member "download_url" (body response)
                   = Some (JStr ("/api/resources/" +:+ resource_id +:+
                                 "/download"))
       | _ => response = App.not_found
       end.
Proof.
  cbv zeta. unfold App.get_resource.
  destruct (get_resource_returns env resource_id w) as [returned Hres].
  rewrite (try_bind_ok _ _ _ _ _ Hres), Hres.
  destruct returned as [[data record]|]; [|eexists; split; reflexivity].
  destruct (len data <=? 1024 * 1024)%Z eqn:Hsmall;
    rewrite try_ret; eexists; (split; [reflexivity|]); cbn;
    repeat split.
  exists (Base64.b64encode data). repeat split.
  apply Base64Facts.b64decode_b64encode.
Qed.

(** Property X24.  What [DELETE /api/resources/<resource_id>] answers: 200 when
    the manager returned [True] and 404 "Resource not found" otherwise,
    never 500.  In particular the answer is 404 for a resource that exists
    but whose payload file cannot be removed, and the resource is still
    recorded afterwards. *)
Theorem delete_handler_answers (env : Env) (w : World) (resource_id : string) :
  let w' := after (delete_resource env resource_id) w in
  exists response : Response,
    App.delete_resource env resource_id w = (Ok response, w')
    /\ (result (delete_resource env resource_id) w = Ok true ->
        response
        = jsonify (JDict [("status", JStr "success");
                          ("message", JStr ("Resource " +:+ resource_id +:+
                                            " deleted"))]))
    /\ (result (delete_resource env resource_id) w <> Ok true ->
        response = App.not_found)
    /\ (forall (storage_data : bytes) (msg : string),
          contains (resources (metadata w)) resource_id = true ->
          payload_files w !! payload_file w resource_id = Some storage_data ->
          remove_io env = Some msg ->
          response = App.not_found
          /\ contains (resources (metadata w')) resource_id = true).
Proof.
  cbv zeta. unfold App.delete_resource.
  destruct (delete_resource_returns env resource_id w) as [success Hres].
  rewrite (try_bind_ok _ _ _ _ _ Hres), Hres.
  destruct success; cbn [negb]; rewrite try_ret; eexists;
    (split; [reflexivity|]).
  - split; [reflexivity|]. split; [congruence|].
    intros sd msg Hk Hf Hio. unfold result in Hres.
    rewrite (delete_resource_remove_fails env _ _ _ _ Hk Hf Hio) in Hres.
    discriminate.
  - split; [discriminate|]. split; [reflexivity|].
    intros sd msg Hk Hf Hio. split; [reflexivity|]. unfold after.
    now rewrite (delete_resource_remove_fails env _ _ _ _ Hk Hf Hio).
Qed.

(** Property X25.  [GET .../info] and [GET .../version] are pure reads and agree in
    every state that a manager started without usable metadata file can
    reach: both answer 404 exactly for the identifiers without record, and
    otherwise 200 with the same version; the default version 1 of the
    info handler is never used. *)
Theorem info_and_version_handlers_agree
    (dir : string) (fs : gmap string bytes) (mf : MetaFile)
    (json_error : string) (calls : list (Env * Call)) (resource_id : string) :
  mf = Missing \/ mf = Unparseable ->
  let w := run calls (init dir fs mf json_error) in
  exists info version : Response,
    App.get_resource_info resource_id w = (Ok info, w)
    /\ App.check_resource_version resource_id w = (Ok version, w)
    /\ status_code info = status_code version
    /\ member "version" (body info) = member "version" (body version)
    /\ (contains (resources (metadata w)) resource_id = false ->
        info = App.not_found /\ version = App.not_found)
    /\ (forall resource_meta : ResourceMeta,
          get (resources (metadata w)) resource_id = Some resource_meta ->
          status_code info = 200%Z
          /\ member "metadata" (body info)
             = Some (json_of_record resource_meta)
          /\ exists v : Z,
               get (versions (metadata w)) resource_id = Some v
               /\ member "version" (body info) = Some (JInt v)).
Proof.
  intros Hmf. cbv zeta.
  set (w := run calls (init dir fs mf json_error)).
  assert (Hsync : in_sync (metadata w)).
  { apply run_in_sync. rewrite init_metadata.
    destruct Hmf as [-> | ->]; apply in_sync_empty. }
  unfold App.get_resource_info, App.check_resource_version.
  unfold check_version, resource_known, resource_getitem, version_get,
    try_except, bind, gets, ret.
  specialize (Hsync resource_id). unfold contains in *. cbv beta.
  destruct (get (resources (metadata w)) resource_id) as [r|] eqn:Hr;
    destruct (get (versions (metadata w)) resource_id) as [v|] eqn:Hv;
    try discriminate; cbn [negb]; rewrite ?Hr, ?Hv.
  - do 2 eexists. split; [reflexivity|]. split; [reflexivity|].
    split; [reflexivity|]. split; [reflexivity|]. split; [discriminate|].
    intros resource_meta [= <-]. split; [reflexivity|].
    split; [reflexivity|]. exists v. split; reflexivity.
  - do 2 eexists. split; [reflexivity|]. split; [reflexivity|].
    split; [reflexivity|]. split; [reflexivity|].
    split; [split; reflexivity | discriminate].
Qed.

(** Property X26.  [POST /api/resources] rejects a body without [resource_id] or
    without [data], and a body whose [data] is no base64, with status 400,
    before the manager is called: nothing is written and nothing is
    logged.  Missing fields are reported before the data are looked at. *)
Theorem store_handler_rejects (env : Env) (w : World) (data : StoreBody) :
  (b_resource_id data = None \/ b_data data = None ->
   App.store_resource env data w
   = (Ok (jsonify_with (error_body "Missing required fields") 400), w))
  /\ (forall resource_id encoded : string,
        b_resource_id data = Some resource_id ->
        b_data data = Some encoded ->
        Base64.b64decode encoded = None ->
        App.store_resource env data w
        = (Ok (jsonify_with (error_body "Invalid base64 data") 400), w)).
Proof.
  unfold App.store_resource. split.
  - intros [H|H]; rewrite H; [|destruct (b_resource_id data)]; reflexivity.
  - intros resource_id encoded Hid Hdata Hbad. cbv zeta.
    now rewrite Hid, Hdata, Hbad.
Qed.

(** Property X27.  [POST /api/resources] answers 200 whenever the body has both
    fields and decodable data, also when storing fails: the failure shows
    only in the body, which is the dict that the manager returned.  The
    members left out of the body default to type "generic", priority 1
    and compression on. *)
Theorem store_handler_answers_200
    (env : Env) (w : World) (data : StoreBody) (resource_id encoded : string)
    (payload : bytes) :
  b_resource_id data = Some resource_id ->
  b_data data = Some encoded ->
  Base64.b64decode encoded = Some payload ->
  let stored :=
    store_resource env resource_id payload
      (get_default (b_type data) "generic") (get_default (b_priority data) 1%Z)
      (get_default (b_compress data) true) in
  exists (response : Response) (returned : StoreResult),
    App.store_resource env data w = (Ok response, after stored w)
    /\ result stored w = Ok returned
    /\ response = jsonify (json_of_store_result returned)
    /\ status_code response = 200%Z
    /\ (payload_io env <> WriteOk ->
        exists message : string,
          body response = error_body message
          /\ metadata (after stored w) = metadata w).
Proof.
  intros Hid Hdata Hpayload. cbv zeta. unfold App.store_resource.
  rewrite Hid, Hdata, Hpayload. cbv zeta.
  destruct (store_resource_returns env resource_id payload
              (get_default (b_type data) "generic")
              (get_default (b_priority data) 1%Z)
              (get_default (b_compress data) true) w) as [returned Hres].
  rewrite (try_bind_ok _ _ _ _ _ Hres), try_ret.
  exists (jsonify (json_of_store_result returned)), returned.
  repeat split; [exact Hres|].
  intros Hio.
  destruct (store_resource_failed env resource_id payload
              (get_default (b_type data) "generic")
              (get_default (b_priority data) 1%Z)
              (get_default (b_compress data) true) w Hio)
    as ((message & Hfailed) & Hm & _).
  rewrite Hres in Hfailed. injection Hfailed as ->.
  exists message. split; [reflexivity | exact Hm].
Qed.

(** Property X28.  Round trip through the API: after a [POST] of a payload of at
    most 1 MiB in base64 whose payload write succeeds, the answer is 200
    with status "success" and the new version, and the next [GET] of the
    identifier answers 200 with the same base64 text as [data]. *)
Theorem post_then_get_round_trip
    (env env' : Env) (w : World) (resource_id : string) (payload : bytes)
    (resource_type : option string) (priority : option Z)
    (compress : option bool) :
  payload_io env = WriteOk ->
  (len payload <= 1024 * 1024)%Z ->
  let request :=
    {| b_resource_id := Some resource_id;
       b_data := Some (Base64.b64encode payload);
       b_type := resource_type; b_priority := priority;
       b_compress := compress |} in
  let w' := after (App.store_resource env request) w in
  exists posted got : Response,
    result (App.store_resource env request) w = Ok posted
    /\ status_code posted = 200%Z
    /\ member "status" (body posted) = Some (JStr "success")
    /\ member "version" (body posted)
       = Some (JInt (next_version (versions (metadata w)) resource_id))
    /\ member "hash" (body posted) = Some (JStr (_calculate_hash payload))
    /\ result (App.get_resource env' resource_id) w' = Ok got
    /\ status_code got = 200%Z
    /\ member "data" (body got) = Some (JStr (Base64.b64encode payload))
    /\ member "encoding" (body got) = Some (JStr "base64").
Proof.
  intros Hio Hsmall. cbv zeta.
  set (ty := get_default resource_type "generic").
  set (prio := get_default priority 1%Z).
  set (cmp := get_default compress true).
  destruct (store_resource_written env resource_id payload ty prio cmp w Hio)
    as (Hres & Hm & Hf & Hd & _).
  assert (Hpost :
    App.store_resource env
      {| b_resource_id := Some resource_id;
         b_data := Some (Base64.b64encode payload);
         b_type := resource_type; b_priority := priority;
         b_compress := compress |} w
    = (Ok (jsonify (json_of_store_result
             (StoreSuccess resource_id (len payload)
                (len (storage_bytes env cmp payload))
                (next_version (versions (metadata w)) resource_id)
                (_calculate_hash payload)))),
       after (store_resource env resource_id payload ty prio cmp) w)).
  { unfold App.store_resource. cbn [b_resource_id b_data b_type b_priority
                                     b_compress].
    rewrite Base64Facts.b64decode_b64encode. cbv zeta.
    fold ty prio cmp.
    now rewrite (try_bind_ok _ _ _ _ _ Hres), try_ret. }
  unfold result at 1, after at 1. rewrite Hpost. cbn [fst snd].
  set (w1 := after (store_resource env resource_id payload ty prio cmp) w)
    in *.
  destruct (get_resource_served env' resource_id w1
              (new_record env payload ty prio cmp)
              (storage_bytes env cmp payload) payload) as (Hget & _).
  { rewrite Hm. cbn. apply get_set_eq. }
  { unfold payload_file. rewrite Hf, Hd. apply lookup_insert_eq. }
  { apply recover_storage_bytes. }
  { reflexivity. }
  do 2 eexists. split; [reflexivity|].
  split; [reflexivity|]. split; [reflexivity|]. split; [reflexivity|].
  split; [reflexivity|].
  unfold App.get_resource, result.
  rewrite (try_bind_ok _ _ _ _ _ Hget).
  apply Z.leb_le in Hsmall. rewrite Hsmall, try_ret. cbn [fst].
  repeat split.
Qed.

End HandlerFacts.

(* ================================================================= *)
(** * Part III: the operations at work *)
(* ================================================================= *)

#[export] Instance stored_gzip : Compressor :=
  {| gzip_compress := StoredGzip.compress;
     gzip_decompress := StoredGzip.decompress;
     gzip_roundtrip := StoredGzipFacts.decompress_compress |}.

Example crc32_hello_world :
  StoredGzip.crc32 (ascii_bytes "hello world") = 0xd4a1185%N.
Proof. vm_compute. reflexivity. Qed.

Definition at_time (h m s us : N) : datetime :=
  {| year := 2024; month := 3; day := 9;
     hour := h; minute := m; second := s; microsecond := us |}.

(** An environment in which nothing fails, at a given time of day. *)
Definition calm (now : datetime) : Env :=
  {| now_first := now; now_second := now; gzip_mtime := 1710000000;
     payload_io := WriteOk; remove_io := None; metadata_io := WriteOk |}.

(** The same, but the disk fills up after [written] bytes of the payload. *)
Definition disk_full (now : datetime) (written : nat) : Env :=
  {| now_first := now; now_second := now; gzip_mtime := 1710000000;
     payload_io := WriteFails written "[Errno 28] No space left on device";
     remove_io := None; metadata_io := WriteOk |}.

Definition hello_world : bytes := ascii_bytes "hello world".
Definition hello_again : bytes := ascii_bytes "hello again".

(** A manager started on an empty directory. *)
Definition fresh : World := init "resources" ∅ Missing "".

Definition t1 := at_time 10 0 0 0.
Definition t2 := at_time 10 0 0 250000.
Definition t3 := at_time 10 0 1 0.
Definition t4 := at_time 11 30 0 0.

Definition stored_a : World :=
  after (store_resource (calm t1) "a" hello_world "text" 1 true) fresh.
Definition stored_a_plain : World :=
  after (store_resource (calm t1) "a" hello_world "text" 1 false) fresh.


Definition hash_hello_world : string :=
  "b94d27b9934d3e08a52e52d7da7dabfac484efe37a5380ee9088f7ace2efcde9".

(** The scenario of the specification: store, read back, overwrite, read
    back. *)
Example store_get_store_get :
  let w1 := after (store_resource (calm t1) "a" hello_world "text" 1 true) fresh in
  let w2 := after (get_resource (calm t2) "a") w1 in
  let w3 := after (store_resource (calm t3) "a" hello_again "generic" 1 true) w2 in
  result (store_resource (calm t1) "a" hello_world "text" 1 true) fresh
  = Ok (StoreSuccess "a" 11 34 1 hash_hello_world)
  /\ (exists record,
        result (get_resource (calm t2) "a") w1 = Ok (Some (hello_world, record)))
  /\ (exists csz h,
        result (store_resource (calm t3) "a" hello_again "generic" 1 true) w2
        = Ok (StoreSuccess "a" 11 csz 2 h))
  /\ (exists record,
        result (get_resource (calm t4) "a") w3 = Ok (Some (hello_again, record))).
Proof. vm_compute. eauto 10. Qed.

Lemma store_get_round_trip_witness :
  result (store_resource (calm t1) "a" hello_world "text" 1 true) fresh
  = Ok (StoreSuccess "a" 11 34 1 hash_hello_world)
  /\ exists record : ResourceMeta,
       result (get_resource (calm t2) "a") stored_a
       = Ok (Some (hello_world, record))
       /\ r_hash record = _calculate_hash hello_world
       /\ hash_hello_world = _calculate_hash hello_world.
Proof.
  split; [vm_compute; reflexivity|].
  apply (store_get_round_trip (calm t1) (calm t2) fresh "a" hello_world
           "text" 1 true "a" 11 34 1 hash_hello_world).
  vm_compute. reflexivity.
Defined.

Lemma store_versions_witness :
  result (store_resource (calm t3) "a" hello_again "generic" 1 true) stored_a
  = Ok (StoreSuccess "a" 11 34 2 (_calculate_hash hello_again))
  /\ check_version "a"
       (after (store_resource (calm t3) "a" hello_again "generic" 1 true)
              stored_a)
     = (Ok (Some 2%Z),
        after (store_resource (calm t3) "a" hello_again "generic" 1 true)
              stored_a).
Proof.
  split; [vm_compute; reflexivity|].
  apply (store_versions (calm t3) stored_a "a" hello_again "generic" 1 true
           "a" 11 34 2 (_calculate_hash hello_again)).
  vm_compute. reflexivity.
Defined.

(** The file of "a" replaced, from outside, by a well-formed member that
    holds other data. *)
Definition tampered_a : World :=
  with_payload_files
    (<["resources/a.bin" := StoredGzip.compress 1720000000 hello_again]>
       (payload_files stored_a))
    stored_a.

Lemma get_detects_corruption_witness :
  result (get_resource (calm t2) "a") tampered_a = Ok None
  /\ logged (after (get_resource (calm t2) "a") tampered_a)
     = logged tampered_a ++ [ERROR "Hash mismatch for resource a"]
  /\ metadata (after (get_resource (calm t2) "a") tampered_a)
     = metadata tampered_a.
Proof.
  destruct (get_detects_corruption (calm t2) tampered_a "a"
              (new_record (calm t1) hello_world "text" 1 true)
              (StoredGzip.compress 1720000000 hello_again) hello_again)
    as (Hres & Hlog & Hmeta & _).
  - vm_compute. reflexivity.
  - vm_compute. reflexivity.
  - vm_compute. reflexivity.
  - vm_compute. discriminate.
  - repeat split; assumption.
Defined.

Lemma compress_decompress_round_trip_witness :
  _decompress_data (_compress_data 1710000000 []) = Ok []
  /\ _decompress_data (_compress_data 1710000000 hello_world) = Ok hello_world.
Proof.
  split.
  - apply (compress_decompress_round_trip 1710000000 []).
  - apply (compress_decompress_round_trip 1710000000 hello_world).
Defined.



(** Three resources, stored in the order "b", "a", "c" and then read at
    [t2], [t1] and [t3]. *)
Definition three : World :=
  run [(calm t1, CallStore "b" hello_again "text" 2 true);
       (calm t1, CallStore "a" hello_world "text" 1 true);
       (calm t1, CallStore "c" [] "binary" 3 false);
       (calm t1, CallGet "a");
       (calm t2, CallGet "b");
       (calm t3, CallGet "c")] fresh.



Lemma stats_are_consistent_witness :
  sizes_nonneg (metadata three)
  /\ exists stats : StorageStats,
       get_storage_stats three = (Ok stats, three)
       /\ resource_count stats = 3%Z
       /\ total_size stats = 22%Z
       /\ total_compressed_size stats = 68%Z
       /\ compression_ratio stats = PyFloat (inject_Z 68 / inject_Z 22).
Proof.
  assert (Hnn : sizes_nonneg (metadata three)).
  { vm_compute. repeat constructor; discriminate. }
  split; [exact Hnn|].
  destruct (stats_are_consistent three Hnn)
    as (stats & Hrun & Hcount & Hsize & Hcsize & Hratio).
  exists stats. rewrite Hrun, Hcount, Hsize, Hcsize, Hratio.
  vm_compute. repeat split; reflexivity.
Defined.

Lemma operations_keep_in_sync_witness :
  in_sync (metadata stored_a)
  /\ in_sync (metadata (step (calm t2) (CallDelete "a") stored_a))
  /\ in_sync (metadata (step (disk_full t3 4)
                          (CallStore "b" hello_again "text" 1 true) stored_a))
  /\ in_sync (metadata three).
Proof.
  assert (Hsync : in_sync (metadata stored_a)).
  { intros resource_id.
    replace (metadata stored_a)
      with {| resources :=
                [("a", new_record (calm t1) hello_world "text" 1 true)];
              versions := [("a", 1%Z)] |}
      by (vm_compute; reflexivity).
    unfold PyDict.contains. cbn [resources versions PyDict.get].
    destruct (String.eqb "a" resource_id); reflexivity. }
  assert (Hfresh : in_sync (metadata fresh)).
  { intros resource_id. vm_compute. reflexivity. }
  split; [exact Hsync|].
  split; [apply (operations_keep_in_sync stored_a Hsync)|].
  split; [apply (operations_keep_in_sync stored_a Hsync)|].
  apply (operations_keep_in_sync fresh Hfresh).
Defined.

Lemma get_touches_only_access_stats_witness :
  result (get_resource (calm t2) "a") stored_a
  = Ok (Some (hello_world,
              touch t2 (new_record (calm t1) hello_world "text" 1 true)))
  /\ versions (metadata (after (get_resource (calm t2) "a") stored_a))
     = versions (metadata stored_a)
  /\ PyDict.keys
       (resources (metadata (after (get_resource (calm t2) "a") stored_a)))
     = PyDict.keys (resources (metadata stored_a)).
Proof.
  assert (Hres : result (get_resource (calm t2) "a") stored_a
                 = Ok (Some (hello_world,
                             touch t2 (new_record (calm t1) hello_world "text"
                                         1 true)))).
  { vm_compute. reflexivity. }
  split; [exact Hres|].
  destruct (get_touches_only_access_stats (calm t2) stored_a "a" hello_world _
              Hres) as (before & H).
  decompose [and] H. split; assumption.
Defined.

(** ** Further scenarios *)

(** The file of "a" replaced, from outside, by bytes that are no gzip
    member. *)
Definition garbled_a : World :=
  with_payload_files (<["resources/a.bin" := hello_world]> (payload_files stored_a))
    stored_a.

(** An environment in which the payload file cannot be removed. *)
Definition locked (now : datetime) : Env :=
  {| now_first := now; now_second := now; gzip_mtime := 1710000000;
     payload_io := WriteOk;
     remove_io := Some "[Errno 13] Permission denied: 'resources/a.bin'";
     metadata_io := WriteOk |}.


Definition three_calls : list (Env * Call) :=
  [(calm t1, CallStore "b" hello_again "text" 2 true);
   (calm t1, CallStore "a" hello_world "text" 1 true);
   (calm t1, CallStore "c" [] "binary" 3 false);
   (calm t1, CallGet "a");
   (calm t2, CallGet "b");
   (calm t3, CallGet "c")].

Lemma get_unknown_or_unstored_witness :
  get_resource (calm t2) "nobody" stored_a = (Ok None, stored_a).
Proof.
  apply (get_unknown_or_unstored (calm t2) stored_a "nobody").
  left. vm_compute. reflexivity.
Defined.

Lemma get_undecodable_payload_witness :
  get_resource (calm t2) "a" garbled_a
  = (Ok None,
     with_logged
       (logged garbled_a
        ++ [ERROR "Error retrieving resource a: Not a gzipped file"])
       garbled_a).
Proof.
  apply (get_undecodable_payload (calm t2) garbled_a "a"
           (new_record (calm t1) hello_world "text" 1 true) hello_world
           (BadGzipFile "Not a gzipped file"));
    vm_compute; reflexivity.
Defined.

Lemma repeated_reads_are_counted_witness :
  exists record : ResourceMeta,
    PyDict.get (resources (metadata
           (get_repeatedly [calm t2; calm t3; calm t4] "a" stored_a))) "a"
    = Some record
    /\ r_access_count record = 3%Z
    /\ r_last_accessed record = isoformat t4.
Proof.
  destruct (repeated_reads_are_counted [calm t2; calm t3; calm t4] stored_a
              "a" hello_world (new_record (calm t1) hello_world "text" 1 true))
    as (record & Hget & Hcount & Hlast & _).
  - exists (new_record (calm t1) hello_world "text" 1 true),
           (_compress_data 1710000000 hello_world).
    split; [vm_compute; reflexivity|].
    split; [vm_compute; reflexivity|].
    split; vm_compute; reflexivity.
  - vm_compute. reflexivity.
  - exists record. split; [exact Hget|].
    split; [rewrite Hcount | rewrite Hlast]; vm_compute; reflexivity.
Defined.

Lemma store_replaces_record_witness :
  PyDict.get (resources (metadata
         (after (store_resource (calm t3) "a" hello_again "generic" 5 false)
                stored_a))) "a"
  = Some (new_record (calm t3) hello_again "generic" 5 false)
  /\ PyDict.keys (resources (metadata
             (after (store_resource (calm t3) "b" hello_again "generic" 5 false)
                    stored_a)))
     = ["a"; "b"].
Proof.
  split.
  - apply (store_replaces_record (calm t3) stored_a "a" hello_again "generic"
             5 false).
    reflexivity.
  - destruct (store_replaces_record (calm t3) stored_a "b" hello_again
                "generic" 5 false) as (_ & _ & _ & Hkeys & _);
      [reflexivity|].
    rewrite Hkeys. vm_compute. reflexivity.
Defined.

Lemma delete_removes_everything_witness :
  check_version "a" (after (delete_resource (calm t2) "a") stored_a)
  = (Ok None, after (delete_resource (calm t2) "a") stored_a)
  /\ result (store_resource (calm t3) "a" hello_again "text" 1 false)
            (after (delete_resource (calm t2) "a") stored_a)
     = Ok (StoreSuccess "a" 11 11 1 (_calculate_hash hello_again)).
Proof.
  destruct (delete_removes_everything (calm t2) (calm t3) stored_a "a")
    as (_ & Hversion & _ & _ & Hstore).
  - vm_compute. reflexivity.
  - split; [exact Hversion|].
    apply (Hstore hello_again "text" 1%Z false). reflexivity.
Defined.

Lemma delete_fails_when_removal_fails_witness :
  result (delete_resource (locked t2) "a") stored_a = Ok false
  /\ metadata (after (delete_resource (locked t2) "a") stored_a)
     = metadata stored_a
  /\ result (delete_resource (calm t3) "a")
            (after (delete_resource (locked t2) "a") stored_a)
     = Ok true.
Proof.
  destruct (delete_fails_when_removal_fails (locked t2) (calm t3) stored_a "a"
              (_compress_data 1710000000 hello_world)
              "[Errno 13] Permission denied: 'resources/a.bin'")
    as (Hres & _ & Hsame & _ & Hretry).
  - vm_compute. reflexivity.
  - vm_compute. reflexivity.
  - reflexivity.
  - split; [exact Hres|]. split; [apply Hsame|].
    apply Hretry. reflexivity.
Defined.


Lemma restart_recovers_metadata_witness :
  metadata (restart "" (run three_calls fresh)) = metadata (run three_calls fresh).
Proof.
  apply (restart_recovers_metadata "resources" ∅ Missing "" "" three_calls).
  repeat constructor.
Defined.


Lemma wf_three : PyDict.wf (resources (metadata (run three_calls fresh))).
Proof.
  destruct (run_from_scratch_sound "resources" ∅ "" three_calls) as [Hwf _].
  exact Hwf.
Qed.

Lemma list_resources_content_witness :
  exists listed : list Summary,
    list_resources (Some "text") (run three_calls fresh)
    = (Ok listed, run three_calls fresh)
    /\ List.NoDup (map s_id listed)
    /\ forall s : Summary, In s listed -> s_type s = "text".
Proof.
  destruct (list_resources_content (run three_calls fresh) (Some "text")
              wf_three) as (listed & Hrun & _ & Hnodup & Htype & _).
  exists listed. split; [exact Hrun|]. split; [exact Hnodup|].
  intros s Hs. now apply (Htype "text").
Defined.

Lemma version_counts_stores_witness :
  PyDict.get (versions (metadata
         (run [(calm t2, CallStore "a" hello_again "text" 1 true);
               (disk_full t3 4, CallStore "a" hello_world "text" 1 true);
               (calm t3, CallGet "a");
               (calm t3, CallDelete "b");
               (calm t4, CallStore "a" [] "text" 1 false)] stored_a))) "a"
  = Some 3%Z.
Proof.
  apply (version_counts_stores
           [(calm t2, CallStore "a" hello_again "text" 1 true);
            (disk_full t3 4, CallStore "a" hello_world "text" 1 true);
            (calm t3, CallGet "a");
            (calm t3, CallDelete "b");
            (calm t4, CallStore "a" [] "text" 1 false)] stored_a "a").
  repeat constructor; discriminate.
Defined.

Lemma stats_follow_delete_witness :
  exists before now_ : StorageStats,
    get_storage_stats (run three_calls fresh)
    = (Ok before, run three_calls fresh)
    /\ get_storage_stats (after (delete_resource (calm t4) "a")
                                (run three_calls fresh))
       = (Ok now_, after (delete_resource (calm t4) "a")
                     (run three_calls fresh))
    /\ resource_count now_ = (resource_count before - 1)%Z
    /\ total_size now_ = (total_size before - 11)%Z.
Proof.
  destruct (stats_follow_delete (calm t4) (run three_calls fresh) "a" wf_three)
    as (before & now_ & Hb & Hn & _ & Hdeleted).
  exists before, now_. split; [exact Hb|]. split; [exact Hn|].
  destruct Hdeleted as (old & Hold & Hcount & Hsize & _).
  - vm_compute. reflexivity.
  - split; [exact Hcount|]. rewrite Hsize. f_equal.
    assert (Hget : PyDict.get (resources (metadata (run three_calls fresh))) "a"
                   = Some (touch t1 (new_record (calm t1) hello_world "text" 1
                                       true)))
      by (vm_compute; reflexivity).
    rewrite Hget in Hold. now injection Hold as <-.
Defined.

Lemma recorded_metadata_are_tidy_witness :
  (exists version : Z,
     check_version "a" (run three_calls fresh)
     = (Ok (Some version), run three_calls fresh)
     /\ (1 <= version)%Z)
  /\ (0 <= r_access_count
             (touch t1 (new_record (calm t1) hello_world "text" 1 true)))%Z.
Proof.
  destruct (recorded_metadata_are_tidy "resources" ∅ Missing "" three_calls "a"
              (touch t1 (new_record (calm t1) hello_world "text" 1 true)))
    as ((version & Hversion & Hpos & _) & _ & _ & Hcount & _).
  - now left.
  - vm_compute. reflexivity.
  - split; [|exact Hcount]. exists version. split; assumption.
Defined.

Lemma last_read_is_listed_first_witness :
  exists rest : list Summary,
    list_resources None (after (get_resource (calm t4) "a")
                           (run three_calls fresh))
    = (Ok (summary (versions (metadata (run three_calls fresh))) "a"
             (touch t4 (touch t1 (new_record (calm t1) hello_world "text" 1
                                    true)))
           :: rest),
       after (get_resource (calm t4) "a") (run three_calls fresh)).
Proof.
  destruct (last_read_is_listed_first (calm t4) (run three_calls fresh) "a"
              hello_world
              (touch t4 (touch t1 (new_record (calm t1) hello_world "text" 1
                                     true))) wf_three)
    as (rest & Hlist & _).
  - vm_compute. reflexivity.
  - intros other resource_meta Hne.
    replace (resources (metadata (run three_calls fresh)))
      with [("b", touch t2 (new_record (calm t1) hello_again "text" 2 true));
            ("a", touch t1 (new_record (calm t1) hello_world "text" 1 true));
            ("c", touch t3 (new_record (calm t1) [] "binary" 3 false))]
      by (vm_compute; reflexivity).
    cbn [PyDict.get].
    destruct (String.eqb "b" other);
      [intros H; injection H as <-; vm_compute; reflexivity|].
    destruct (String.eqb_spec "a" other) as [Ha|_]; [congruence|].
    destruct (String.eqb "c" other);
      [intros H; injection H as <-; vm_compute; reflexivity|].
    discriminate.
  - exists rest. exact Hlist.
Defined.

(** A request that stores "hello world" under "a", uncompressed. *)
Definition post_a : StoreBody :=
  {| b_resource_id := Some "a"; b_data := Some (Base64.b64encode hello_world);
     b_type := None; b_priority := None; b_compress := Some false |}.

Lemma info_and_version_handlers_agree_witness :
  exists info version : Response,
    App.get_resource_info "a" (run three_calls fresh)
    = (Ok info, run three_calls fresh)
    /\ App.check_resource_version "a" (run three_calls fresh)
       = (Ok version, run three_calls fresh)
    /\ status_code info = status_code version
    /\ member "version" (body info) = member "version" (body version).
Proof.
  destruct (info_and_version_handlers_agree "resources" ∅ Missing ""
              three_calls "a")
    as (info & version & Hinfo & Hversion & Hstatus & Hsame & _).
  - now left.
  - exists info, version.
    split; [exact Hinfo|]. split; [exact Hversion|].
    split; [exact Hstatus | exact Hsame].
Defined.

Lemma store_handler_answers_200_witness :
  exists response : Response,
    result (App.store_resource (disk_full t3 0) post_a) stored_a_plain
    = Ok response
    /\ status_code response = 200%Z
    /\ exists message : string, body response = error_body message.
Proof.
  destruct (store_handler_answers_200 (disk_full t3 0) stored_a_plain post_a
              "a" (Base64.b64encode hello_world) hello_world)
    as (response & returned & Hrun & _ & _ & Hstatus & Hfailed).
  - reflexivity.
  - reflexivity.
  - vm_compute. reflexivity.
  - exists response. unfold result. rewrite Hrun.
    split; [reflexivity|]. split; [exact Hstatus|].
    destruct Hfailed as (message & Hbody & _); [discriminate|].
    exists message. exact Hbody.
Defined.

Lemma post_then_get_round_trip_witness :
  exists posted got : Response,
    result (App.store_resource (calm t1) post_a) fresh = Ok posted
    /\ member "version" (body posted) = Some (JInt 1)
    /\ result (App.get_resource (calm t2) "a")
         (after (App.store_resource (calm t1) post_a) fresh)
       = Ok got
    /\ member "data" (body got) = Some (JStr (Base64.b64encode hello_world))
    /\ Base64.b64encode hello_world = "aGVsbG8gd29ybGQ=".
Proof.
  destruct (post_then_get_round_trip (calm t1) (calm t2) fresh "a" hello_world
              None None (Some false))
    as (posted & got & Hpost & _ & _ & Hversion & _ & Hget & _ & Hdata & _).
  - reflexivity.
  - vm_compute. discriminate.
  - exists posted, got. unfold post_a.
    split; [exact Hpost|]. split; [exact Hversion|].
    split; [exact Hget|]. split; [exact Hdata|]. vm_compute. reflexivity.
Defined.
